(** * agent-skills-standard: the [sync] and [init] commands

    A shallow embedding of [cli/src/commands/sync.ts] (with the agent and
    framework tables of [cli/src/constants] and the configuration record
    of [cli/src/models/config.ts]) and the properties of its four stages:
    version reconciliation, skill assembly, target writing and the
    top-level [run]; and of the initializer [InitCommand.run], which
    writes the configuration [sync] reads.

    Conventions of the embedding
    - JavaScript strings are [string]s, arrays are [list]s, optional
      fields are [option]s; JavaScript truthiness is written out
      ([Js.truthy]): an absent field and the empty string are falsy, every
      array (also the empty one) is truthy.
    - [config.skills] is an association list in insertion order, the order
      [Object.entries] iterates in; [config.skills[category]] finds its
      keys and, as for any object, the members inherited from
      [Object.prototype].
    - [.skillsrc] is told apart by what the run can make of it
      ([Skillsrc]); a typed configuration stands for a document of the
      shape of the interface [SkillConfig].
    - The network is a table from URLs to outcomes ([Remote]); a fetch may
      reject, answer with a non-success status, or answer with a body.
    - The file tree is a finite map from absolute paths to contents
      together with the set of directories; the [fs-extra] calls of the
      writer are recorded as events and then applied.  The calls are
      taken to succeed: the writer has no handler of its own for an I/O
      error, which would end the run in the [catch] of [run].
    - A [console.log] is recorded as a message that names the call site
      and carries the values it interpolates; colours are left out.
    - Where two records of the source have a field of the same name, the
      projection of one carries a prefix ([agent_id], [upd_category],
      [npm_version]). *)

From Stdlib Require Import Ascii String.
From stdpp Require Import gmap strings list.

Open Scope string_scope.
Open Scope list_scope.

(** ** JavaScript string primitives *)

Module Js.

(** [s.startsWith(p)] *)
Fixpoint startsWith (p s : string) : bool :=
  match p, s with
  | EmptyString, _ => true
  | String a p', String b s' => if Ascii.eqb a b then startsWith p' s' else false
  | String _ _, EmptyString => false
  end.

Fixpoint drop (n : nat) (s : string) : string :=
  match n, s with
  | O, _ => s
  | S n', String _ s' => drop n' s'
  | S _, EmptyString => EmptyString
  end.

(** [s.replace(pat, rep)] with a string pattern: only the first
    occurrence of [pat] is replaced. *)
Fixpoint replace (pat rep s : string) : string :=
  if startsWith pat s then rep +:+ drop (String.length pat) s
  else match s with
       | EmptyString => EmptyString
       | String c s' => String c (replace pat rep s')
       end.

(** [s.replace(/\\/g, '/')] *)
Fixpoint replaceBackslashes (s : string) : string :=
  match s with
  | EmptyString => EmptyString
  | String c s' =>
      String (if Ascii.eqb c "\" then "/"%char else c) (replaceBackslashes s')
  end.

(** [s.replace(/\/$/, '')]: one trailing slash is removed. *)
Fixpoint stripTrailingSlash (s : string) : string :=
  match s with
  | EmptyString => EmptyString
  | String c EmptyString => if Ascii.eqb c "/" then EmptyString else s
  | String c s' => String c (stripTrailingSlash s')
  end.

(** [s.split(sep)] for a one-character separator. *)
Fixpoint split_aux (sep : ascii) (cur s : string) : list string :=
  match s with
  | EmptyString => [cur]
  | String c s' =>
      if Ascii.eqb c sep then cur :: split_aux sep EmptyString s'
      else split_aux sep (cur +:+ String c EmptyString) s'
  end.

Definition split (sep : ascii) (s : string) : list string :=
  split_aux sep EmptyString s.

(** [parts.join(sep)] *)
Fixpoint join (sep : string) (parts : list string) : string :=
  match parts with
  | [] => EmptyString
  | [p] => p
  | p :: rest => p +:+ sep +:+ join sep rest
  end.

(** [arr.includes(x)] on an array of strings. *)
Definition includes (arr : list string) (x : string) : bool :=
  existsb (String.eqb x) arr.

(** Truthiness of a string, and of an optional string field. *)
Definition truthyStr (s : string) : bool := negb (String.eqb s EmptyString).

Definition truthy (o : option string) : bool :=
  match o with
  | Some s => truthyStr s
  | None => false
  end.

(** [o || d] for an optional string. *)
Definition orElse (o : option string) (d : string) : string :=
  match o with
  | Some s => if truthyStr s then s else d
  | None => d
  end.

(** [Array.from(new Set(xs))]: duplicates are dropped, the first
    occurrence keeps its place. *)
Fixpoint uniq_aux (seen : list string) (xs : list string) : list string :=
  match xs with
  | [] => []
  | x :: rest =>
      if includes seen x then uniq_aux seen rest
      else x :: uniq_aux (x :: seen) rest
  end.

Definition uniq (xs : list string) : list string := uniq_aux [] xs.

(** ASCII upper-casing, the canonicalisation of the [i] flag. *)
Definition upcase (c : ascii) : ascii :=
  let n := nat_of_ascii c in
  if (97 <=? n)%nat && (n <=? 122)%nat then ascii_of_nat (n - 32) else c.

End Js.

(** ** A backtracking matcher for the regular expressions of the source

    Only the constructs the two registry patterns use: a literal
    character (compared modulo case, both patterns carry the [i] flag), a
    greedy [+] over a character class, a greedy optional group, a
    capturing group and concatenation.  Matching is by continuation, so a
    greedy choice is undone when the rest of the pattern fails, as the
    JavaScript engine does. *)

Module Regex.

Inductive re : Type :=
| Eps : re
| Lit : ascii -> re                    (* one literal character *)
| Plus : (ascii -> bool) -> re         (* [cls]+, greedy *)
| Opt : re -> re                       (* (?:r)?, greedy *)
| Cap : nat -> re -> re                (* capturing group number n *)
| Seq : re -> re -> re.

Definition captures := list (nat * string).

Fixpoint lits (s : string) : re :=
  match s with
  | EmptyString => Eps
  | String c s' => Seq (Lit c) (lits s')
  end.

Fixpoint take (n : nat) (s : string) : string :=
  match n, s with
  | S n', String c s' => String c (take n' s')
  | _, _ => EmptyString
  end.

(** Greedy [cls]*: take as many characters as possible, give one back
    at a time while the continuation fails. *)
Fixpoint star (cls : ascii -> bool) (s : string)
    (k : string -> option captures) : option captures :=
  match s with
  | String c s' =>
      if cls c then
        match star cls s' k with
        | Some r => Some r
        | None => k s
        end
      else k s
  | EmptyString => k s
  end.

Fixpoint run (r : re) (s : string) (caps : captures)
    (k : string -> captures -> option captures) : option captures :=
  match r with
  | Eps => k s caps
  | Lit c =>
      match s with
      | String d s' =>
          if Ascii.eqb (Js.upcase c) (Js.upcase d) then k s' caps else None
      | EmptyString => None
      end
  | Plus cls =>
      match s with
      | String d s' => if cls d then star cls s' (fun rest => k rest caps) else None
      | EmptyString => None
      end
  | Opt r' =>
      match run r' s caps k with
      | Some res => Some res
      | None => k s caps
      end
  | Cap n r' =>
      run r' s caps
        (fun rest caps' =>
           k rest ((n, take (String.length s - String.length rest) s) :: caps'))
  | Seq r1 r2 => run r1 s caps (fun rest caps' => run r2 rest caps' k)
  end.

(** [s.match(r)] without the [g] flag: the leftmost position at which
    the pattern matches. *)
Fixpoint exec (r : re) (s : string) : option captures :=
  match run r s [] (fun _ caps => Some caps) with
  | Some caps => Some caps
  | None =>
      match s with
      | EmptyString => None
      | String _ s' => exec r s'
      end
  end.

Fixpoint group (n : nat) (caps : captures) : option string :=
  match caps with
  | [] => None
  | (m, v) :: rest => if Nat.eqb n m then Some v else group n rest
  end.

Definition notIn (cs : list ascii) (c : ascii) : bool :=
  negb (existsb (Ascii.eqb c) cs).

End Regex.

(** ** Registry locators *)

(** [/github\.com\/([^/]+)\/([^/.]+)(?:\.git)?/i] ([checkForUpdates]) *)
Definition reconcilerPattern : Regex.re :=
  Regex.Seq (Regex.lits "github.com/")
    (Regex.Seq (Regex.Cap 1 (Regex.Plus (Regex.notIn ["/"%char])))
       (Regex.Seq (Regex.Lit "/")
          (Regex.Seq (Regex.Cap 2 (Regex.Plus (Regex.notIn ["/"%char; "."%char])))
             (Regex.Opt (Regex.lits ".git"))))).

(** [/github\.com\/([^/]+)\/([^/]+)/i] ([assembleFromRemote]) *)
Definition assemblerPattern : Regex.re :=
  Regex.Seq (Regex.lits "github.com/")
    (Regex.Seq (Regex.Cap 1 (Regex.Plus (Regex.notIn ["/"%char])))
       (Regex.Seq (Regex.Lit "/")
          (Regex.Cap 2 (Regex.Plus (Regex.notIn ["/"%char]))))).

Definition ownerRepo (caps : Regex.captures) : option (string * string) :=
  match Regex.group 1 caps, Regex.group 2 caps with
  | Some owner, Some repo => Some (owner, repo)
  | _, _ => None
  end.

(** Lines 111-118: the match, then [if (!owner || !repo) return config]. *)
Definition reconcilerOwnerRepo (registry : string) : option (string * string) :=
  match Regex.exec reconcilerPattern registry with
  | None => None
  | Some caps =>
      match ownerRepo caps with
      | Some (owner, repo) =>
          if Js.truthyStr owner && Js.truthyStr repo then Some (owner, repo) else None
      | None => None
      end
  end.

(** Lines 209-219: the match, then [const [owner, repo] = githubMatch.slice(1)]. *)
Definition assemblerOwnerRepo (registry : string) : option (string * string) :=
  match Regex.exec assemblerPattern registry with
  | None => None
  | Some caps => ownerRepo caps
  end.

(** ** Data model *)

(** [SkillConfig] of [models/config.ts].  [agents] is declared mandatory
    there, but [writeToTargets] guards it with [||], so the field may be
    missing from the loaded document; likewise [custom_overrides]. *)
Record CategoryConfig : Type := {
  enabled : bool;
  ref : option string;
  exclude : option (list string);
  include : option (list string);
}.

Record SkillConfig : Type := {
  registry : string;
  agents : option (list string);
  skills : list (string * CategoryConfig);
  custom_overrides : option (list string);
}.

(** [GitHubTreeItem] and [GitHubTreeResponse] of [models/types] (the
    fields the command reads). *)
Record GitHubTreeItem : Type := {
  path : string;
  type : string;
}.

Record GitHubTreeResponse : Type := {
  tree : option (list GitHubTreeItem);
}.

Record SkillFile : Type := {
  name : string;
  content : string;
}.

Record CollectedSkill : Type := {
  category : string;
  skill : string;
  files : list SkillFile;
}.

Record NPMRegistryResponse : Type := {
  npm_version : string;
}.

Record GitHubRepoResponse : Type := {
  default_branch : option string;
}.

Record RemoteCategory : Type := {
  version : option string;
  tag_prefix : option string;
}.

Record RemoteMetadata : Type := {
  categories : option (gmap string RemoteCategory);
}.

(** An entry of the [updates] array of [checkForUpdates]. *)
Record Update : Type := {
  upd_category : string;
  from : string;
  to : string;
}.

(** The entry of an own key of [config.skills]. *)
Fixpoint lookupCategory (key : string) (sk : list (string * CategoryConfig))
    : option CategoryConfig :=
  match sk with
  | [] => None
  | (k, v) :: rest => if String.eqb key k then Some v else lookupCategory key rest
  end.

(** The members every object inherits from [Object.prototype]:
    [config.skills], as [yaml.load] builds it, is such an object. *)
Definition objectPrototypeKeys : list string :=
  [ "constructor"; "__defineGetter__"; "__defineSetter__"; "hasOwnProperty";
    "__lookupGetter__"; "__lookupSetter__"; "isPrototypeOf"; "propertyIsEnumerable";
    "toString"; "valueOf"; "__proto__"; "toLocaleString" ].

(** An inherited member read as a category entry: a function (for
    [__proto__] the prototype itself), none of whose [enabled], [ref],
    [exclude] and [include] is defined. *)
Definition inheritedMember : CategoryConfig :=
  {| enabled := false; ref := None; exclude := None; include := None |}.

(** [config.skills[category]]: the entry of an own key, else an inherited
    member, else [undefined]. *)
Definition categoryConfigOf (key : string) (sk : list (string * CategoryConfig))
    : option CategoryConfig :=
  match lookupCategory key sk with
  | Some v => Some v
  | None => if Js.includes objectPrototypeKeys key then Some inheritedMember else None
  end.

(** [config.skills[key].ref = newRef] *)
Fixpoint setRef (key newRef : string) (sk : list (string * CategoryConfig))
    : list (string * CategoryConfig) :=
  match sk with
  | [] => []
  | (k, v) :: rest =>
      if String.eqb key k then
        (k, {| enabled := enabled v; ref := Some newRef;
               exclude := exclude v; include := include v |}) :: rest
      else (k, v) :: setRef key newRef rest
  end.

(** ** Agents ([constants]) *)

Inductive Agent : Type :=
| Cursor | Trae | Claude | Copilot | Antigravity | OpenAI | OpenCode | Gemini | Roo.

Definition agentValue (a : Agent) : string :=
  match a with
  | Cursor => "cursor"
  | Trae => "trae"
  | Claude => "claude"
  | Copilot => "copilot"
  | Antigravity => "antigravity"
  | OpenAI => "openai"
  | OpenCode => "opencode"
  | Gemini => "gemini"
  | Roo => "roo"
  end.

Record AgentDefinition : Type := {
  agent_id : string;
  agent_name : string;
  agent_path : string;
  detectionFiles : list string;
}.

Definition getAgentDefinition (a : Agent) : AgentDefinition :=
  match a with
  | Cursor =>
      {| agent_id := agentValue a; agent_name := "Cursor";
         agent_path := ".cursor/skills"; detectionFiles := [".cursor"; ".cursorrules"] |}
  | Trae =>
      {| agent_id := agentValue a; agent_name := "Trae";
         agent_path := ".trae/skills"; detectionFiles := [".trae"] |}
  | Claude =>
      {| agent_id := agentValue a; agent_name := "Claude Code";
         agent_path := ".claude/skills"; detectionFiles := [".claude"; "CLAUDE.md"] |}
  | Copilot =>
      {| agent_id := agentValue a; agent_name := "GitHub Copilot";
         agent_path := ".github/skills"; detectionFiles := [".github"] |}
  | Antigravity =>
      {| agent_id := agentValue a; agent_name := "Antigravity";
         agent_path := ".agent/skills"; detectionFiles := [".agent"] |}
  | OpenAI =>
      {| agent_id := agentValue a; agent_name := "OpenAI";
         agent_path := ".codex/skills"; detectionFiles := [".codex"] |}
  | OpenCode =>
      {| agent_id := agentValue a; agent_name := "OpenCode";
         agent_path := ".opencode/skills"; detectionFiles := [".opencode"] |}
  | Gemini =>
      {| agent_id := agentValue a; agent_name := "Gemini";
         agent_path := ".gemini/skills"; detectionFiles := [".gemini"] |}
  | Roo =>
      {| agent_id := agentValue a; agent_name := "Roo Code";
         agent_path := ".roo/skills"; detectionFiles := [".roo"] |}
  end.

(** [Object.values(Agent)]: the members in declaration order. *)
Definition agentValues : list Agent :=
  [Cursor; Trae; Claude; Copilot; Antigravity; OpenAI; OpenCode; Gemini; Roo].

Definition SUPPORTED_AGENTS : list AgentDefinition :=
  map getAgentDefinition agentValues.

(** [SUPPORTED_AGENTS.find((a) => a.id === agentId)] *)
Definition findAgent (agentId : string) : option AgentDefinition :=
  find (fun a => String.eqb (agent_id a) agentId) SUPPORTED_AGENTS.

(** ** Effects

    Everything the command does to the outside world is recorded as an
    event, in order. *)

Inductive Purpose : Type :=
| ForNpm
| ForRepo
| ForMetadata
| ForTree (category ref : string)
| ForFile (category skill relativePath : string).

Inductive Msg : Type :=
| MsgSkillsrcNotFound
| MsgRunInitFirst
| MsgNewerCli (currentVersion latestVersion : string)
| MsgHowToUpdateCli
| MsgCliCheckFailed
| MsgCheckingUpdates
| MsgUpdatesAvailable (n : nat)
| MsgUpdateLine (u : Update)
| MsgSkillsrcUpdated
| MsgUpToDate
| MsgCouldNotCheck
| MsgSyncing (registry : string)
| MsgOnlyGitHub
| MsgDiscovering (category ref : string)
| MsgTreeFailed (category ref : string) (status : nat)
| MsgFetched (category skill : string) (n : nat)
| MsgCategoryFailed (category : string)
| MsgSkippingOverridden (relativePath : string)
| MsgUpdated (basePath agentName : string)
| MsgAllSynced
| MsgSyncFailed.

Inductive Event : Type :=
| Log (m : Msg)
| Fetch (why : Purpose) (url : string)
| Prompt (updates : list Update)
| SaveConfig (config : SkillConfig)
| EnsureDir (dir : string)
| OutputFile (file : string) (content : string).

(** The outcome of [await fetch(url)] followed by reading the body: the
    promise rejects (no connection, unreadable body), or the response
    carries a non-success status, or it is [ok] and has a body. *)
Inductive Fetched (A : Type) : Type :=
| Rejected : Fetched A
| NotOk : nat -> Fetched A
| Ok : A -> Fetched A.

Arguments Rejected {A}.
Arguments NotOk {A} status.
Arguments Ok {A} body.

Record Remote : Type := {
  getNpm : string -> Fetched NPMRegistryResponse;
  getRepo : string -> Fetched GitHubRepoResponse;
  getMetadata : string -> Fetched RemoteMetadata;
  getTree : string -> Fetched GitHubTreeResponse;
  getRaw : string -> Fetched string;
}.

(** ** Node's [path] module (POSIX flavour)

    The writer calls [path.join] and [path.relative]; [fs-extra] resolves
    relative paths against the working directory.  These follow Node's
    [lib/path.js]: segments are split on [/], [.] and empty segments are
    dropped, [..] removes the segment before it. *)

Module NodePath.

(** [normalizeString]: [acc] is the stack of kept segments, last first. *)
Fixpoint normalizeSegments (allowAboveRoot : bool) (acc segs : list string)
    : list string :=
  match segs with
  | [] => rev acc
  | seg :: rest =>
      if String.eqb seg EmptyString || String.eqb seg "." then
        normalizeSegments allowAboveRoot acc rest
      else if String.eqb seg ".." then
        match acc with
        | top :: below =>
            if String.eqb top ".." then
              normalizeSegments allowAboveRoot
                (if allowAboveRoot then seg :: acc else acc) rest
            else normalizeSegments allowAboveRoot below rest
        | [] =>
            normalizeSegments allowAboveRoot
              (if allowAboveRoot then [seg] else []) rest
        end
      else normalizeSegments allowAboveRoot (seg :: acc) rest
  end.

Definition isAbsolute (p : string) : bool := Js.startsWith "/" p.

Fixpoint endsWithSlash (p : string) : bool :=
  match p with
  | EmptyString => false
  | String c EmptyString => Ascii.eqb c "/"
  | String _ p' => endsWithSlash p'
  end.

Definition normalize (p : string) : string :=
  if String.eqb p EmptyString then "."
  else
    let body :=
      Js.join "/" (normalizeSegments (negb (isAbsolute p)) [] (Js.split "/" p)) in
    if String.eqb body EmptyString then
      if isAbsolute p then "/" else if endsWithSlash p then "./" else "."
    else
      (if isAbsolute p then "/" else EmptyString) +:+ body +:+
      (if endsWithSlash p then "/" else EmptyString).

(** [path.join(...parts)] *)
Definition join (parts : list string) : string :=
  let joined := Js.join "/" (filter (fun p => Js.truthyStr p = true) parts) in
  if String.eqb joined EmptyString then "." else normalize joined.

(** The segments of [path.resolve(p)] in working directory [cwd]. *)
Definition resolveSegments (cwd p : string) : list string :=
  normalizeSegments false []
    (Js.split "/" (if isAbsolute p then p else cwd +:+ "/" +:+ p)).

Definition absolute (segs : list string) : string := "/" +:+ Js.join "/" segs.

(** [path.resolve(p)] *)
Definition resolve (cwd p : string) : string := absolute (resolveSegments cwd p).

Fixpoint relativeSegments (fromSegs toSegs : list string) : list string :=
  match fromSegs, toSegs with
  | f :: fromRest, t :: toRest =>
      if String.eqb f t then relativeSegments fromRest toRest
      else map (fun _ => "..") fromSegs ++ toSegs
  | _, _ => map (fun _ => "..") fromSegs ++ toSegs
  end.

Definition segmentsOf (absolutePath : string) : list string :=
  List.filter Js.truthyStr (Js.split "/" absolutePath).

(** [path.relative(from, to)]: both ends are resolved first, the
    answer is read off the two resolved paths. *)
Definition relative (cwd from to : string) : string :=
  Js.join "/"
    (relativeSegments (segmentsOf (resolve cwd from)) (segmentsOf (resolve cwd to))).

(** The directories on the way to [segs], [segs] itself last. *)
Fixpoint chain (above segs : list string) : list string :=
  match segs with
  | [] => []
  | seg :: rest => absolute (above ++ [seg]) :: chain (above ++ [seg]) rest
  end.

End NodePath.

(** ** The effect monad of the assembler

    [collected] is the array the assembler pushes to, [events] what it has
    done so far.  A computation ends normally with a value or with a
    thrown exception ([None]); what was pushed or done before the
    exception stays. *)

Record Acc : Type := {
  collected : list CollectedSkill;
  events : list Event;
}.

Definition M (A : Type) : Type := Acc -> Acc * option A.

Definition ret {A : Type} (a : A) : M A := fun st => (st, Some a).

Definition throw {A : Type} : M A := fun st => (st, None).

Definition bind {A B : Type} (m : M A) (f : A -> M B) : M B :=
  fun st =>
    match m st with
    | (st', Some a) => f a st'
    | (st', None) => (st', None)
    end.

(** [try { m } catch { handler }] *)
Definition tryCatch {A : Type} (m : M A) (handler : M A) : M A :=
  fun st =>
    match m st with
    | (st', Some a) => (st', Some a)
    | (st', None) => handler st'
    end.

Definition emit (e : Event) : M unit :=
  fun st => ({| collected := collected st; events := events st ++ [e] |}, Some tt).

Definition push (c : CollectedSkill) : M unit :=
  fun st => ({| collected := collected st ++ [c]; events := events st |}, Some tt).

(** [await fetch(url)], then the body: the call is recorded, a rejected
    promise throws. *)
Definition await {A : Type} (why : Purpose) (url : string) (outcome : Fetched A)
    : M (Fetched A) :=
  fun st =>
    ({| collected := collected st; events := events st ++ [Fetch why url] |},
     match outcome with
     | Rejected => None
     | _ => Some outcome
     end).

Notation "x <- m ;; k" := (bind m (fun x => k))
  (at level 90, m at next level, right associativity).
Notation "m ;;; k" := (bind m (fun _ => k))
  (at level 90, right associativity).

(** ** Skill Assembler ([assembleFromRemote]) *)

(** Lines 293-297. *)
Definition isSupported (relativePath : string) : bool :=
  String.eqb relativePath "SKILL.md"
  || Js.startsWith "references/" relativePath
  || Js.startsWith "scripts/" relativePath
  || Js.startsWith "assets/" relativePath.

Definition skillPrefix (category skillFolderName : string) : string :=
  "skills/" +:+ category +:+ "/" +:+ skillFolderName +:+ "/".

(** Lines 252-264: the distinct third path segments under the category. *)
Definition skillFolders (category : string) (allFiles : list GitHubTreeItem)
    : list string :=
  Js.uniq
    (omap (fun f : GitHubTreeItem =>
             match Js.split "/" (path f) !! 2%nat with
             | Some part => if Js.truthyStr part then Some part else None
             | None => None
             end)
       (List.filter (fun f : GitHubTreeItem =>
                       Js.startsWith ("skills/" +:+ category +:+ "/") (path f))
          allFiles)).

(** Lines 267-276: is the skill folder skipped by the category's filters? *)
Definition skippedByInclude (categoryConfig : CategoryConfig) (skillFolderName : string)
    : bool :=
  match include categoryConfig with
  | Some names => negb (Js.includes names skillFolderName)
  | None => false
  end.

Definition skippedByExclude (categoryConfig : CategoryConfig) (skillFolderName : string)
    : bool :=
  match exclude categoryConfig with
  | Some names => Js.includes names skillFolderName
  | None => false
  end.

(** Lines 281-283. *)
Definition skillSourceFiles (category skillFolderName : string)
    (allFiles : list GitHubTreeItem) : list GitHubTreeItem :=
  List.filter (fun f : GitHubTreeItem =>
                 Js.startsWith (skillPrefix category skillFolderName) (path f))
    allFiles.

Definition relativePathOf (category skillFolderName : string) (fileItem : GitHubTreeItem)
    : string :=
  Js.replace (skillPrefix category skillFolderName) EmptyString (path fileItem).

Definition fileUrlOf (rawBaseUrl category skillFolderName relativePath : string) : string :=
  rawBaseUrl +:+ category +:+ "/" +:+ skillFolderName +:+ "/" +:+ relativePath.

(** Lines 285-308: the loop over the skill's tree entries. *)
Fixpoint fetchSkillFiles (remote : Remote) (rawBaseUrl category skillFolderName : string)
    (items : list GitHubTreeItem) (skillFiles : list SkillFile) : M (list SkillFile) :=
  match items with
  | [] => ret skillFiles
  | fileItem :: rest =>
      let relativePath := relativePathOf category skillFolderName fileItem in
      if isSupported relativePath && String.eqb (type fileItem) "blob" then
        let fileUrl := fileUrlOf rawBaseUrl category skillFolderName relativePath in
        fileRes <- await (ForFile category skillFolderName relativePath) fileUrl
                     (getRaw remote fileUrl) ;;
        match fileRes with
        | Ok content =>
            fetchSkillFiles remote rawBaseUrl category skillFolderName rest
              (skillFiles ++ [{| name := relativePath; content := content |}])
        | _ => fetchSkillFiles remote rawBaseUrl category skillFolderName rest skillFiles
        end
      else fetchSkillFiles remote rawBaseUrl category skillFolderName rest skillFiles
  end.

(** Lines 310-321. *)
Definition collectSkill (category skillFolderName : string) (skillFiles : list SkillFile)
    : M unit :=
  if (0 <? length skillFiles)%nat then
    push {| category := category; skill := skillFolderName; files := skillFiles |} ;;;
    emit (Log (MsgFetched category skillFolderName (length skillFiles)))
  else ret tt.

(** Lines 266-322: the loop over the discovered skill folders. *)
Fixpoint assembleSkills (remote : Remote) (rawBaseUrl category : string)
    (categoryConfig : CategoryConfig) (allFiles : list GitHubTreeItem)
    (folders : list string) : M unit :=
  match folders with
  | [] => ret tt
  | skillFolderName :: rest =>
      if skippedByInclude categoryConfig skillFolderName then
        assembleSkills remote rawBaseUrl category categoryConfig allFiles rest
      else if skippedByExclude categoryConfig skillFolderName then
        assembleSkills remote rawBaseUrl category categoryConfig allFiles rest
      else
        skillFiles <- fetchSkillFiles remote rawBaseUrl category skillFolderName
                        (skillSourceFiles category skillFolderName allFiles) [] ;;
        collectSkill category skillFolderName skillFiles ;;;
        assembleSkills remote rawBaseUrl category categoryConfig allFiles rest
  end.

Definition rawBaseUrlOf (owner repo ref : string) : string :=
  "https://raw.githubusercontent.com/" +:+ owner +:+ "/" +:+ repo +:+ "/" +:+ ref
  +:+ "/skills/".

Definition treeUrlOf (owner repo ref : string) : string :=
  "https://api.github.com/repos/" +:+ owner +:+ "/" +:+ repo +:+ "/git/trees/" +:+ ref
  +:+ "?recursive=1".

(** Lines 229-322: the body of the [try] of one category. *)
Definition discoverCategory (remote : Remote) (owner repo category : string)
    (categoryConfig : CategoryConfig) : M unit :=
  let ref := Js.orElse (ref categoryConfig) "main" in
  emit (Log (MsgDiscovering category ref)) ;;;
  treeRes <- await (ForTree category ref) (treeUrlOf owner repo ref)
               (getTree remote (treeUrlOf owner repo ref)) ;;
  match treeRes with
  | Ok treeData =>
      let allFiles := default [] (tree treeData) in
      assembleSkills remote (rawBaseUrlOf owner repo ref) category categoryConfig allFiles
        (skillFolders category allFiles)
  | NotOk status => emit (Log (MsgTreeFailed category ref status))
  | Rejected => throw
  end.

(** Lines 222-330: the loop over the categories.  [config.skills[category]]
    of a category that is neither a key nor an inherited member is
    [undefined], reading its [ref] throws before the [try] is entered. *)
Fixpoint assembleCategories (remote : Remote) (owner repo : string) (config : SkillConfig)
    (cats : list string) : M unit :=
  match cats with
  | [] => ret tt
  | category :: rest =>
      match categoryConfigOf category (skills config) with
      | None => throw
      | Some categoryConfig =>
          tryCatch (discoverCategory remote owner repo category categoryConfig)
            (emit (Log (MsgCategoryFailed category))) ;;;
          assembleCategories remote owner repo config rest
      end
  end.

(** [assembleFromRemote(categories, config)]: what it did, and the array
    it returns ([None] when it throws). *)
Definition assembleFromRemote (remote : Remote) (cats : list string) (config : SkillConfig)
    : list Event * option (list CollectedSkill) :=
  match assemblerOwnerRepo (registry config) with
  | None => ([Log MsgOnlyGitHub], Some [])
  | Some (owner, repo) =>
      match assembleCategories remote owner repo config cats
              {| collected := []; events := [] |} with
      | (st, Some _) => (events st, Some (collected st))
      | (st, None) => (events st, None)
      end
  end.

(** ** Target Writer ([writeToTargets]) *)

(** Lines 359-361: the target path relative to the working directory,
    separators normalised. *)
Definition targetRelativePath (cwd targetFilePath : string) : string :=
  Js.replaceBackslashes (NodePath.relative cwd cwd targetFilePath).

(** Lines 363-369: the callback of [overrides.some]. *)
Definition overrideMatches (relativePath o : string) : bool :=
  let overridePath := Js.replaceBackslashes o in
  String.eqb relativePath overridePath
  || Js.startsWith (Js.stripTrailingSlash overridePath +:+ "/") relativePath.

Definition isOverridden (overrides : list string) (relativePath : string) : bool :=
  existsb (overrideMatches relativePath) overrides.

(** Line 351 and line 355. *)
Definition skillPathOf (basePath : string) (sk : CollectedSkill) : string :=
  NodePath.join [basePath; category sk; skill sk].

Definition targetFilePathOf (skillPath : string) (fileItem : SkillFile) : string :=
  NodePath.join [skillPath; name fileItem].

(** Lines 354-379: one file of a skill. *)
Definition writeFile (cwd : string) (overrides : list string) (skillPath : string)
    (fileItem : SkillFile) : list Event :=
  let targetFilePath := targetFilePathOf skillPath fileItem in
  let relativePath := targetRelativePath cwd targetFilePath in
  if isOverridden overrides relativePath then
    [Log (MsgSkippingOverridden relativePath)]
  else [OutputFile targetFilePath (content fileItem)].

(** Lines 349-380: one collected skill. *)
Definition writeSkill (cwd : string) (overrides : list string) (basePath : string)
    (sk : CollectedSkill) : list Event :=
  let skillPath := skillPathOf basePath sk in
  EnsureDir skillPath :: flat_map (writeFile cwd overrides skillPath) (files sk).

(** Lines 339-383: one configured agent. *)
Definition writeAgent (cwd : string) (overrides : list string)
    (collectedSkills : list CollectedSkill) (agentId : string) : list Event :=
  match findAgent agentId with
  | None => []
  | Some agentDef =>
      let basePath := agent_path agentDef in
      if Js.truthyStr basePath then
        EnsureDir basePath
        :: flat_map (writeSkill cwd overrides basePath) collectedSkills
        ++ [Log (MsgUpdated basePath (agent_name agentDef))]
      else []
  end.

(** [writeToTargets(skills, config)]: the calls it makes, in order.
    [config.agents || ...] takes the default only when the field is
    missing: an array, also the empty one, is truthy. *)
Definition writeToTargets (cwd : string) (collectedSkills : list CollectedSkill)
    (config : SkillConfig) : list Event :=
  let agentIds := default (map agent_id SUPPORTED_AGENTS) (agents config) in
  let overrides := default [] (custom_overrides config) in
  flat_map (writeAgent cwd overrides collectedSkills) agentIds.

(** ** The file tree

    Regular files by absolute path, and the directories.  [ensureDir]
    creates the directory and those above it, [outputFile] creates the
    directories above the file and replaces its content.  Neither removes
    anything. *)

Record FS : Type := {
  fileContents : gmap string string;
  directories : gset string;
}.

Definition applyEvent (cwd : string) (fs : FS) (e : Event) : FS :=
  match e with
  | EnsureDir dir =>
      {| fileContents := fileContents fs;
         directories :=
           list_to_set (NodePath.chain [] (NodePath.resolveSegments cwd dir))
           ∪ directories fs |}
  | OutputFile file text =>
      let segs := NodePath.resolveSegments cwd file in
      {| fileContents := <[NodePath.absolute segs := text]> (fileContents fs);
         directories :=
           list_to_set (NodePath.chain [] (removelast segs)) ∪ directories fs |}
  | _ => fs
  end.

Definition applyEvents (cwd : string) (fs : FS) (evs : list Event) : FS :=
  fold_left (applyEvent cwd) evs fs.

(** The content of the file a (possibly relative) path denotes. *)
Definition readFile (cwd : string) (fs : FS) (file : string) : option string :=
  fileContents fs !! NodePath.resolve cwd file.

(** ** Version Reconciler ([checkForUpdates]) *)

(** Line 142: [remoteMeta.categories?.[cat]] *)
Definition remoteCategoryOf (remoteMeta : RemoteMetadata) (cat : string)
    : option RemoteCategory :=
  categories remoteMeta ≫= (fun cs => cs !! cat).

(** Lines 139-156: the loop over [Object.entries(config.skills)]. *)
Fixpoint computeUpdates (entries : list (string * CategoryConfig))
    (remoteMeta : RemoteMetadata) : list Update :=
  match entries with
  | [] => []
  | (cat, catConfig) :: rest =>
      let others := computeUpdates rest remoteMeta in
      if negb (enabled catConfig) then others
      else
        match remoteCategoryOf remoteMeta cat with
        | Some {| version := Some v; tag_prefix := Some prefix |} =>
            if Js.truthyStr v && Js.truthyStr prefix then
              let latestTag := prefix +:+ v in
              let currentRef := Js.orElse (ref catConfig) "main" in
              if negb (String.eqb currentRef latestTag) then
                {| upd_category := cat; from := currentRef; to := latestTag |} :: others
              else others
            else others
        | _ => others
        end
  end.

(** Lines 179-181. *)
Definition applyUpdates (updates : list Update) (config : SkillConfig) : SkillConfig :=
  {| registry := registry config;
     agents := agents config;
     skills := fold_left (fun sk u => setRef (upd_category u) (to u) sk) updates
                 (skills config);
     custom_overrides := custom_overrides config |}.

Definition repoUrlOf (owner repo : string) : string :=
  "https://api.github.com/repos/" +:+ owner +:+ "/" +:+ repo.

Definition metaUrlOf (owner repo defaultBranch : string) : string :=
  "https://raw.githubusercontent.com/" +:+ owner +:+ "/" +:+ repo +:+ "/"
  +:+ defaultBranch +:+ "/skills/metadata.json".

(** Lines 158-189, once the metadata is there.  [answer] is what the
    confirmation prompt yields ([None]: the prompt throws, which the
    [catch] of line 190 reports).  Writing [.skillsrc] back is taken to
    succeed. *)
Definition proposeUpdates (answer : list Update -> option bool) (config : SkillConfig)
    (updates : list Update) : list Event * SkillConfig :=
  if (0 <? length updates)%nat then
    let shown :=
      Log (MsgUpdatesAvailable (length updates))
      :: map (fun u => Log (MsgUpdateLine u)) updates ++ [Prompt updates] in
    match answer updates with
    | Some true =>
        let config' := applyUpdates updates config in
        (shown ++ [SaveConfig config'; Log MsgSkillsrcUpdated], config')
    | Some false => (shown, config)
    | None => (shown ++ [Log MsgCouldNotCheck], config)
    end
  else ([Log MsgUpToDate], config).

(** [checkForUpdates(config, configPath)]: what it did and the
    configuration it returns. *)
Definition checkForUpdates (remote : Remote) (answer : list Update -> option bool)
    (config : SkillConfig) : list Event * SkillConfig :=
  match reconcilerOwnerRepo (registry config) with
  | None => ([], config)
  | Some (owner, repo) =>
      let repoCall := [Log MsgCheckingUpdates; Fetch ForRepo (repoUrlOf owner repo)] in
      match getRepo remote (repoUrlOf owner repo) with
      | Rejected => (repoCall ++ [Log MsgCouldNotCheck], config)
      | NotOk _ => (repoCall, config)
      | Ok repoData =>
          let defaultBranch := Js.orElse (default_branch repoData) "main" in
          let metaUrl := metaUrlOf owner repo defaultBranch in
          let metaCall := repoCall ++ [Fetch ForMetadata metaUrl] in
          match getMetadata remote metaUrl with
          | Rejected => (metaCall ++ [Log MsgCouldNotCheck], config)
          | NotOk _ => (metaCall, config)
          | Ok remoteMeta =>
              let (evs, config') :=
                proposeUpdates answer config (computeUpdates (skills config) remoteMeta) in
              (metaCall ++ evs, config')
          end
      end
  end.

(** ** The command ([run]) *)

Definition npmUrl : string := "https://registry.npmjs.org/agent-skills-standard/latest".

(** [checkCLIUpdate()].  [packageJson] is the CLI's own [package.json]:
    missing, unreadable, or carrying a version. *)
Definition checkCLIUpdate (remote : Remote) (packageJson : option (option string))
    : list Event :=
  match packageJson with
  | None => []
  | Some None => [Log MsgCliCheckFailed]
  | Some (Some currentVersion) =>
      Fetch ForNpm npmUrl
      :: match getNpm remote npmUrl with
         | Rejected => [Log MsgCliCheckFailed]
         | NotOk _ => []
         | Ok remoteData =>
             if negb (String.eqb currentVersion (npm_version remoteData)) then
               [Log (MsgNewerCli currentVersion (npm_version remoteData));
                Log MsgHowToUpdateCli]
             else []
         end
  end.

(** What the run finds outside itself. *)
Record Env : Type := {
  cwd : string;
  remote : Remote;
  answer : list Update -> option bool;
  packageJson : option (option string);
}.

(** [.skillsrc] in the working directory, by what lines 38-48 make of it.
    - [Missing]: [fs.pathExists] says no.
    - [Unreadable]: [fs.readFile] or [yaml.load] throws.
    - [NotAConfig]: [yaml.load] returns a value without a [registry]
      string: [undefined] (an empty file), [null], a scalar, a sequence,
      a mapping whose [registry] is missing or is no string.
    - [NoSkills registry]: a mapping with a [registry] string whose
      [skills] is missing or [null].
    - [Loaded config]: a mapping of the shape of the interface
      [SkillConfig]: [registry] a string, [skills] a mapping from names to
      entries with [enabled] and the optional [ref], [include],
      [exclude], and [agents] and [custom_overrides] absent or sequences
      of strings.
    A document of another shape (an entry that is [null], a field of
    another type) is not covered. *)
Inductive Skillsrc : Type :=
| Missing
| Unreadable
| NotAConfig
| NoSkills (registry : string)
| Loaded (config : SkillConfig).

(** The Node process: its exit status and what it has done. *)
Record Process : Type := {
  exitCode : nat;
  output : list Event;
}.

Definition does (evs : list Event) (p : Process) : Process :=
  {| exitCode := exitCode p; output := output p ++ evs |}.

(** Lines 58-60. *)
Definition enabledCategories (config : SkillConfig) : list string :=
  map fst (List.filter (fun entry : string * CategoryConfig => enabled (snd entry))
             (skills config)).

(** Lines 62-66 with the [catch] of line 67: assemble, write, report. *)
Definition assembleAndWrite (env : Env) (config : SkillConfig) : list Event :=
  match assembleFromRemote (remote env) (enabledCategories config) config with
  | (assembled, Some collectedSkills) =>
      assembled ++ writeToTargets (cwd env) collectedSkills config ++ [Log MsgAllSynced]
  | (assembled, None) => assembled ++ [Log MsgSyncFailed]
  end.

(** [checkForUpdates(config, configPath)] on a document without [skills]:
    [Object.entries(config.skills)] of line 139 throws, inside the [try],
    once the metadata is there. *)
Definition checkForUpdatesNoSkills (remote : Remote) (registry : string) : list Event :=
  match reconcilerOwnerRepo registry with
  | None => []
  | Some (owner, repo) =>
      let repoCall := [Log MsgCheckingUpdates; Fetch ForRepo (repoUrlOf owner repo)] in
      match getRepo remote (repoUrlOf owner repo) with
      | Rejected => repoCall ++ [Log MsgCouldNotCheck]
      | NotOk _ => repoCall
      | Ok repoData =>
          let defaultBranch := Js.orElse (default_branch repoData) "main" in
          let metaUrl := metaUrlOf owner repo defaultBranch in
          let metaCall := repoCall ++ [Fetch ForMetadata metaUrl] in
          match getMetadata remote metaUrl with
          | Rejected => metaCall ++ [Log MsgCouldNotCheck]
          | NotOk _ => metaCall
          | Ok _ => metaCall ++ [Log MsgCouldNotCheck]
          end
      end
  end.

(** [run()].  The CLI check of line 51 comes before the first use of the
    loaded value: without a [registry] string line 111 throws, without
    [skills] line 58 does, both into the [catch] of line 67. *)
Definition run (env : Env) (skillsrc : Skillsrc) (p : Process) : Process :=
  match skillsrc with
  | Missing => does [Log MsgSkillsrcNotFound; Log MsgRunInitFirst] p
  | Unreadable => does [Log MsgSyncFailed] p
  | NotAConfig =>
      does (checkCLIUpdate (remote env) (packageJson env) ++ [Log MsgSyncFailed]) p
  | NoSkills registry =>
      does (checkCLIUpdate (remote env) (packageJson env)
            ++ checkForUpdatesNoSkills (remote env) registry
            ++ [Log (MsgSyncing registry); Log MsgSyncFailed]) p
  | Loaded config =>
      let cli := checkCLIUpdate (remote env) (packageJson env) in
      let (reconciled, config') := checkForUpdates (remote env) (answer env) config in
      does (cli ++ reconciled ++ [Log (MsgSyncing (registry config'))]
            ++ assembleAndWrite env config') p
  end.

(** The [sync] action of [index.ts]: a fresh process, whose exit status
    is zero until something sets it, runs the command. *)
Definition syncAction (env : Env) (skillsrc : Skillsrc) : Process :=
  run env skillsrc {| exitCode := 0; output := [] |}.

(** ** Frameworks ([constants]) *)

Inductive Framework : Type :=
| Flutter | NestJS | Golang | NextJS | React | ReactNative | Angular.

Definition frameworkValue (f : Framework) : string :=
  match f with
  | Flutter => "flutter"
  | NestJS => "nestjs"
  | Golang => "golang"
  | NextJS => "nextjs"
  | React => "react"
  | ReactNative => "react-native"
  | Angular => "angular"
  end.

Record FrameworkDefinition : Type := {
  framework_id : string;
  framework_name : string;
  languages : list string;
  framework_detectionFiles : list string;
  detectionDependencies : option (list string);
}.

Definition getFrameworkDefinition (f : Framework) : FrameworkDefinition :=
  match f with
  | Flutter =>
      {| framework_id := frameworkValue f; framework_name := "Flutter";
         languages := ["dart"]; framework_detectionFiles := ["pubspec.yaml"];
         detectionDependencies := None |}
  | NestJS =>
      {| framework_id := frameworkValue f; framework_name := "NestJS";
         languages := ["typescript"; "javascript"];
         framework_detectionFiles := ["nest-cli.json"];
         detectionDependencies := Some ["@nestjs/core"] |}
  | Golang =>
      {| framework_id := frameworkValue f; framework_name := "Go (Golang)";
         languages := ["go"]; framework_detectionFiles := ["go.mod"];
         detectionDependencies := None |}
  | NextJS =>
      {| framework_id := frameworkValue f; framework_name := "Next.js";
         languages := ["typescript"; "javascript"];
         framework_detectionFiles := ["next.config.js"; "next.config.mjs"];
         detectionDependencies := Some ["next"] |}
  | React =>
      {| framework_id := frameworkValue f; framework_name := "React";
         languages := ["typescript"; "javascript"];
         framework_detectionFiles := [];
         detectionDependencies := Some ["react"; "react-dom"] |}
  | ReactNative =>
      {| framework_id := frameworkValue f; framework_name := "React Native";
         languages := ["typescript"; "javascript"];
         framework_detectionFiles := ["metro.config.js"];
         detectionDependencies := Some ["react-native"] |}
  | Angular =>
      {| framework_id := frameworkValue f; framework_name := "Angular";
         languages := ["typescript"]; framework_detectionFiles := ["angular.json"];
         detectionDependencies := None |}
  end.

(** [Object.values(Framework)] *)
Definition frameworkValues : list Framework :=
  [Flutter; NestJS; Golang; NextJS; React; ReactNative; Angular].

Definition SUPPORTED_FRAMEWORKS : list FrameworkDefinition :=
  map getFrameworkDefinition frameworkValues.

(** ** The initializer ([InitCommand.run], [commands/init])

    What the command finds: which paths exist, the dependencies of the
    project's [package.json], what the registry replies, and what the
    user answers.  What it does is recorded as events of its own.  The
    prompts are taken to be answered and [yaml.dump] and [fs.writeFile]
    to succeed: the command has no handler for them, a failure would end
    it there. *)

(** A reply with the reading of its body told apart from the fetch: the
    initializer awaits the two fetches together and reads the bodies one
    after the other.  A body that is read is taken to be a JSON object. *)
Inductive Reply (A : Type) : Type :=
| Unreachable : Reply A                (* the fetch rejects *)
| Status : nat -> Reply A              (* a response that is not [ok] *)
| Garbled : Reply A                    (* [ok], but [json()] rejects *)
| Body : A -> Reply A.                 (* [ok] and parsed *)

Arguments Unreachable {A}.
Arguments Status {A} code.
Arguments Garbled {A}.
Arguments Body {A} a.

Record InitEnv : Type := {
  init_cwd : string;
  present : string -> bool;                   (* [fs.pathExists] *)
  packageDeps : option (list string);         (* names in [dependencies] and
                                                 [devDependencies]; [None]:
                                                 [readJson] throws *)
  treeReply : Reply GitHubTreeResponse;
  metadataReply : Reply RemoteMetadata;
  overwrite : bool;
  chosenFramework : string;
  chosenAgents : list string;
  chosenRegistry : string;
}.

Inductive InitMsg : Type :=
| MsgPackageJsonFailed
| MsgRegistryFailed
| MsgAborted
| MsgNotYetDefined (framework : string)
| MsgGlobalStandards
| MsgInitialized
| MsgSelectedFramework (framework : string)
| MsgAutoEnabled (languages : string)
| MsgNextStep.

Inductive InitEvent : Type :=
| Say (m : InitMsg)
| Get (url : string)
| AskOverwrite
| AskPreferences (choices : list (string * string)) (defaultFramework : string)
    (agentChoices : list (string * string * bool))
| SaveSkillsrc (config : SkillConfig).

(** Lines 25-38 of the command: the dependency names of [package.json],
    none when there is no such file or it cannot be read. *)
Definition loadPackageDeps (env : InitEnv) : list InitEvent * list string :=
  if present env (NodePath.join [init_cwd env; "package.json"]) then
    match packageDeps env with
    | Some names => ([], names)
    | None => ([Say MsgPackageJsonFailed], [])
    end
  else ([], []).

(** The loop over [detectionFiles]. *)
Definition detectedByFiles (env : InitEnv) (files : list string) : bool :=
  existsb (present env) files.

(** Project detection, one framework. *)
Definition frameworkDetected (env : InitEnv) (deps : list string)
    (f : FrameworkDefinition) : bool :=
  if detectedByFiles env (framework_detectionFiles f) then true
  else
    match detectionDependencies f with
    | Some wanted =>
        if (0 <? length wanted)%nat then existsb (Js.includes deps) wanted else false
    | None => false
    end.

(** [detectionResults] and [agentDetection]: one entry per table row. *)
Definition detectionResults (env : InitEnv) (deps : list string) : list (string * bool) :=
  map (fun f => (framework_id f, frameworkDetected env deps f)) SUPPORTED_FRAMEWORKS.

Definition agentDetection (env : InitEnv) : list (string * bool) :=
  map (fun a => (agent_id a, detectedByFiles env (detectionFiles a))) SUPPORTED_AGENTS.

(** [record[key]], read as a condition ([undefined] is falsy). *)
Fixpoint flagOf (key : string) (record : list (string * bool)) : bool :=
  match record with
  | [] => false
  | (k, v) :: rest => if String.eqb key k then v else flagOf key rest
  end.

(** [shouldCheck] *)
Definition shouldCheck (env : InitEnv) (agentId : string) : bool :=
  if existsb snd (agentDetection env) then flagOf agentId (agentDetection env) else true.

Definition initTreeUrl : string :=
  "https://api.github.com/repos/NamNHCem/agent-skills-standard/git/trees/main?recursive=1".

Definition initMetadataUrl : string :=
  "https://raw.githubusercontent.com/NamNHCem/agent-skills-standard/main/skills/metadata.json".

Definition noMetadata : RemoteMetadata := {| categories := None |}.

Definition defaultCategories : list string := ["flutter"; "dart"].

(** The top-level folders under [skills/] of a listing. *)
Definition topLevelCategories (allFiles : list GitHubTreeItem) : list string :=
  Js.uniq
    (omap (fun f : GitHubTreeItem =>
             if Js.startsWith "skills/" (path f) && String.eqb (type f) "tree" then
               let parts := Js.split "/" (path f) in
               if (length parts =? 2)%nat then parts !! 1%nat else None
             else None)
       allFiles).

Definition categoriesOfListing (treeData : GitHubTreeResponse) : list string :=
  let found := topLevelCategories (default [] (tree treeData)) in
  if (0 <? length found)%nat then found else defaultCategories.

(** The [try] around the two fetches: what is logged, the metadata and
    the supported categories it leaves.  Both fetches are awaited
    together, so one that rejects loses both answers; a body that cannot
    be read ends the block where it is read. *)
Definition askRegistry (env : InitEnv) : list InitEvent * RemoteMetadata * list string :=
  match treeReply env, metadataReply env with
  | Unreachable, _ | _, Unreachable => ([Say MsgRegistryFailed], noMetadata, defaultCategories)
  | _, Garbled => ([Say MsgRegistryFailed], noMetadata, defaultCategories)
  | tree, metadataAnswer =>
      let metadata :=
        match metadataAnswer with
        | Body m => m
        | _ => noMetadata
        end in
      match tree with
      | Body treeData => ([], metadata, categoriesOfListing treeData)
      | Garbled => ([Say MsgRegistryFailed], metadata, defaultCategories)
      | _ => ([], metadata, defaultCategories)
      end
  end.

(** The entries of the framework prompt. *)
Definition frameworkChoices (supportedCategories : list string) : list (string * string) :=
  map (fun f =>
         (if Js.includes supportedCategories (framework_id f) then framework_name f
          else framework_name f +:+ " (Coming Soon)",
          framework_id f))
    SUPPORTED_FRAMEWORKS.

Definition defaultFrameworkOf (results : list (string * bool)) : string :=
  match find (fun f => flagOf (framework_id f) results) SUPPORTED_FRAMEWORKS with
  | Some f => Js.orElse (Some (framework_id f)) "flutter"
  | None => "flutter"
  end.

Definition agentChoicesOf (env : InitEnv) : list (string * string * bool) :=
  map (fun a =>
         (agent_name a +:+ " (" +:+ agent_path a +:+ "/)", agent_id a,
          shouldCheck env (agent_id a)))
    SUPPORTED_AGENTS.

(** [neededSkills], in insertion order. *)
Definition neededSkills (framework : string) : list string :=
  Js.uniq
    ([framework]
     ++ match find (fun f => String.eqb (framework_id f) framework) SUPPORTED_FRAMEWORKS with
        | Some selectedFramework => languages selectedFramework
        | None => []
        end
     ++ (if String.eqb framework (frameworkValue NextJS)
            || String.eqb framework (frameworkValue ReactNative)
         then [frameworkValue React] else [])).

Definition allKnownCategories : list string :=
  map framework_id SUPPORTED_FRAMEWORKS ++ flat_map languages SUPPORTED_FRAMEWORKS.

(** The ref the initializer pins a category to. *)
Definition pinnedRef (metadata : RemoteMetadata) (skillName : string) : option string :=
  match remoteCategoryOf metadata skillName with
  | Some {| version := Some v; tag_prefix := Some prefix |} =>
      if Js.truthyStr v && Js.truthyStr prefix then Some (prefix +:+ v) else None
  | _ => None
  end.

(** The loop that fills [config.skills]. *)
Definition initialSkills (metadata : RemoteMetadata) (framework : string)
    : list (string * CategoryConfig) :=
  omap (fun skillName =>
          if Js.includes (neededSkills framework) skillName then
            Some (skillName,
                  {| enabled := true; ref := pinnedRef metadata skillName;
                     exclude := None; include := None |})
          else None)
    (Js.uniq allKnownCategories).

Definition initialConfig (env : InitEnv) (metadata : RemoteMetadata) : SkillConfig :=
  {| registry := chosenRegistry env;
     agents := Some (chosenAgents env);
     skills := initialSkills metadata (chosenFramework env);
     custom_overrides := Some [] |}.

Definition autoEnabled (framework : string) : string :=
  let others :=
    Js.join ", " (List.filter (fun s => negb (String.eqb s framework))
                    (neededSkills framework)) in
  if Js.truthyStr others then others else "none".

(** [InitCommand.run()] *)
Definition initRun (env : InitEnv) : list InitEvent :=
  let (packageLog, deps) := loadPackageDeps env in
  let '(registryLog, metadata, supportedCategories) := askRegistry env in
  let before := packageLog ++ [Get initTreeUrl; Get initMetadataUrl] ++ registryLog in
  if present env (NodePath.join [init_cwd env; ".skillsrc"]) && negb (overwrite env) then
    before ++ [AskOverwrite; Say MsgAborted]
  else
    before
    ++ (if present env (NodePath.join [init_cwd env; ".skillsrc"]) then [AskOverwrite]
        else [])
    ++ [AskPreferences (frameworkChoices supportedCategories)
          (defaultFrameworkOf (detectionResults env deps)) (agentChoicesOf env)]
    ++ (if Js.includes supportedCategories (chosenFramework env) then []
        else [Say (MsgNotYetDefined (chosenFramework env)); Say MsgGlobalStandards])
    ++ [SaveSkillsrc (initialConfig env metadata);
        Say MsgInitialized;
        Say (MsgSelectedFramework (chosenFramework env));
        Say (MsgAutoEnabled (autoEnabled (chosenFramework env)));
        Say MsgNextStep].

(** ** The specification's wording, as definitions

    Written from the sentences of the specification, to be compared with
    the functions above. *)

(** "A rule matches if the relative path equals the rule exactly, or if
    the relative path starts with the rule (trailing slash stripped)
    followed by a slash." *)
Definition ruleMatches (relativePath rule : string) : Prop :=
  relativePath = rule
  \/ Js.startsWith (Js.stripTrailingSlash rule +:+ "/") relativePath = true.

(** "A name absent from a present include list is skipped; a name present
    in the exclude list is skipped." *)
Definition filteredOut (categoryConfig : CategoryConfig) (skillName : string) : Prop :=
  (exists names, include categoryConfig = Some names /\ skillName ∉ names)
  \/ (exists names, exclude categoryConfig = Some names /\ skillName ∈ names).

(** "Tree entries whose path starts with skills/{category}/{skill}/, whose
    type is blob, and whose path relative to the skill folder equals
    SKILL.md or begins with references/, scripts/ or assets/." *)
Definition eligible (category skillName : string) (entry : GitHubTreeItem) : bool :=
  let folder := "skills/" +:+ category +:+ "/" +:+ skillName +:+ "/" in
  let relativePath := Js.drop (String.length folder) (path entry) in
  Js.startsWith folder (path entry)
  && String.eqb (type entry) "blob"
  && (String.eqb relativePath "SKILL.md"
      || Js.startsWith "references/" relativePath
      || Js.startsWith "scripts/" relativePath
      || Js.startsWith "assets/" relativePath).

Definition eligibleName (category skillName : string) (entry : GitHubTreeItem) : string :=
  Js.drop (String.length ("skills/" +:+ category +:+ "/" +:+ skillName +:+ "/"))
    (path entry).


(** "Fetch each surviving file's raw content individually": the loop of
    the source with the selection taken out of it.  Every entry handed
    over is requested, one after the other, and each answer is treated as
    the source treats it. *)
Fixpoint fetchEach (remote : Remote) (rawBaseUrl category skillName : string)
    (selected : list GitHubTreeItem) (skillFiles : list SkillFile) : M (list SkillFile) :=
  match selected with
  | [] => ret skillFiles
  | entry :: rest =>
      let relativePath := eligibleName category skillName entry in
      let fileUrl := fileUrlOf rawBaseUrl category skillName relativePath in
      fileRes <- await (ForFile category skillName relativePath) fileUrl
                   (getRaw remote fileUrl) ;;
      match fileRes with
      | Ok text =>
          fetchEach remote rawBaseUrl category skillName rest
            (skillFiles ++ [{| name := relativePath; content := text |}])
      | _ => fetchEach remote rawBaseUrl category skillName rest skillFiles
      end
  end.

(** The files among [selected] whose fetch succeeded, in order. *)
Fixpoint gotFrom (remote : Remote) (rawBaseUrl category skillName : string)
    (selected : list GitHubTreeItem) : list SkillFile :=
  match selected with
  | [] => []
  | entry :: rest =>
      let relativePath := eligibleName category skillName entry in
      match getRaw remote (fileUrlOf rawBaseUrl category skillName relativePath) with
      | Ok text =>
          {| name := relativePath; content := text |}
          :: gotFrom remote rawBaseUrl category skillName rest
      | _ => gotFrom remote rawBaseUrl category skillName rest
      end
  end.

(** Does the fetch of one of [selected] reject? *)
Fixpoint rejectsIn (remote : Remote) (rawBaseUrl category skillName : string)
    (selected : list GitHubTreeItem) : bool :=
  match selected with
  | [] => false
  | entry :: rest =>
      match getRaw remote
              (fileUrlOf rawBaseUrl category skillName
                 (eligibleName category skillName entry)) with
      | Rejected => true
      | _ => rejectsIn remote rawBaseUrl category skillName rest
      end
  end.

(** The requests made for [selected], one after the other, up to and
    including the first that rejects. *)
Fixpoint requestsOf (remote : Remote) (rawBaseUrl category skillName : string)
    (selected : list GitHubTreeItem) : list Event :=
  match selected with
  | [] => []
  | entry :: rest =>
      let relativePath := eligibleName category skillName entry in
      let fileUrl := fileUrlOf rawBaseUrl category skillName relativePath in
      Fetch (ForFile category skillName relativePath) fileUrl
      :: match getRaw remote fileUrl with
         | Rejected => []
         | _ => requestsOf remote rawBaseUrl category skillName rest
         end
  end.

(** The files of a skill whose fetch succeeded, in listing order. *)
Definition fetchedFiles (remote : Remote) (rawBaseUrl category skillName : string)
    (allFiles : list GitHubTreeItem) : list SkillFile :=
  gotFrom remote rawBaseUrl category skillName
    (List.filter (eligible category skillName) allFiles).

(** Does some fetch of the skill's eligible files reject? *)
Definition someFetchRejects (remote : Remote) (rawBaseUrl category skillName : string)
    (allFiles : list GitHubTreeItem) : bool :=
  rejectsIn remote rawBaseUrl category skillName
    (List.filter (eligible category skillName) allFiles).

(** The skills of a category that pass its filters, in discovery order. *)
Definition survivingSkills (category : string) (categoryConfig : CategoryConfig)
    (allFiles : list GitHubTreeItem) : list string :=
  List.filter (fun s => negb (skippedByInclude categoryConfig s)
                        && negb (skippedByExclude categoryConfig s))
    (skillFolders category allFiles).

(** The collected entry of a skill: its fetched files, if there are any. *)
Definition skillOf (remote : Remote) (rawBaseUrl category : string)
    (allFiles : list GitHubTreeItem) (s : string) : option CollectedSkill :=
  let got := fetchedFiles remote rawBaseUrl category s allFiles in
  if (0 <? length got)%nat then
    Some {| category := category; skill := s; files := got |}
  else None.

(** What a category contributes when no file fetch rejects. *)
Definition collectedOf (remote : Remote) (owner repo category : string)
    (categoryConfig : CategoryConfig) : list CollectedSkill :=
  let ref := Js.orElse (ref categoryConfig) "main" in
  match getTree remote (treeUrlOf owner repo ref) with
  | Ok treeData =>
      let allFiles := default [] (tree treeData) in
      omap (skillOf remote (rawBaseUrlOf owner repo ref) category allFiles)
        (survivingSkills category categoryConfig allFiles)
  | _ => []
  end.

(** ** Fixtures *)

Definition blob (p : string) : GitHubTreeItem := {| path := p; type := "blob" |}.
Definition dir (p : string) : GitHubTreeItem := {| path := p; type := "tree" |}.

Definition demoTree : list GitHubTreeItem :=
  [ dir "skills"; dir "skills/flutter"; dir "skills/flutter/bloc";
    blob "skills/flutter/bloc/SKILL.md";
    blob "skills/flutter/bloc/notes.txt";
    dir "skills/flutter/bloc/references";
    blob "skills/flutter/bloc/references/guide.md";
    blob "skills/flutter/bloc/scripts/run.sh";
    dir "skills/flutter/ui";
    blob "skills/flutter/ui/SKILL.md";
    blob "skills/react/hooks/SKILL.md" ].

(** A remote that serves [demoTree] at every ref and answers raw file
    requests as [raw] says. *)
Definition demoRemote (raw : string -> Fetched string) : Remote :=
  {| getNpm := fun _ => Ok {| npm_version := "1.1.1" |};
     getRepo := fun _ => Ok {| default_branch := Some "main" |};
     getMetadata := fun _ => Ok {| categories := None |};
     getTree := fun _ => Ok {| tree := Some demoTree |};
     getRaw := raw |}.

(** Raw file requests: the guide of the bloc skill cannot be fetched, in
    the way [outcome] says; every other file is served. *)
Definition guideUrl : string :=
  "https://raw.githubusercontent.com/owner/repo/main/skills/flutter/bloc/references/guide.md".

Definition guideFails (outcome : Fetched string) (url : string) : Fetched string :=
  if String.eqb url guideUrl then outcome else Ok "text".

Definition demoCategory (inc exc : option (list string)) : CategoryConfig :=
  {| enabled := true; ref := None; exclude := exc; include := inc |}.

Definition demoConfig (reg : string) (ags : option (list string))
    (cc : CategoryConfig) (ovr : option (list string)) : SkillConfig :=
  {| registry := reg; agents := ags; skills := [("flutter", cc)];
     custom_overrides := ovr |}.

Definition demoRegistry : string := "https://github.com/owner/repo".

Definition demoSkill : CollectedSkill :=
  {| category := "flutter"; skill := "bloc";
     files := [ {| name := "SKILL.md"; content := "remote manifest" |};
                {| name := "references/guide.md"; content := "remote guide" |} ] |}.

Definition demoEnv (r : Remote) (ans : option bool) : Env :=
  {| cwd := "/home/dev/app"; remote := r; answer := fun _ => ans;
     packageJson := Some (Some "1.1.1") |}.

Definition demoGuide : SkillFile :=
  {| name := "references/guide.md"; content := "remote guide" |}.

Definition demoOverride : string := ".cursor/skills/flutter/bloc/references/".

(** A tree in which the user has edited the guide of the bloc skill. *)
Definition demoLocalFS : FS :=
  {| fileContents :=
       {[ "/home/dev/app/.cursor/skills/flutter/bloc/references/guide.md" := "local edits" ]};
     directories := ∅ |}.

(** The example of the specification: the remote publishes [v2.0.0] for
    the category, the local configuration pins [localRef]. *)
Definition demoMetadata (prefix : string) : RemoteMetadata :=
  {| categories :=
       Some {[ "flutter" := {| version := Some "2.0.0"; tag_prefix := Some prefix |} ]} |}.

Definition demoPinned (localRef : string) : CategoryConfig :=
  {| enabled := true; ref := Some localRef; exclude := None; include := None |}.

Definition demoMetaRemote (prefix : string) : Remote :=
  {| getNpm := fun _ => Ok {| npm_version := "1.1.1" |};
     getRepo := fun _ => Ok {| default_branch := Some "main" |};
     getMetadata := fun _ => Ok (demoMetadata prefix);
     getTree := fun _ => Ok {| tree := Some demoTree |};
     getRaw := fun _ => Ok "text" |}.

Definition emptyFS : FS := {| fileContents := ∅; directories := ∅ |}.

(** A Flutter project without a configuration, the registry within reach. *)
Definition demoInitEnv : InitEnv :=
  {| init_cwd := "/home/dev/app";
     present := fun p => String.eqb p "pubspec.yaml";
     packageDeps := None;
     treeReply := Body {| tree := Some demoTree |};
     metadataReply := Body (demoMetadata "v");
     overwrite := false;
     chosenFramework := "flutter";
     chosenAgents := ["cursor"];
     chosenRegistry := demoRegistry |}.

(** ** Auxiliary notions for the proofs *)

(** [p] is a prefix of [s], letters compared modulo case. *)
Fixpoint startsWithCI (p s : string) : bool :=
  match p, s with
  | EmptyString, _ => true
  | String a p', String b s' =>
      if Ascii.eqb (Js.upcase a) (Js.upcase b) then startsWithCI p' s' else false
  | String _ _, EmptyString => false
  end.

(** [p] occurs somewhere in [s], letters compared modulo case. *)
Fixpoint containsCI (p s : string) : bool :=
  startsWithCI p s
  || match s with
     | EmptyString => false
     | String _ s' => containsCI p s'
     end.

Fixpoint hasBackslash (s : string) : bool :=
  match s with
  | EmptyString => false
  | String c s' => Ascii.eqb c "\" || hasBackslash s'
  end.

Definition withAgents (ags : option (list string)) (config : SkillConfig) : SkillConfig :=
  {| registry := registry config; agents := ags; skills := skills config;
     custom_overrides := custom_overrides config |}.

(** The user answers no to the confirmation. *)
Definition declines (answer : list Update -> option bool) : Prop :=
  forall updates, answer updates = Some false.

(** The remote metadata has no usable entry for the category: no entry, or
    one whose [version] or [tag_prefix] is missing or empty. *)
Definition lacksTag (remoteMeta : RemoteMetadata) (cat : string) : Prop :=
  match remoteCategoryOf remoteMeta cat with
  | None => True
  | Some rc => Js.truthy (version rc) = false \/ Js.truthy (tag_prefix rc) = false
  end.

(** [st'] is [st] with more collected skills and more events, all for
    pairs with property [P]. *)
Definition extends (P : string -> string -> Prop) (st st' : Acc) : Prop :=
  exists sks evs,
    st' = {| collected := collected st ++ sks; events := events st ++ evs |}
    /\ (forall sk, sk ∈ sks -> P (category sk) (skill sk))
    /\ (forall c s rel url, Fetch (ForFile c s rel) url ∈ evs -> P c s).

(** A computation that only fetches and collects for pairs with [P]. *)
Definition Sound {A : Type} (P : string -> string -> Prop) (m : M A) : Prop :=
  forall st, extends P st (m st).1.

(** A computation that ends normally and has collected exactly [sks]. *)
Definition Collects (sks : list CollectedSkill) (m : M unit) : Prop :=
  forall st, exists evs,
    m st = ({| collected := collected st ++ sks; events := events st ++ evs |}, Some tt).

(** The skill passes both filters of its category in the configuration. *)
Definition passesFilters (config : SkillConfig) (c s : string) : Prop :=
  exists cc, categoryConfigOf c (skills config) = Some cc
             /\ skippedByInclude cc s = false /\ skippedByExclude cc s = false.

(** What the categories contribute, in order, when no file fetch rejects. *)
Definition collectedAll (remote : Remote) (owner repo : string) (config : SkillConfig)
    (cats : list string) : list CollectedSkill :=
  flat_map (fun c =>
              match lookupCategory c (skills config) with
              | Some cc => collectedOf remote owner repo c cc
              | None => []
              end)
    cats.

(** [file] with content [text] is a file of the collected skill [sk]
    under the base directory of a supported agent. *)
Definition writesFileOf (sk : CollectedSkill) (file text : string) : Prop :=
  exists d f,
    d ∈ SUPPORTED_AGENTS /\ f ∈ files sk
    /\ file = targetFilePathOf (skillPathOf (agent_path d) sk) f /\ text = content f.

(** What a list of events writes, on an empty tree. *)
Definition written (cwd : string) (evs : list Event) : FS := applyEvents cwd emptyFS evs.

(** ** Further auxiliary notions *)

(** [SUPPORTED_AGENTS] has an agent of this id. *)
Definition knownAgent (agentId : string) : bool :=
  match findAgent agentId with
  | Some _ => true
  | None => false
  end.

(** The target of a collected file under a base directory. *)
Definition targetOf (basePath : string) (sk : CollectedSkill) (f : SkillFile) : string :=
  targetFilePathOf (skillPathOf basePath sk) f.

(** Does the string contain the character? *)
Fixpoint hasChar (c : ascii) (s : string) : bool :=
  match s with
  | EmptyString => false
  | String d s' => Ascii.eqb d c || hasChar c s'
  end.

(** What the loop over the surviving skills of a category has collected
    when it ends: the skills before the first one a file fetch of which
    rejects, each with the files fetched with success, those without any
    left out. *)
Fixpoint collectedUntil (remote : Remote) (rawBaseUrl category : string)
    (allFiles : list GitHubTreeItem) (survivors : list string) : list CollectedSkill :=
  match survivors with
  | [] => []
  | s :: rest =>
      if someFetchRejects remote rawBaseUrl category s allFiles then []
      else
        match skillOf remote rawBaseUrl category allFiles s with
        | Some sk => sk :: collectedUntil remote rawBaseUrl category allFiles rest
        | None => collectedUntil remote rawBaseUrl category allFiles rest
        end
  end.

(** What a category contributes to the returned list, whatever the remote
    answers. *)
Definition contributionOf (remote : Remote) (owner repo category : string)
    (categoryConfig : CategoryConfig) : list CollectedSkill :=
  let ref := Js.orElse (ref categoryConfig) "main" in
  match getTree remote (treeUrlOf owner repo ref) with
  | Ok treeData =>
      collectedUntil remote (rawBaseUrlOf owner repo ref) category
        (default [] (tree treeData))
        (survivingSkills category categoryConfig (default [] (tree treeData)))
  | _ => []
  end.

Definition contributions (remote : Remote) (owner repo : string) (config : SkillConfig)
    (cats : list string) : list CollectedSkill :=
  flat_map (fun c =>
              match lookupCategory c (skills config) with
              | Some cc => contributionOf remote owner repo c cc
              | None => []
              end)
    cats.

(** The same over [config.skills[category]], inherited members included. *)
Definition gathered (remote : Remote) (owner repo : string) (config : SkillConfig)
    (cats : list string) : list CollectedSkill :=
  flat_map (fun c =>
              match categoryConfigOf c (skills config) with
              | Some cc => contributionOf remote owner repo c cc
              | None => []
              end)
    cats.

(** A computation that has collected exactly [sks] when it ends, normally
    or by an exception. *)
Definition Gathers {A : Type} (sks : list CollectedSkill) (m : M A) : Prop :=
  forall st, exists evs res,
    m st = ({| collected := collected st ++ sks; events := events st ++ evs |}, res).

(** A category entry without its ref: the key, the switch and the two
    filters. *)
Definition unpinned (entry : string * CategoryConfig)
    : string * (bool * option (list string) * option (list string)) :=
  (entry.1, (enabled entry.2, exclude entry.2, include entry.2)).


(** Every character of the string is in the class. *)
Fixpoint allChars (cls : ascii -> bool) (s : string) : bool :=
  match s with
  | EmptyString => true
  | String c s' => cls c && allChars cls s'
  end.

(** Where the initializer writes. *)
Definition configPathOf (env : InitEnv) : string :=
  NodePath.join [init_cwd env; ".skillsrc"].

(** The configurations a run of the initializer writes, in order. *)
Definition writtenConfigs (evs : list InitEvent) : list SkillConfig :=
  omap (fun e => match e with SaveSkillsrc c => Some c | _ => None end) evs.

(** The metadata and the supported categories the initializer works with. *)
Definition registryMetadata (env : InitEnv) : RemoteMetadata := (askRegistry env).1.2.

Definition supportedCategoriesOf (env : InitEnv) : list string := (askRegistry env).2.

(** The three hosts: the npm registry, GitHub's API and GitHub's raw
    content. *)
Definition knownHost (url : string) : bool :=
  Js.startsWith "https://registry.npmjs.org/" url
  || Js.startsWith "https://api.github.com/repos/" url
  || Js.startsWith "https://raw.githubusercontent.com/" url.

(** The request is one the run makes for the registry: the URL is the
    one the purpose calls for, built from the owner and the repository
    the stage reads from the locator. *)
Definition requestFor (registry : string) (why : Purpose) (url : string) : Prop :=
  match why with
  | ForNpm => url = npmUrl
  | ForRepo =>
      exists owner repo,
        reconcilerOwnerRepo registry = Some (owner, repo) /\ url = repoUrlOf owner repo
  | ForMetadata =>
      exists owner repo branch,
        reconcilerOwnerRepo registry = Some (owner, repo)
        /\ url = metaUrlOf owner repo branch
  | ForTree c ref =>
      exists owner repo,
        assemblerOwnerRepo registry = Some (owner, repo) /\ url = treeUrlOf owner repo ref
  | ForFile c s rel =>
      exists owner repo ref,
        assemblerOwnerRepo registry = Some (owner, repo)
        /\ url = fileUrlOf (rawBaseUrlOf owner repo ref) c s rel
  end.

(** The request is one a run on this [.skillsrc] makes. *)
Definition runRequest (skillsrc : Skillsrc) (why : Purpose) (url : string) : Prop :=
  match skillsrc with
  | Missing | Unreadable => False
  | NotAConfig => why = ForNpm /\ url = npmUrl
  | NoSkills registry =>
      requestFor registry why url /\ (why = ForNpm \/ why = ForRepo \/ why = ForMetadata)
  | Loaded config => requestFor (registry config) why url
  end.

(** A computation all of whose events have property [Q]. *)
Definition Only {A : Type} (Q : Event -> Prop) (m : M A) : Prop :=
  forall st, exists evs, events (m st).1 = events st ++ evs /\ Forall Q evs.


(** The requests of the assembler for a repository. *)
Definition assemblerRequest (owner repo : string) (e : Event) : Prop :=
  match e with
  | Fetch (ForTree c ref) url => url = treeUrlOf owner repo ref
  | Fetch (ForFile c s rel) url =>
      exists ref, url = fileUrlOf (rawBaseUrlOf owner repo ref) c s rel
  | Fetch _ _ => False
  | _ => True
  end.

(** * Properties *)

(** ** The primitives on examples *)

Section Primitives.

Example split_trailing : Js.split "/" "skills/flutter/" = ["skills"; "flutter"; EmptyString].
Proof. reflexivity. Qed.

Example replace_first_only : Js.replace "a/" EmptyString "a/a/b" = "a/b".
Proof. reflexivity. Qed.

Example strip_one_slash :
  Js.stripTrailingSlash ".cursor/skills//" = ".cursor/skills/"
  /\ Js.stripTrailingSlash ".cursor/skills" = ".cursor/skills".
Proof. split; reflexivity. Qed.

Example uniq_keeps_first : Js.uniq ["bloc"; "ui"; "bloc"; "nav"; "ui"] = ["bloc"; "ui"; "nav"].
Proof. reflexivity. Qed.

Example join_normalizes :
  NodePath.join [".cursor/skills"; "flutter"; "bloc"] = ".cursor/skills/flutter/bloc"
  /\ NodePath.join [".cursor/skills/flutter/bloc"; "references/../SKILL.md"]
     = ".cursor/skills/flutter/bloc/SKILL.md"
  /\ NodePath.join ["a"; "../../b/"] = "../b/".
Proof. repeat split; vm_compute; reflexivity. Qed.

Example relative_to_cwd :
  NodePath.relative "/home/dev/app" "/home/dev/app" ".cursor/skills/flutter/bloc/SKILL.md"
  = ".cursor/skills/flutter/bloc/SKILL.md"
  /\ NodePath.relative "/home/dev/app" "/home/dev/app" "../other/.cursor/x" = "../other/.cursor/x"
  /\ NodePath.relative "/home/dev/app" "/home/dev/app" "../app/.cursor/x" = ".cursor/x".
Proof. repeat split; vm_compute; reflexivity. Qed.

(** The greedy class gives characters back: the owner is everything up
    to the slash, the pattern is found anywhere in the locator, letters
    compare modulo case. *)
Example match_anywhere :
  assemblerOwnerRepo "git+https://GitHub.com/Owner/Repo/tree/main" = Some ("Owner", "Repo")
  /\ reconcilerOwnerRepo "git+https://GitHub.com/Owner/Repo/tree/main" = Some ("Owner", "Repo")
  /\ assemblerOwnerRepo "https://github.com/owner" = None
  /\ assemblerOwnerRepo "https://gitlab.com/owner/repo" = None.
Proof. repeat split; vm_compute; reflexivity. Qed.

Example discovered_folders : skillFolders "flutter" demoTree = ["bloc"; "ui"].
Proof. vm_compute. reflexivity. Qed.

End Primitives.

(** ** Registry locators *)

Section Locators.

(** C10: the reconciler and the assembler do not read the same
    repository out of every locator.  For a locator that ends in
    [.git] the reconciler takes [repo], the assembler [repo.git]; for a
    repository name with a dot in it the reconciler stops at the dot; for
    a repository name that starts with a dot the assembler finds a pair
    where the reconciler finds none. *)
Theorem locator_parsers_disagree :
  reconcilerOwnerRepo "https://github.com/owner/repo.git" = Some ("owner", "repo")
  /\ assemblerOwnerRepo "https://github.com/owner/repo.git" = Some ("owner", "repo.git")
  /\ reconcilerOwnerRepo "https://github.com/owner/skills.js" = Some ("owner", "skills")
  /\ assemblerOwnerRepo "https://github.com/owner/skills.js" = Some ("owner", "skills.js")
  /\ reconcilerOwnerRepo "https://github.com/owner/.config" = None
  /\ assemblerOwnerRepo "https://github.com/owner/.config" = Some ("owner", ".config").
Proof. repeat split; vm_compute; reflexivity. Qed.

(** A run on such a locator: the reconciler asks for [owner/repo], the
    assembler lists the tree of [owner/repo.git]. *)
Example dot_git_run :
  (checkForUpdates (demoRemote (fun _ => Ok "text")) (fun _ => Some false)
     (demoConfig "https://github.com/owner/repo.git" None (demoCategory None None) None)).1
  = [ Log MsgCheckingUpdates;
      Fetch ForRepo "https://api.github.com/repos/owner/repo";
      Fetch ForMetadata
        "https://raw.githubusercontent.com/owner/repo/main/skills/metadata.json";
      Log MsgUpToDate ]
  /\ (assembleFromRemote (demoRemote (fun _ => NotOk 404)) ["flutter"]
        (demoConfig "https://github.com/owner/repo.git" (Some []) (demoCategory (Some []) None)
           None)).1
     = [ Log (MsgDiscovering "flutter" "main");
         Fetch (ForTree "flutter" "main")
           "https://api.github.com/repos/owner/repo.git/git/trees/main?recursive=1" ].
Proof. split; vm_compute; reflexivity. Qed.

(** On the locator the initializer proposes, both read the same pair. *)
Lemma locator_parsers_agree_on_default :
  reconcilerOwnerRepo "https://github.com/NamNHCem/agent-skills-standard"
  = assemblerOwnerRepo "https://github.com/NamNHCem/agent-skills-standard".
Proof. vm_compute. reflexivity. Qed.

(** A pattern that begins with a literal text fails where the text is
    not. *)
Lemma run_lits_fails p rest s caps k :
  startsWithCI p s = false -> Regex.run (Regex.Seq (Regex.lits p) rest) s caps k = None.
Proof.
revert s. induction p as [|a p IH]; intros s Hno; [discriminate|].
destruct s as [|b s]; [reflexivity|]. cbn in Hno |- *.
destruct (Ascii.eqb (Js.upcase a) (Js.upcase b)); [|reflexivity].
apply (IH s Hno).
Qed.

Lemma exec_lits_fails p rest s :
  containsCI p s = false -> Regex.exec (Regex.Seq (Regex.lits p) rest) s = None.
Proof.
induction s as [|c s IH]; intros Hno.
- cbn [containsCI] in Hno. apply orb_false_iff in Hno as [Hhere _].
  cbn [Regex.exec]. rewrite run_lits_fails by exact Hhere. reflexivity.
- cbn [containsCI] in Hno. apply orb_false_iff in Hno as [Hhere Hlater].
  cbn [Regex.exec]. rewrite run_lits_fails by exact Hhere. apply IH. exact Hlater.
Qed.

(** A locator in which [github.com/] does not occur is not supported. *)
Lemma other_hosts_unsupported registry :
  containsCI "github.com/" registry = false -> assemblerOwnerRepo registry = None.
Proof.
intros Hno. unfold assemblerOwnerRepo, assemblerPattern.
rewrite exec_lits_fails by exact Hno. reflexivity.
Qed.

(** C7: a locator the assembler's pattern does not match makes
    [assembleFromRemote] return the empty array at once: it prints one
    line and makes no network call, whatever the categories. *)
Theorem unsupported_registry_fails_fast (r : Remote) (cats : list string)
    (config : SkillConfig) :
  assemblerOwnerRepo (registry config) = None ->
  assembleFromRemote r cats config = ([Log MsgOnlyGitHub], Some [])
  /\ (forall why url, Fetch why url ∉ (assembleFromRemote r cats config).1).
Proof.
  intros Hno. unfold assembleFromRemote. rewrite Hno. split; [reflexivity|].
  intros why url Hin. simpl in Hin.
  apply list_elem_of_singleton in Hin. discriminate.
Qed.

Lemma unsupported_registry_fails_fast_witness :
  assemblerOwnerRepo "https://gitlab.com/owner/repo" = None
  /\ assembleFromRemote (demoRemote (fun _ => Rejected)) ["flutter"; "react"]
       (demoConfig "https://gitlab.com/owner/repo" None (demoCategory None None) None)
     = ([Log MsgOnlyGitHub], Some []).
Proof.
  split; [vm_compute; reflexivity|].
  apply (unsupported_registry_fails_fast (demoRemote (fun _ => Rejected))
           ["flutter"; "react"]
           (demoConfig "https://gitlab.com/owner/repo" None (demoCategory None None) None)).
  vm_compute; reflexivity.
Defined.

End Locators.

(** ** The command *)

Section Command.

Lemma exitCode_does evs p : exitCode (does evs p) = exitCode p.
Proof. reflexivity. Qed.

Lemma run_keeps_exitCode env skillsrc p :
  exitCode (run env skillsrc p) = exitCode p.
Proof.
  unfold run. destruct skillsrc as [| | |registry|config]; try reflexivity.
  destruct (checkForUpdates _ _ _). reflexivity.
Qed.

(** C9, as the code has it: without [.skillsrc] the run prints the two
    lines (not found, run [init] first) and does nothing else: no
    network call, no prompt, no write.  The exit status is zero, as it
    is at the end of every run: the command never sets it. *)
Theorem missing_config_aborts (env : Env) :
  output (syncAction env Missing)
  = [Log MsgSkillsrcNotFound; Log MsgRunInitFirst]
  /\ exitCode (syncAction env Missing) = 0%nat
  /\ (forall skillsrc, exitCode (syncAction env skillsrc) = 0%nat).
Proof.
  repeat split. intros skillsrc. unfold syncAction.
  rewrite run_keeps_exitCode. reflexivity.
Qed.

(** C9, as the claim has it (a non-zero exit status without
    [.skillsrc]), fails. *)
Lemma missing_config_exit_status_is_zero :
  ~ (exitCode (syncAction (demoEnv (demoRemote (fun _ => Rejected)) None) Missing)
     <> 0%nat).
Proof. intros H. apply H. reflexivity. Qed.

End Command.

(** ** Target Writer *)

Section Writer.

Variable cwd : string.

(** *** Which agents are written *)

Lemma findAgent_supported (a : Agent) :
  findAgent (agent_id (getAgentDefinition a)) = Some (getAgentDefinition a).
Proof. destruct a; reflexivity. Qed.

Lemma writeAgent_supported overrides sks (a : Agent) :
  writeAgent cwd overrides sks (agent_id (getAgentDefinition a))
  = EnsureDir (agent_path (getAgentDefinition a))
    :: flat_map (writeSkill cwd overrides (agent_path (getAgentDefinition a))) sks
    ++ [Log (MsgUpdated (agent_path (getAgentDefinition a))
                 (agent_name (getAgentDefinition a)))].
Proof.
  unfold writeAgent. rewrite findAgent_supported. destruct a; reflexivity.
Qed.

Lemma writeAgents_supported overrides sks (l : list Agent) :
  flat_map (writeAgent cwd overrides sks) (map agent_id (map getAgentDefinition l))
  = flat_map
      (fun d =>
         EnsureDir (agent_path d)
         :: flat_map (writeSkill cwd overrides (agent_path d)) sks
         ++ [Log (MsgUpdated (agent_path d) (agent_name d))])
      (map getAgentDefinition l).
Proof.
  induction l as [|a rest IH]; [reflexivity|].
  cbn [map flat_map]. rewrite writeAgent_supported, IH. reflexivity.
Qed.

(** C3, as the code has it: when the [agents] field is absent the
    writer does what it does for the full list of supported agents: for
    each of them, in order, it ensures the base directory and writes
    every collected skill below it.  An [agents] list that is present
    and empty selects no agent: nothing is written. *)
Theorem absent_agents_default_to_all (sks : list CollectedSkill) (config : SkillConfig) :
  agents config = None ->
  writeToTargets cwd sks config
  = writeToTargets cwd sks (withAgents (Some (map agent_id SUPPORTED_AGENTS)) config)
  /\ writeToTargets cwd sks config
     = flat_map
         (fun d =>
            EnsureDir (agent_path d)
            :: flat_map (writeSkill cwd (default [] (custom_overrides config))
                           (agent_path d)) sks
            ++ [Log (MsgUpdated (agent_path d) (agent_name d))])
         SUPPORTED_AGENTS
  /\ writeToTargets cwd sks (withAgents (Some []) config) = [].
Proof.
  intros Habsent. unfold writeToTargets. rewrite Habsent.
  split; [reflexivity|]. split; [|reflexivity].
  apply writeAgents_supported.
Qed.

(** *** Overrides *)

Lemma hasBackslash_replace s : hasBackslash (Js.replaceBackslashes s) = false.
Proof.
  induction s as [|c s IH]; [reflexivity|]. cbn.
  rewrite IH, orb_false_r. destruct (Ascii.eqb c "\") eqn:E; [reflexivity|exact E].
Qed.

Lemma replaceBackslashes_id s :
  hasBackslash s = false -> Js.replaceBackslashes s = s.
Proof.
  induction s as [|c s IH]; [reflexivity|]. cbn. intros H.
  apply orb_false_iff in H as [Hc Hs]. rewrite Hc, IH by exact Hs. reflexivity.
Qed.

Lemma hasBackslash_prefix p s :
  Js.startsWith p s = true -> hasBackslash s = false -> hasBackslash p = false.
Proof.
  revert s. induction p as [|a p IH]; intros s Hpre Hs; [reflexivity|].
  destruct s as [|b s]; [discriminate|]. cbn in Hpre, Hs |- *.
  destruct (Ascii.eqb a b) eqn:E; [|discriminate].
  apply Ascii.eqb_eq in E. subst b.
  apply orb_false_iff in Hs as [Hc Hs]. rewrite Hc. cbn. eauto.
Qed.

Lemma hasBackslash_append a b :
  hasBackslash (a +:+ b) = hasBackslash a || hasBackslash b.
Proof.
  induction a as [|c a IH]; [reflexivity|]. simpl. rewrite IH, orb_assoc. reflexivity.
Qed.

Lemma hasBackslash_strip r :
  hasBackslash (Js.stripTrailingSlash r) = false -> hasBackslash r = false.
Proof.
  induction r as [|c r IH]; [reflexivity|].
  destruct r as [|d r].
  - cbn. destruct (Ascii.eqb c "/") eqn:E.
    + apply Ascii.eqb_eq in E. subst c. reflexivity.
    + cbn. tauto.
  - change (Js.stripTrailingSlash (String c (String d r)))
      with (String c (Js.stripTrailingSlash (String d r))).
    cbn [hasBackslash]. intros H. apply orb_false_iff in H as [Hc Hr].
    rewrite Hc. cbn. apply IH. exact Hr.
Qed.

(** A rule that matches in the words of the specification matches in the
    code, for a relative path without backslashes (the writer's relative
    paths have none). *)
Lemma ruleMatches_overrideMatches relativePath rule :
  hasBackslash relativePath = false ->
  ruleMatches relativePath rule -> overrideMatches relativePath rule = true.
Proof.
  intros Hrel [Heq | Hpre]; unfold overrideMatches.
  - subst rule. rewrite replaceBackslashes_id by exact Hrel.
    rewrite String.eqb_refl. reflexivity.
  - assert (Hrule : hasBackslash rule = false).
    { apply hasBackslash_strip.
      pose proof (hasBackslash_prefix _ _ Hpre Hrel) as H.
      rewrite hasBackslash_append in H. apply orb_false_iff in H. tauto. }
    rewrite replaceBackslashes_id by exact Hrule.
    rewrite Hpre. apply orb_true_r.
Qed.

Lemma isOverridden_of_rule overrides relativePath rule :
  rule ∈ overrides -> hasBackslash relativePath = false ->
  ruleMatches relativePath rule -> isOverridden overrides relativePath = true.
Proof.
  intros Hin Hrel Hm. unfold isOverridden. apply existsb_exists.
  exists rule. split; [apply list_elem_of_In; exact Hin|].
  apply ruleMatches_overrideMatches; assumption.
Qed.

(** The relative path only depends on the file the target path denotes. *)
Lemma targetRelativePath_resolve f1 f2 :
  NodePath.resolve cwd f1 = NodePath.resolve cwd f2 ->
  targetRelativePath cwd f1 = targetRelativePath cwd f2.
Proof.
  intros H. unfold targetRelativePath, NodePath.relative. rewrite H. reflexivity.
Qed.

(** Every file the writer outputs is one no override rule matches. *)
Lemma writeFile_outputs overrides skillPath fileItem file text :
  OutputFile file text ∈ writeFile cwd overrides skillPath fileItem ->
  isOverridden overrides (targetRelativePath cwd file) = false.
Proof.
  unfold writeFile.
  destruct (isOverridden overrides _) eqn:E; intros Hin;
    apply list_elem_of_singleton in Hin; [discriminate|].
  injection Hin as -> _. exact E.
Qed.

Lemma writeSkill_outputs overrides basePath sk file text :
  OutputFile file text ∈ writeSkill cwd overrides basePath sk ->
  isOverridden overrides (targetRelativePath cwd file) = false.
Proof.
  unfold writeSkill. intros Hin. apply elem_of_cons in Hin as [Hin|Hin]; [discriminate|].
  apply list_elem_of_In, in_flat_map in Hin as (fileItem & _ & Hin).
  eapply writeFile_outputs. apply list_elem_of_In. exact Hin.
Qed.

Lemma writeAgent_outputs overrides sks agentId file text :
  OutputFile file text ∈ writeAgent cwd overrides sks agentId ->
  isOverridden overrides (targetRelativePath cwd file) = false.
Proof.
  unfold writeAgent. destruct (findAgent agentId) as [agentDef|];
    [|intros Hin; apply elem_of_nil in Hin; contradiction].
  destruct (Js.truthyStr _); [|intros Hin; apply elem_of_nil in Hin; contradiction].
  intros Hin. apply elem_of_cons in Hin as [Hin|Hin]; [discriminate|].
  apply elem_of_app in Hin as [Hin|Hin].
  - apply list_elem_of_In, in_flat_map in Hin as (sk & _ & Hin).
    eapply writeSkill_outputs. apply list_elem_of_In. exact Hin.
  - apply list_elem_of_singleton in Hin. discriminate.
Qed.

Lemma writeToTargets_outputs sks config file text :
  OutputFile file text ∈ writeToTargets cwd sks config ->
  isOverridden (default [] (custom_overrides config)) (targetRelativePath cwd file)
  = false.
Proof.
  unfold writeToTargets. intros Hin.
  apply list_elem_of_In, in_flat_map in Hin as (agentId & _ & Hin).
  eapply writeAgent_outputs. apply list_elem_of_In. exact Hin.
Qed.

(** Every file the writer outputs is a file of one of the collected
    skills it was given. *)
Lemma writeToTargets_from_collected sks config file text :
  OutputFile file text ∈ writeToTargets cwd sks config ->
  exists sk, sk ∈ sks /\ writesFileOf sk file text.
Proof.
unfold writeToTargets. intros Hin.
apply list_elem_of_In, in_flat_map in Hin as (agentId & _ & Hin).
unfold writeAgent in Hin. destruct (findAgent agentId) as [d|] eqn:Hd; [|contradiction].
destruct (Js.truthyStr (agent_path d)); [|contradiction].
destruct Hin as [Hin|Hin]; [discriminate|].
apply in_app_or in Hin as [Hin|Hin]; [|destruct Hin as [Hin|[]]; discriminate].
apply in_flat_map in Hin as (sk & Hsk & Hin).
destruct Hin as [Hin|Hin]; [discriminate|].
apply in_flat_map in Hin as (f & Hf & Hin).
unfold writeFile in Hin. destruct (isOverridden _ _); destruct Hin as [Hin|[]]; [discriminate|].
injection Hin as <- <-.
exists sk. split; [apply list_elem_of_In; exact Hsk|].
exists d, f. split; [|split; [apply list_elem_of_In; exact Hf|split; reflexivity]].
apply list_elem_of_In. apply find_some in Hd as [Hd _]. exact Hd.
Qed.

(** *** The file tree after a list of events *)

Lemma applyEvents_cons fs e evs :
  applyEvents cwd fs (e :: evs) = applyEvents cwd (applyEvent cwd fs e) evs.
Proof. reflexivity. Qed.

(** Frame: a file no [OutputFile] event denotes keeps its content. *)
Lemma applyEvents_frame evs fs key :
  (forall file text, OutputFile file text ∈ evs -> NodePath.resolve cwd file <> key) ->
  fileContents (applyEvents cwd fs evs) !! key = fileContents fs !! key.
Proof.
  revert fs. induction evs as [|e evs IH]; intros fs Hnot; [reflexivity|].
  rewrite applyEvents_cons, IH.
  - destruct e as [| | | | |file text]; try reflexivity. cbn.
    apply lookup_insert_ne. apply (Hnot file text). constructor.
  - intros file text Hin. apply (Hnot file text). constructor. exact Hin.
Qed.

Lemma applyEvent_union fs e :
  applyEvent cwd fs e
  = {| fileContents := fileContents (applyEvent cwd emptyFS e) ∪ fileContents fs;
       directories := directories (applyEvent cwd emptyFS e) ∪ directories fs |}.
Proof.
  destruct fs as [F D].
  destruct e as [| | | |d|file text]; cbn;
    rewrite ?(left_id_L ∅ (∪)), ?(right_id_L ∅ (∪)); try reflexivity.
  rewrite insert_union_singleton_l, insert_empty. reflexivity.
Qed.

(** What a list of events leaves behind is what it writes, laid over
    what was there. *)
Lemma applyEvents_union evs fs :
  applyEvents cwd fs evs
  = {| fileContents := fileContents (written cwd evs) ∪ fileContents fs;
       directories := directories (written cwd evs) ∪ directories fs |}.
Proof.
  revert fs. induction evs as [|e evs IH]; intros fs.
  - destruct fs. cbn. rewrite !(left_id_L ∅ (∪)). reflexivity.
  - unfold written. rewrite !applyEvents_cons.
    rewrite (IH (applyEvent cwd fs e)), (IH (applyEvent cwd emptyFS e)).
    rewrite (applyEvent_union fs e). cbn [fileContents directories].
    rewrite !(assoc_L (∪)). reflexivity.
Qed.

Lemma applyEvents_twice evs fs :
  applyEvents cwd (applyEvents cwd fs evs) evs = applyEvents cwd fs evs.
Proof.
  rewrite (applyEvents_union evs (applyEvents cwd fs evs)).
  rewrite (applyEvents_union evs fs). cbn [fileContents directories].
  rewrite !(assoc_L (∪)), !(idemp_L (∪)). reflexivity.
Qed.

Lemma applyEvents_output evs fs file text :
  OutputFile file text ∈ evs ->
  is_Some (fileContents (applyEvents cwd fs evs) !! NodePath.resolve cwd file).
Proof.
  revert fs. induction evs as [|e evs IH]; intros fs Hin;
    [apply elem_of_nil in Hin; contradiction|].
  rewrite applyEvents_cons.
  apply elem_of_cons in Hin as [<-|Hin]; [|apply IH; exact Hin].
  rewrite applyEvents_union. cbn [fileContents].
  apply lookup_union_is_Some. right. cbn.
  unfold NodePath.resolve. rewrite lookup_insert_eq. eauto.
Qed.

(** C1: a collected file whose target path, relative to the working
    directory, matches an override rule (it equals the rule, or it
    starts with the rule, trailing slash stripped, followed by a slash)
    is skipped: the writer reports it, no write of the whole run
    reaches that file, and its content after the run is its content
    before, whatever was fetched. *)
Theorem overridden_file_is_kept (sks : list CollectedSkill) (config : SkillConfig)
    (fs : FS) (overrides : list string) (rule basePath : string)
    (sk : CollectedSkill) (fileItem : SkillFile) :
  custom_overrides config = Some overrides ->
  rule ∈ overrides ->
  ruleMatches
    (targetRelativePath cwd (targetFilePathOf (skillPathOf basePath sk) fileItem))
    rule ->
  writeFile cwd overrides (skillPathOf basePath sk) fileItem
  = [Log (MsgSkippingOverridden
              (targetRelativePath cwd
                 (targetFilePathOf (skillPathOf basePath sk) fileItem)))]
  /\ (forall file text,
        OutputFile file text ∈ writeToTargets cwd sks config ->
        NodePath.resolve cwd file
        <> NodePath.resolve cwd (targetFilePathOf (skillPathOf basePath sk) fileItem))
  /\ readFile cwd (applyEvents cwd fs (writeToTargets cwd sks config))
       (targetFilePathOf (skillPathOf basePath sk) fileItem)
     = readFile cwd fs (targetFilePathOf (skillPathOf basePath sk) fileItem).
Proof.
  intros Hov Hin Hmatch.
  set (target := targetFilePathOf (skillPathOf basePath sk) fileItem) in *.
  assert (Hskip : isOverridden overrides (targetRelativePath cwd target) = true).
  { eapply isOverridden_of_rule; [exact Hin| |exact Hmatch].
    apply hasBackslash_replace. }
  assert (Hnone : forall file text,
             OutputFile file text ∈ writeToTargets cwd sks config ->
             NodePath.resolve cwd file <> NodePath.resolve cwd target).
  { intros file text Hout Hsame.
    apply writeToTargets_outputs in Hout. rewrite Hov in Hout.
    change (default [] (Some overrides)) with overrides in Hout.
    rewrite (targetRelativePath_resolve _ _ Hsame) in Hout. congruence. }
  split; [|split].
  - unfold writeFile. fold target. rewrite Hskip. reflexivity.
  - exact Hnone.
  - unfold readFile. apply applyEvents_frame. exact Hnone.
Qed.

(** C8: writing is idempotent.  The writer's calls depend on the
    collected skills, the agents and the overrides only, so a second
    run makes the same calls with the same contents; applied to the
    tree the first run left, they leave that very tree: the same files
    with the same contents and the same directories. *)
Theorem writing_is_idempotent (sks : list CollectedSkill) (config : SkillConfig)
    (fs : FS) :
  applyEvents cwd (applyEvents cwd fs (writeToTargets cwd sks config))
    (writeToTargets cwd sks config)
  = applyEvents cwd fs (writeToTargets cwd sks config)
  /\ (forall file text,
        OutputFile file text ∈ writeToTargets cwd sks config ->
        is_Some (readFile cwd (applyEvents cwd fs (writeToTargets cwd sks config)) file))
  /\ dom (fileContents
            (applyEvents cwd (applyEvents cwd fs (writeToTargets cwd sks config))
               (writeToTargets cwd sks config)))
     = dom (fileContents (applyEvents cwd fs (writeToTargets cwd sks config))).
Proof.
  split; [apply applyEvents_twice|]. split; [|rewrite applyEvents_twice; reflexivity].
  intros file text Hin. unfold readFile. eapply applyEvents_output. exact Hin.
Qed.

End Writer.

(** C3, as the claim has it (an empty [agents] list writes to every known
    tool), fails: the empty list writes nothing, the full list does. *)
Lemma empty_agents_write_nothing :
  ~ (writeToTargets "/home/dev/app" [demoSkill]
       (demoConfig demoRegistry (Some []) (demoCategory None None) None)
     = writeToTargets "/home/dev/app" [demoSkill]
         (demoConfig demoRegistry (Some (map agent_id SUPPORTED_AGENTS))
            (demoCategory None None) None)).
Proof. vm_compute. discriminate. Qed.

Lemma absent_agents_default_to_all_witness :
  agents (demoConfig demoRegistry None (demoCategory None None) None) = None
  /\ writeToTargets "/home/dev/app" [demoSkill]
       (demoConfig demoRegistry None (demoCategory None None) None)
     = writeToTargets "/home/dev/app" [demoSkill]
         (withAgents (Some (map agent_id SUPPORTED_AGENTS))
            (demoConfig demoRegistry None (demoCategory None None) None)).
Proof.
  split; [reflexivity|].
  apply (absent_agents_default_to_all "/home/dev/app" [demoSkill]
           (demoConfig demoRegistry None (demoCategory None None) None)).
  reflexivity.
Defined.

Lemma overridden_file_is_kept_witness :
  ruleMatches
    (targetRelativePath "/home/dev/app"
       (targetFilePathOf (skillPathOf ".cursor/skills" demoSkill) demoGuide))
    demoOverride
  /\ readFile "/home/dev/app"
       (applyEvents "/home/dev/app" demoLocalFS
          (writeToTargets "/home/dev/app" [demoSkill]
             (demoConfig demoRegistry (Some ["cursor"]) (demoCategory None None)
                (Some [demoOverride]))))
       (targetFilePathOf (skillPathOf ".cursor/skills" demoSkill) demoGuide)
     = readFile "/home/dev/app" demoLocalFS
         (targetFilePathOf (skillPathOf ".cursor/skills" demoSkill) demoGuide).
Proof.
  assert (Hmatch : ruleMatches
            (targetRelativePath "/home/dev/app"
               (targetFilePathOf (skillPathOf ".cursor/skills" demoSkill) demoGuide))
            demoOverride).
  { right. vm_compute. reflexivity. }
  split; [exact Hmatch|].
  apply (overridden_file_is_kept "/home/dev/app" [demoSkill]
           (demoConfig demoRegistry (Some ["cursor"]) (demoCategory None None)
              (Some [demoOverride]))
           demoLocalFS [demoOverride] demoOverride ".cursor/skills" demoSkill demoGuide).
  - reflexivity.
  - constructor.
  - exact Hmatch.
Defined.

(** The same run on the same tree: the edited guide stays, the manifest is
    replaced by the remote one. *)
Example override_run :
  readFile "/home/dev/app"
    (applyEvents "/home/dev/app" demoLocalFS
       (writeToTargets "/home/dev/app" [demoSkill]
          (demoConfig demoRegistry (Some ["cursor"]) (demoCategory None None)
             (Some [demoOverride]))))
    ".cursor/skills/flutter/bloc/references/guide.md" = Some "local edits"
  /\ readFile "/home/dev/app"
       (applyEvents "/home/dev/app" demoLocalFS
          (writeToTargets "/home/dev/app" [demoSkill]
             (demoConfig demoRegistry (Some ["cursor"]) (demoCategory None None)
                (Some [demoOverride]))))
       ".cursor/skills/flutter/bloc/SKILL.md" = Some "remote manifest".
Proof. split; vm_compute; reflexivity. Qed.

(** ** Version Reconciler *)

Section Reconciler.

Lemma truthyStr_true s : Js.truthyStr s = true <-> s <> EmptyString.
Proof.
unfold Js.truthyStr. rewrite negb_true_iff. split.
- intros H ->. discriminate.
- intros H. apply String.eqb_neq. exact H.
Qed.

Lemma eqb_false_neq a b : negb (String.eqb a b) = true <-> a <> b.
Proof. rewrite negb_true_iff. apply String.eqb_neq. Qed.

(** Where the entries of [updates] come from. *)
Lemma computeUpdates_elem entries remoteMeta u :
  u ∈ computeUpdates entries remoteMeta <->
  exists cat cc v prefix,
    (cat, cc) ∈ entries /\ enabled cc = true
    /\ remoteCategoryOf remoteMeta cat
       = Some {| version := Some v; tag_prefix := Some prefix |}
    /\ v <> EmptyString /\ prefix <> EmptyString
    /\ Js.orElse (ref cc) "main" <> prefix +:+ v
    /\ u = {| upd_category := cat; from := Js.orElse (ref cc) "main";
              to := prefix +:+ v |}.
Proof.
induction entries as [|[cat cc] rest IH].
- split; [intros H; apply elem_of_nil in H; contradiction|].
  intros (? & ? & ? & ? & H & _). apply elem_of_nil in H. contradiction.
- assert (Hrest : u ∈ computeUpdates rest remoteMeta ->
           exists cat' cc' v prefix,
             (cat', cc') ∈ (cat, cc) :: rest /\ enabled cc' = true
             /\ remoteCategoryOf remoteMeta cat'
                = Some {| version := Some v; tag_prefix := Some prefix |}
             /\ v <> EmptyString /\ prefix <> EmptyString
             /\ Js.orElse (ref cc') "main" <> prefix +:+ v
             /\ u = {| upd_category := cat'; from := Js.orElse (ref cc') "main";
                       to := prefix +:+ v |}).
  { intros H. apply IH in H as (c & k & v & q & Hin & H).
    exists c, k, v, q. split; [right; exact Hin|exact H]. }
  cbn [computeUpdates]. split.
  + destruct (enabled cc) eqn:Hen; cbn [negb]; [|exact Hrest].
    destruct (remoteCategoryOf remoteMeta cat) as [[[v|] [prefix|]]|] eqn:Hrc;
      try exact Hrest.
    destruct (Js.truthyStr v) eqn:Hv; cbn [andb]; [|exact Hrest].
    destruct (Js.truthyStr prefix) eqn:Hp; [|exact Hrest].
    destruct (negb (String.eqb _ _)) eqn:Hne; [|exact Hrest].
    intros H. apply elem_of_cons in H as [->|H]; [|exact (Hrest H)].
    exists cat, cc, v, prefix.
    split; [left|]. split; [exact Hen|]. split; [exact Hrc|].
    split; [apply truthyStr_true; exact Hv|].
    split; [apply truthyStr_true; exact Hp|].
    split; [apply eqb_false_neq; exact Hne|reflexivity].
  + intros (c & k & v & q & Hin & Hen & Hrc & Hv & Hq & Hne & ->).
    apply elem_of_cons in Hin as [Heq|Hin].
    * injection Heq as -> ->. rewrite Hen, Hrc. cbn [negb].
      apply truthyStr_true in Hv, Hq. rewrite Hv, Hq. cbn [andb].
      apply eqb_false_neq in Hne. rewrite Hne. left.
    * assert (Hu : {| upd_category := c; from := Js.orElse (ref k) "main";
                      to := q +:+ v |} ∈ computeUpdates rest remoteMeta).
      { apply IH. exists c, k, v, q. repeat split; assumption. }
      destruct (enabled cc); cbn [negb]; [|exact Hu].
      destruct (remoteCategoryOf remoteMeta cat) as [[[v'|] [q'|]]|]; try exact Hu.
      destruct (Js.truthyStr v' && Js.truthyStr q'); [|exact Hu].
      destruct (negb (String.eqb _ _)); [right|]; exact Hu.
Qed.

(** Whatever is answered short of yes, the configuration comes back as
    it went in and is not written. *)
Lemma proposeUpdates_declined answer config updates :
  answer updates <> Some true ->
  (proposeUpdates answer config updates).2 = config
  /\ forall c, SaveConfig c ∉ (proposeUpdates answer config updates).1.
Proof.
intros Hno. unfold proposeUpdates.
destruct (0 <? length updates)%nat.
- destruct (answer updates) as [[|]|]; [congruence| |]; (split; [reflexivity|]);
    intros c Hin; cbn [fst] in Hin.
  + apply elem_of_cons in Hin as [Hin|Hin]; [discriminate|].
    apply elem_of_app in Hin as [Hin|Hin].
    * apply list_elem_of_fmap in Hin as (u & Hu & _). discriminate.
    * apply list_elem_of_singleton in Hin. discriminate.
  + apply elem_of_app in Hin as [Hin|Hin].
    * apply elem_of_cons in Hin as [Hin|Hin]; [discriminate|].
      apply elem_of_app in Hin as [Hin|Hin].
      -- apply list_elem_of_fmap in Hin as (u & Hu & _). discriminate.
      -- apply list_elem_of_singleton in Hin. discriminate.
    * apply list_elem_of_singleton in Hin. discriminate.
- split; [reflexivity|]. intros c Hin. apply list_elem_of_singleton in Hin. discriminate.
Qed.

Lemma checkForUpdates_declined r answer config :
  (forall updates, answer updates <> Some true) ->
  (checkForUpdates r answer config).2 = config
  /\ forall c, SaveConfig c ∉ (checkForUpdates r answer config).1.
Proof.
intros Hno. unfold checkForUpdates.
assert (Hpre : forall c a b, SaveConfig c ∉ [Log a; Fetch ForRepo b]).
{ intros c a b Hin. apply elem_of_cons in Hin as [Hin|Hin]; [discriminate|].
  apply list_elem_of_singleton in Hin. discriminate. }
assert (Hone : forall c a, SaveConfig c ∉ [Log a]).
{ intros c a Hin. apply list_elem_of_singleton in Hin. discriminate. }
assert (Hmeta : forall c b, SaveConfig c ∉ [Fetch ForMetadata b]).
{ intros c a Hin. apply list_elem_of_singleton in Hin. discriminate. }
destruct (reconcilerOwnerRepo (registry config)) as [[owner repo]|];
  [|split; [reflexivity|intros c Hin; apply elem_of_nil in Hin; contradiction]].
destruct (getRepo r _) as [|status|repoData].
- split; [reflexivity|]. intros c Hin. cbn [fst] in Hin.
  apply elem_of_app in Hin as [Hin|Hin]; [eapply Hpre|eapply Hone]; exact Hin.
- split; [reflexivity|]. intros c Hin. eapply Hpre. exact Hin.
- destruct (getMetadata r _) as [|status|remoteMeta].
  + split; [reflexivity|]. intros c Hin. cbn [fst] in Hin.
    apply elem_of_app in Hin as [Hin|Hin]; [|eapply Hone; exact Hin].
    apply elem_of_app in Hin as [Hin|Hin]; [eapply Hpre|eapply Hmeta]; exact Hin.
  + split; [reflexivity|]. intros c Hin. cbn [fst] in Hin.
    apply elem_of_app in Hin as [Hin|Hin]; [eapply Hpre|eapply Hmeta]; exact Hin.
  + pose proof (proposeUpdates_declined answer config
                  (computeUpdates (skills config) remoteMeta) (Hno _)) as [Hcfg Hw].
    destruct (proposeUpdates answer config _) as [evs config'].
    cbn [fst snd] in *. split; [exact Hcfg|].
    intros c Hin. apply elem_of_app in Hin as [Hin|Hin]; [|eapply Hw; exact Hin].
    apply elem_of_app in Hin as [Hin|Hin]; [eapply Hpre|eapply Hmeta]; exact Hin.
Qed.

(** C4, as the code has it.  For an enabled category of the
    configuration:
    - when the remote metadata gives it a non-empty [version] and a
      non-empty [tag_prefix], the candidate from the current ref (or
      [main] when the ref is unset or empty) to [tag_prefix + version] is
      recorded iff the two differ;
    - when the remote metadata has no entry for it, or one whose
      [version] or [tag_prefix] is missing or empty, no candidate names
      it;
    - when the user declines, [checkForUpdates] hands the configuration
      back unchanged, [.skillsrc] is not written, and the run goes on
      with that configuration. *)
Theorem update_candidates (config : SkillConfig) (remoteMeta : RemoteMetadata)
    (cat : string) (cc : CategoryConfig) :
  (cat, cc) ∈ skills config ->
  enabled cc = true ->
  (forall v prefix,
      remoteCategoryOf remoteMeta cat
      = Some {| version := Some v; tag_prefix := Some prefix |} ->
      v <> EmptyString -> prefix <> EmptyString ->
      ({| upd_category := cat; from := Js.orElse (ref cc) "main"; to := prefix +:+ v |}
         ∈ computeUpdates (skills config) remoteMeta
       <-> Js.orElse (ref cc) "main" <> prefix +:+ v))
  /\ (lacksTag remoteMeta cat ->
      forall u, u ∈ computeUpdates (skills config) remoteMeta -> upd_category u <> cat)
  /\ (forall env p,
        declines (answer env) ->
        (checkForUpdates (remote env) (answer env) config).2 = config
        /\ (forall c, SaveConfig c ∉ (checkForUpdates (remote env) (answer env) config).1)
        /\ run env (Loaded config) p
           = does (checkCLIUpdate (remote env) (packageJson env)
                   ++ (checkForUpdates (remote env) (answer env) config).1
                   ++ [Log (MsgSyncing (registry config))]
                   ++ assembleAndWrite env config) p).
Proof.
intros Hin Hen. split; [|split].
- intros v prefix Hrc Hv Hp. split.
  + intros Hu. apply computeUpdates_elem in Hu
      as (c & k & v' & q' & _ & _ & _ & _ & _ & Hne & Heq).
    injection Heq as -> Hfrom Hto. rewrite Hfrom, Hto. exact Hne.
  + intros Hne. apply computeUpdates_elem. exists cat, cc, v, prefix.
    repeat split; assumption.
- intros Hlack u Hu Hcat.
  apply computeUpdates_elem in Hu as (c & k & v & q & _ & _ & Hrc & Hv & Hq & _ & ->).
  cbn in Hcat. subst c. unfold lacksTag in Hlack. rewrite Hrc in Hlack.
  apply truthyStr_true in Hv, Hq. cbn in Hlack. destruct Hlack; congruence.
- intros env p Hdecl.
  assert (Hno : forall updates, answer env updates <> Some true).
  { intros updates. rewrite Hdecl. discriminate. }
  destruct (checkForUpdates_declined (remote env) (answer env) config Hno) as [Hcfg Hw].
  split; [exact Hcfg|]. split; [exact Hw|].
  unfold run. destruct (checkForUpdates _ _ _) as [evs config'].
  cbn [fst snd] in *. subst config'. reflexivity.
Qed.

End Reconciler.

(** C4, as the claim has it, fails for a metadata entry that supplies both
    fields with an empty [tag_prefix]: the pinned ref differs from
    [tag_prefix + version], yet no candidate is recorded. *)
Lemma empty_tag_prefix_is_not_proposed :
  ~ ({| upd_category := "flutter"; from := "v1.0.0"; to := EmptyString +:+ "2.0.0" |}
       ∈ computeUpdates [("flutter", demoPinned "v1.0.0")] (demoMetadata EmptyString)
     <-> "v1.0.0" <> EmptyString +:+ "2.0.0").
Proof.
intros [_ H].
assert (Hnone : computeUpdates [("flutter", demoPinned "v1.0.0")] (demoMetadata EmptyString) = [])
  by (vm_compute; reflexivity).
rewrite Hnone in H. eapply elem_of_nil, H. discriminate.
Qed.

Lemma update_candidates_witness :
  ("flutter", demoPinned "v1.0.0")
    ∈ skills (demoConfig demoRegistry None (demoPinned "v1.0.0") None)
  /\ enabled (demoPinned "v1.0.0") = true
  /\ {| upd_category := "flutter"; from := "v1.0.0"; to := "v2.0.0" |}
       ∈ computeUpdates (skills (demoConfig demoRegistry None (demoPinned "v1.0.0") None))
           (demoMetadata "v").
Proof.
assert (Hin : ("flutter", demoPinned "v1.0.0")
                ∈ skills (demoConfig demoRegistry None (demoPinned "v1.0.0") None))
  by constructor.
split; [exact Hin|]. split; [reflexivity|].
destruct (update_candidates (demoConfig demoRegistry None (demoPinned "v1.0.0") None)
            (demoMetadata "v") "flutter" (demoPinned "v1.0.0") Hin eq_refl)
  as [Hiff _].
apply (Hiff "2.0.0" "v"); [vm_compute; reflexivity|discriminate|discriminate|discriminate].
Defined.

(** The example of the specification: exactly one candidate, and a user
    who declines keeps the pinned ref. *)
Example version_update_gating :
  computeUpdates [("flutter", demoPinned "v1.0.0")] (demoMetadata "v")
  = [{| upd_category := "flutter"; from := "v1.0.0"; to := "v2.0.0" |}]
  /\ (checkForUpdates (demoMetaRemote "v") (fun _ => Some false)
        (demoConfig demoRegistry None (demoPinned "v1.0.0") None)).2
     = demoConfig demoRegistry None (demoPinned "v1.0.0") None
  /\ skills (checkForUpdates (demoMetaRemote "v") (fun _ => Some true)
               (demoConfig demoRegistry None (demoPinned "v1.0.0") None)).2
     = [("flutter", demoPinned "v2.0.0")].
Proof. repeat split; vm_compute; reflexivity. Qed.

(** ** Skill Assembler *)

Section Assembler.

Variable r : Remote.

(** *** Strings *)

Lemma replace_prefix p s :
  Js.startsWith p s = true -> Js.replace p EmptyString s = Js.drop (String.length p) s.
Proof. intros H. destruct s; cbn [Js.replace]; rewrite H; reflexivity. Qed.

Lemma includes_elem names x : Js.includes names x = true <-> x ∈ names.
Proof.
unfold Js.includes. rewrite existsb_exists. split.
- intros (y & Hin & Heq). apply String.eqb_eq in Heq. subst y.
  apply list_elem_of_In. exact Hin.
- intros Hin. exists x. split; [apply list_elem_of_In; exact Hin|apply String.eqb_refl].
Qed.

Lemma categoryConfigOf_own c cc (l : list (string * CategoryConfig)) :
  lookupCategory c l = Some cc -> categoryConfigOf c l = Some cc.
Proof. intros H. unfold categoryConfigOf. rewrite H. reflexivity. Qed.

(** *** The file loop *)

(** One entry of the skill's source files: it is fetched iff it is
    eligible, and then under the name the specification gives it. *)
Lemma selected_entry c s (fileItem : GitHubTreeItem) :
  Js.startsWith (skillPrefix c s) (path fileItem) = true ->
  relativePathOf c s fileItem = eligibleName c s fileItem
  /\ isSupported (relativePathOf c s fileItem) && String.eqb (type fileItem) "blob"
     = eligible c s fileItem.
Proof.
intros Hpre. assert (Hrel : relativePathOf c s fileItem = eligibleName c s fileItem).
{ unfold relativePathOf. rewrite replace_prefix by exact Hpre. reflexivity. }
split; [exact Hrel|]. rewrite Hrel. unfold eligible, isSupported, eligibleName.
fold (skillPrefix c s). rewrite Hpre. cbn [andb].
apply andb_comm.
Qed.

Lemma unselected_entry c s (fileItem : GitHubTreeItem) :
  Js.startsWith (skillPrefix c s) (path fileItem) = false -> eligible c s fileItem = false.
Proof. intros Hpre. unfold eligible. fold (skillPrefix c s). rewrite Hpre. reflexivity. Qed.

Lemma fetchSkillFiles_fetchEach rawBaseUrl c s allFiles acc st :
  fetchSkillFiles r rawBaseUrl c s (skillSourceFiles c s allFiles) acc st
  = fetchEach r rawBaseUrl c s (List.filter (eligible c s) allFiles) acc st.
Proof.
revert acc st. induction allFiles as [|fileItem rest IH]; intros acc st; [reflexivity|].
unfold skillSourceFiles in *. cbn [List.filter].
destruct (Js.startsWith (skillPrefix c s) (path fileItem)) eqn:Hpre.
- destruct (selected_entry c s fileItem Hpre) as [Hrel Hguard].
  cbn [fetchSkillFiles]. rewrite Hguard, Hrel.
  destruct (eligible c s fileItem); [|apply IH].
  cbn [fetchEach]. unfold bind.
  destruct (await _ _ _ st) as [st' [[|status|text]|]]; try reflexivity; apply IH.
- rewrite (unselected_entry c s fileItem Hpre). apply IH.
Qed.

(** What the loop over selected entries does: the requests, and the
    files unless a request rejects. *)
Lemma fetchEach_spec rawBaseUrl c s selected acc st :
  fetchEach r rawBaseUrl c s selected acc st
  = ({| collected := collected st;
        events := events st ++ requestsOf r rawBaseUrl c s selected |},
     if rejectsIn r rawBaseUrl c s selected then None
     else Some (acc ++ gotFrom r rawBaseUrl c s selected)).
Proof.
revert acc st. induction selected as [|entry rest IH]; intros acc st.
- cbn. rewrite !app_nil_r. destruct st; reflexivity.
- cbn [fetchEach requestsOf rejectsIn gotFrom]. unfold bind, await.
  destruct (getRaw r _) as [|status|text].
  + reflexivity.
  + rewrite IH. cbn [collected events]. rewrite <- app_assoc. reflexivity.
  + rewrite IH. cbn [collected events]. rewrite <- !app_assoc. reflexivity.
Qed.

Lemma gotFrom_elem rawBaseUrl c s selected f :
  f ∈ gotFrom r rawBaseUrl c s selected ->
  exists entry, entry ∈ selected /\ name f = eligibleName c s entry
                /\ getRaw r (fileUrlOf rawBaseUrl c s (eligibleName c s entry))
                   = Ok (content f).
Proof.
induction selected as [|entry rest IH]; cbn [gotFrom]; intros Hin;
  [apply elem_of_nil in Hin; contradiction|].
assert (Hrest : f ∈ gotFrom r rawBaseUrl c s rest ->
          exists e, e ∈ entry :: rest /\ name f = eligibleName c s e
                    /\ getRaw r (fileUrlOf rawBaseUrl c s (eligibleName c s e))
                       = Ok (content f)).
{ intros H. destruct (IH H) as (e & He & Hf). exists e. split; [right; exact He|exact Hf]. }
destruct (getRaw r _) as [|status|text] eqn:Hraw; try exact (Hrest Hin).
apply elem_of_cons in Hin as [->|Hin]; [|exact (Hrest Hin)].
exists entry. split; [left|]. split; [reflexivity|exact Hraw].
Qed.



(** On the demo listing: of the five entries under the bloc folder, the
    note and the directory are left out. *)
Example eligible_entries :
  List.filter (eligible "flutter" "bloc") demoTree
  = [ blob "skills/flutter/bloc/SKILL.md";
      blob "skills/flutter/bloc/references/guide.md";
      blob "skills/flutter/bloc/scripts/run.sh" ]
  /\ skillSourceFiles "flutter" "bloc" demoTree
     = [ blob "skills/flutter/bloc/SKILL.md";
         blob "skills/flutter/bloc/notes.txt";
         dir "skills/flutter/bloc/references";
         blob "skills/flutter/bloc/references/guide.md";
         blob "skills/flutter/bloc/scripts/run.sh" ].
Proof. split; vm_compute; reflexivity. Qed.

(** *** Nothing is fetched or collected for a skill the filters skip *)

Lemma extends_refl P st : extends P st st.
Proof.
exists [], []. rewrite !app_nil_r. split; [destruct st; reflexivity|].
split; intros; exfalso; eapply elem_of_nil; eassumption.
Qed.

Lemma extends_trans P st1 st2 st3 :
  extends P st1 st2 -> extends P st2 st3 -> extends P st1 st3.
Proof.
intros (sks1 & evs1 & -> & Hs1 & He1) (sks2 & evs2 & -> & Hs2 & He2).
exists (sks1 ++ sks2), (evs1 ++ evs2). cbn [collected events].
rewrite !app_assoc. split; [reflexivity|]. split.
- intros sk Hin. apply elem_of_app in Hin as [Hin|Hin]; auto.
- intros c s rel url Hin. apply elem_of_app in Hin as [Hin|Hin]; eauto.
Qed.

Lemma extends_event P st e :
  (forall c s rel url, e = Fetch (ForFile c s rel) url -> P c s) ->
  extends P st {| collected := collected st; events := events st ++ [e] |}.
Proof.
intros He. exists [], [e]. rewrite app_nil_r. split; [reflexivity|]. split.
- intros sk Hin. apply elem_of_nil in Hin. contradiction.
- intros c s rel url Hin. apply list_elem_of_singleton in Hin. eapply He. symmetry. exact Hin.
Qed.

Lemma Sound_ret {A} P (a : A) : Sound P (ret a).
Proof. intros st. apply extends_refl. Qed.

Lemma Sound_throw {A} P : Sound P (@throw A).
Proof. intros st. apply extends_refl. Qed.

Lemma Sound_bind {A B} P (m : M A) (f : A -> M B) :
  Sound P m -> (forall a, Sound P (f a)) -> Sound P (bind m f).
Proof.
intros Hm Hf st. unfold bind. specialize (Hm st).
destruct (m st) as [st' [a|]]; [|exact Hm].
eapply extends_trans; [exact Hm|apply Hf].
Qed.

Lemma Sound_tryCatch {A} P (m handler : M A) :
  Sound P m -> Sound P handler -> Sound P (tryCatch m handler).
Proof.
intros Hm Hh st. unfold tryCatch. specialize (Hm st).
destruct (m st) as [st' [a|]]; [exact Hm|].
eapply extends_trans; [exact Hm|apply Hh].
Qed.

Lemma Sound_log P msg : Sound P (emit (Log msg)).
Proof. intros st. apply extends_event. discriminate. Qed.

Lemma Sound_push P sk : P (category sk) (skill sk) -> Sound P (push sk).
Proof.
intros Hsk st. exists [sk], []. rewrite app_nil_r. split; [reflexivity|]. split.
- intros sk' Hin. apply list_elem_of_singleton in Hin. subst sk'. exact Hsk.
- intros c s rel url Hin. apply elem_of_nil in Hin. contradiction.
Qed.

Lemma Sound_await_tree {A} P c ref url (outcome : Fetched A) :
  Sound P (await (ForTree c ref) url outcome).
Proof. intros st. apply extends_event. discriminate. Qed.

Lemma Sound_await_file {A} (P : string -> string -> Prop) c s rel url
    (outcome : Fetched A) :
  P c s -> Sound P (await (ForFile c s rel) url outcome).
Proof.
intros Hcs st. apply extends_event. intros c' s' rel' url' Heq.
injection Heq as -> -> _ _. exact Hcs.
Qed.

Lemma Sound_fetchSkillFiles (P : string -> string -> Prop) rawBaseUrl c s items acc :
  P c s -> Sound P (fetchSkillFiles r rawBaseUrl c s items acc).
Proof.
intros Hcs. revert acc. induction items as [|fileItem rest IH]; intros acc;
  [apply Sound_ret|].
cbn [fetchSkillFiles]. destruct (_ && _); [|apply IH].
apply Sound_bind; [apply Sound_await_file; exact Hcs|].
intros [|status|text]; apply IH.
Qed.

Lemma Sound_collectSkill (P : string -> string -> Prop) c s skillFiles :
  P c s -> Sound P (collectSkill c s skillFiles).
Proof.
intros Hcs. unfold collectSkill. destruct (0 <? length skillFiles)%nat; [|apply Sound_ret].
apply Sound_bind; [apply Sound_push; exact Hcs|intros _; apply Sound_log].
Qed.

Lemma Sound_assembleSkills (P : string -> string -> Prop) rawBaseUrl c cc allFiles folders :
  (forall s, skippedByInclude cc s = false -> skippedByExclude cc s = false -> P c s) ->
  Sound P (assembleSkills r rawBaseUrl c cc allFiles folders).
Proof.
intros Hpass. induction folders as [|s rest IH]; [apply Sound_ret|].
cbn [assembleSkills].
destruct (skippedByInclude cc s) eqn:Hinc; [exact IH|].
destruct (skippedByExclude cc s) eqn:Hexc; [exact IH|].
apply Sound_bind; [apply Sound_fetchSkillFiles; auto|].
intros skillFiles. apply Sound_bind; [apply Sound_collectSkill; auto|intros _; exact IH].
Qed.

Lemma Sound_discoverCategory (P : string -> string -> Prop) owner repo c cc :
  (forall s, skippedByInclude cc s = false -> skippedByExclude cc s = false -> P c s) ->
  Sound P (discoverCategory r owner repo c cc).
Proof.
intros Hpass. unfold discoverCategory.
apply Sound_bind; [apply Sound_log|intros _].
apply Sound_bind; [apply Sound_await_tree|].
intros [|status|treeData];
  [apply Sound_throw|apply Sound_log|apply Sound_assembleSkills; exact Hpass].
Qed.

Lemma Sound_assembleCategories owner repo config cats :
  Sound (passesFilters config) (assembleCategories r owner repo config cats).
Proof.
induction cats as [|c rest IH]; [apply Sound_ret|].
cbn [assembleCategories].
destruct (categoryConfigOf c (skills config)) as [cc|] eqn:Hcc; [|apply Sound_throw].
apply Sound_bind; [|intros _; exact IH].
apply Sound_tryCatch; [|apply Sound_log].
apply Sound_discoverCategory. intros s Hinc Hexc. exists cc. auto.
Qed.

(** Whatever the remote answers, every file request of a run and every
    skill it returns passed the filters of its category. *)
Lemma assembleFromRemote_sound cats config :
  (forall c s rel url,
      Fetch (ForFile c s rel) url ∈ (assembleFromRemote r cats config).1 ->
      passesFilters config c s)
  /\ (forall sks sk,
        (assembleFromRemote r cats config).2 = Some sks -> sk ∈ sks ->
        passesFilters config (category sk) (skill sk)).
Proof.
unfold assembleFromRemote.
destruct (assemblerOwnerRepo (registry config)) as [[owner repo]|].
- pose proof (Sound_assembleCategories owner repo config cats
                {| collected := []; events := [] |}) as (sks & evs & Hst & Hs & He).
  destruct (assembleCategories _ _ _ _ _ _) as [st res]. cbn [fst] in Hst. subst st.
  cbn [collected events app] in *.
  destruct res as [[]|]; cbn [fst snd]; (split; [exact He|]).
  + intros sks' sk [= <-]. apply Hs.
  + intros sks' sk [=].
- cbn [fst snd]. split.
  + intros c s rel url Hin. apply list_elem_of_singleton in Hin. discriminate.
  + intros sks sk [= <-] Hin. apply elem_of_nil in Hin. contradiction.
Qed.

Lemma filteredOut_skipped cc s :
  filteredOut cc s -> skippedByInclude cc s = true \/ skippedByExclude cc s = true.
Proof.
intros [(names & Hinc & Hnot)|(names & Hexc & Hin)].
- left. unfold skippedByInclude. rewrite Hinc. apply negb_true_iff.
  destruct (Js.includes names s) eqn:E; [|reflexivity].
  apply includes_elem in E. contradiction.
- right. unfold skippedByExclude. rewrite Hexc. apply includes_elem. exact Hin.
Qed.

(** C2: the include filter is applied first, the exclude filter second.
    For a category of the configuration, a skill name that is absent from
    a present include list, or present in the exclude list (also when the
    include list names it), is skipped: no file of it is requested, it is
    not among the skills returned, and every file the writer then outputs
    belongs to another skill.  In particular, with include [a; b] and
    exclude [b], whatever is requested, returned or written for the
    category is skill [a]. *)
Theorem filters_decide (cats : list string) (config : SkillConfig) (c : string)
    (cc : CategoryConfig) :
  lookupCategory c (skills config) = Some cc ->
  (forall s,
      filteredOut cc s ->
      (forall rel url, Fetch (ForFile c s rel) url ∉ (assembleFromRemote r cats config).1)
      /\ (forall sks sk,
            (assembleFromRemote r cats config).2 = Some sks -> sk ∈ sks ->
            ~ (category sk = c /\ skill sk = s))
      /\ (forall cwd sks file text,
            (assembleFromRemote r cats config).2 = Some sks ->
            OutputFile file text ∈ writeToTargets cwd sks config ->
            exists sk, sk ∈ sks /\ writesFileOf sk file text
                       /\ ~ (category sk = c /\ skill sk = s)))
  /\ (forall a b,
        include cc = Some [a; b] -> exclude cc = Some [b] ->
        (forall s rel url,
            Fetch (ForFile c s rel) url ∈ (assembleFromRemote r cats config).1 -> s = a)
        /\ (forall sks sk,
              (assembleFromRemote r cats config).2 = Some sks -> sk ∈ sks ->
              category sk = c -> skill sk = a)
        /\ (forall cwd sks file text,
              (assembleFromRemote r cats config).2 = Some sks ->
              OutputFile file text ∈ writeToTargets cwd sks config ->
              exists sk, sk ∈ sks /\ writesFileOf sk file text
                         /\ (category sk = c -> skill sk = a))).
Proof.
intros Hcc. destruct (assembleFromRemote_sound cats config) as [Hev Hsk].
assert (Hpass : forall s, passesFilters config c s ->
                  skippedByInclude cc s = false /\ skippedByExclude cc s = false).
{ intros s (cc' & Hcc' & Hinc & Hexc).
  rewrite (categoryConfigOf_own _ _ _ Hcc) in Hcc'. injection Hcc' as <-. auto. }
split.
- intros s Hout. apply filteredOut_skipped in Hout.
  assert (Hnone : forall sks sk,
             (assembleFromRemote r cats config).2 = Some sks -> sk ∈ sks ->
             ~ (category sk = c /\ skill sk = s)).
  { intros sks sk Hres Hin [Hc Hs]. pose proof (Hsk sks sk Hres Hin) as Hp.
    rewrite Hc, Hs in Hp. apply Hpass in Hp. destruct Hout, Hp; congruence. }
  split; [|split; [exact Hnone|]].
  + intros rel url Hin. apply Hev, Hpass in Hin. destruct Hout, Hin; congruence.
  + intros cwd sks file text Hres Hout'.
    apply writeToTargets_from_collected in Hout' as (sk & Hin & Hw).
    exists sk. split; [exact Hin|]. split; [exact Hw|]. eapply Hnone; eassumption.
- intros a b Hinc Hexc.
  assert (Honly : forall s, passesFilters config c s -> s = a).
  { intros s Hp. apply Hpass in Hp as [Hi He].
    unfold skippedByInclude in Hi. unfold skippedByExclude in He.
    rewrite Hinc in Hi. rewrite Hexc in He.
    apply negb_false_iff, includes_elem in Hi.
    apply elem_of_cons in Hi as [Hi|Hi]; [exact Hi|].
    apply list_elem_of_singleton in Hi. subst s.
    assert (Js.includes [b] b = true) by (apply includes_elem; left).
    congruence. }
  assert (Hret : forall sks sk,
             (assembleFromRemote r cats config).2 = Some sks -> sk ∈ sks ->
             category sk = c -> skill sk = a).
  { intros sks sk Hres Hin Hc. apply Honly. rewrite <- Hc. eapply Hsk; eassumption. }
  split; [|split; [exact Hret|]].
  + intros s rel url Hin. apply Honly. eapply Hev. exact Hin.
  + intros cwd sks file text Hres Hout'.
    apply writeToTargets_from_collected in Hout' as (sk & Hin & Hw).
    exists sk. split; [exact Hin|]. split; [exact Hw|]. eapply Hret; eassumption.
Qed.

End Assembler.

Lemma filters_decide_witness :
  lookupCategory "flutter"
    (skills (demoConfig demoRegistry None
               (demoCategory (Some ["bloc"; "ui"]) (Some ["ui"])) None))
  = Some (demoCategory (Some ["bloc"; "ui"]) (Some ["ui"]))
  /\ (forall sks sk,
        (assembleFromRemote (demoRemote (fun _ => Ok "text")) ["flutter"]
           (demoConfig demoRegistry None
              (demoCategory (Some ["bloc"; "ui"]) (Some ["ui"])) None)).2 = Some sks ->
        sk ∈ sks -> category sk = "flutter" -> skill sk = "bloc").
Proof.
split; [reflexivity|].
destruct (filters_decide (demoRemote (fun _ => Ok "text")) ["flutter"]
            (demoConfig demoRegistry None
               (demoCategory (Some ["bloc"; "ui"]) (Some ["ui"])) None)
            "flutter" (demoCategory (Some ["bloc"; "ui"]) (Some ["ui"])) eq_refl)
  as [_ Honly].
destruct (Honly "bloc" "ui" eq_refl eq_refl) as (_ & Hsk & _). exact Hsk.
Defined.

(** The example of the specification, run: with include [bloc; ui] and
    exclude [ui] only the files of [bloc] are requested and only [bloc]
    is returned. *)
Example filter_precedence :
  assembleFromRemote (demoRemote (fun _ => Ok "text")) ["flutter"]
    (demoConfig demoRegistry None (demoCategory (Some ["bloc"; "ui"]) (Some ["ui"])) None)
  = ([ Log (MsgDiscovering "flutter" "main");
       Fetch (ForTree "flutter" "main")
         "https://api.github.com/repos/owner/repo/git/trees/main?recursive=1";
       Fetch (ForFile "flutter" "bloc" "SKILL.md")
         "https://raw.githubusercontent.com/owner/repo/main/skills/flutter/bloc/SKILL.md";
       Fetch (ForFile "flutter" "bloc" "references/guide.md")
         "https://raw.githubusercontent.com/owner/repo/main/skills/flutter/bloc/references/guide.md";
       Fetch (ForFile "flutter" "bloc" "scripts/run.sh")
         "https://raw.githubusercontent.com/owner/repo/main/skills/flutter/bloc/scripts/run.sh";
       Log (MsgFetched "flutter" "bloc" 3) ],
     Some [ {| category := "flutter"; skill := "bloc";
               files := [ {| name := "SKILL.md"; content := "text" |};
                          {| name := "references/guide.md"; content := "text" |};
                          {| name := "scripts/run.sh"; content := "text" |} ] |} ]).
Proof. vm_compute. reflexivity. Qed.

(** ** Fetches that do not succeed *)

Section FetchDrop.

Variable r : Remote.

(** *** Computations that end normally *)

Lemma Collects_ret : Collects [] (ret tt).
Proof. intros st. exists []. rewrite !app_nil_r. destruct st; reflexivity. Qed.

Lemma Collects_emit e : Collects [] (emit e).
Proof. intros st. exists [e]. unfold emit. rewrite app_nil_r. reflexivity. Qed.

Lemma Collects_push sk : Collects [sk] (push sk).
Proof. intros st. exists []. unfold push. rewrite app_nil_r. reflexivity. Qed.

Lemma Collects_bind sks1 sks2 (m k : M unit) :
  Collects sks1 m -> Collects sks2 k -> Collects (sks1 ++ sks2) (m ;;; k).
Proof.
intros Hm Hk st. destruct (Hm st) as [evs1 E1]. unfold bind. rewrite E1.
destruct (Hk {| collected := collected st ++ sks1; events := events st ++ evs1 |})
  as [evs2 E2].
rewrite E2. exists (evs1 ++ evs2). cbn [collected events]. rewrite !app_assoc. reflexivity.
Qed.

Lemma Collects_collectSkill c s skillFiles :
  Collects (if (0 <? length skillFiles)%nat
            then [{| category := c; skill := s; files := skillFiles |}] else [])
    (collectSkill c s skillFiles).
Proof.
unfold collectSkill. destruct (0 <? length skillFiles)%nat; [|apply Collects_ret].
apply (Collects_bind [_] []); [apply Collects_push|apply Collects_emit].
Qed.

(** *** A run in which no file fetch rejects *)

Hypothesis no_reject : forall url, getRaw r url <> Rejected.

Lemma rejectsIn_none rawBaseUrl c s selected : rejectsIn r rawBaseUrl c s selected = false.
Proof.
induction selected as [|entry rest IH]; [reflexivity|]. cbn [rejectsIn].
destruct (getRaw r _) eqn:E; [|exact IH|exact IH].
exfalso. eapply no_reject. exact E.
Qed.

Lemma fetchSkillFiles_completes rawBaseUrl c s allFiles st :
  fetchSkillFiles r rawBaseUrl c s (skillSourceFiles c s allFiles) [] st
  = ({| collected := collected st;
        events := events st
                  ++ requestsOf r rawBaseUrl c s (List.filter (eligible c s) allFiles) |},
     Some (fetchedFiles r rawBaseUrl c s allFiles)).
Proof.
rewrite fetchSkillFiles_fetchEach, fetchEach_spec, rejectsIn_none. reflexivity.
Qed.

Lemma Collects_assembleSkills rawBaseUrl c cc allFiles folders :
  Collects
    (omap (skillOf r rawBaseUrl c allFiles)
       (List.filter (fun s => negb (skippedByInclude cc s) && negb (skippedByExclude cc s))
          folders))
    (assembleSkills r rawBaseUrl c cc allFiles folders).
Proof.
induction folders as [|s rest IH]; [apply Collects_ret|].
cbn [assembleSkills List.filter].
destruct (skippedByInclude cc s); [exact IH|].
destruct (skippedByExclude cc s); [exact IH|].
cbn [negb andb]. intros st. unfold bind at 1. rewrite fetchSkillFiles_completes.
pose proof (Collects_bind _ _ _ _
              (Collects_collectSkill c s (fetchedFiles r rawBaseUrl c s allFiles)) IH) as H.
destruct (H {| collected := collected st;
               events := events st
                         ++ requestsOf r rawBaseUrl c s (List.filter (eligible c s) allFiles) |})
  as [evs E].
rewrite E. cbn [collected events].
exists (requestsOf r rawBaseUrl c s (List.filter (eligible c s) allFiles) ++ evs).
cbn [omap list_omap]. unfold skillOf at 2.
destruct (0 <? length _)%nat; rewrite <- ?app_assoc; reflexivity.
Qed.

Lemma Collects_category owner repo c cc :
  Collects (collectedOf r owner repo c cc)
    (tryCatch (discoverCategory r owner repo c cc) (emit (Log (MsgCategoryFailed c)))).
Proof.
intros st. unfold tryCatch, discoverCategory, collectedOf, bind, emit, await.
destruct (getTree r _) as [|status|treeData]; cbn [collected events].
- exists [Log (MsgDiscovering c (Js.orElse (ref cc) "main"));
          Fetch (ForTree c (Js.orElse (ref cc) "main"))
            (treeUrlOf owner repo (Js.orElse (ref cc) "main"));
          Log (MsgCategoryFailed c)].
  rewrite app_nil_r, <- !app_assoc. reflexivity.
- exists [Log (MsgDiscovering c (Js.orElse (ref cc) "main"));
          Fetch (ForTree c (Js.orElse (ref cc) "main"))
            (treeUrlOf owner repo (Js.orElse (ref cc) "main"));
          Log (MsgTreeFailed c (Js.orElse (ref cc) "main") status)].
  rewrite app_nil_r, <- !app_assoc. reflexivity.
- destruct (Collects_assembleSkills
              (rawBaseUrlOf owner repo (Js.orElse (ref cc) "main")) c cc
              (default [] (tree treeData))
              (skillFolders c (default [] (tree treeData)))
              {| collected := collected st;
                 events := (events st
                            ++ [Log (MsgDiscovering c (Js.orElse (ref cc) "main"))])
                           ++ [Fetch (ForTree c (Js.orElse (ref cc) "main"))
                                 (treeUrlOf owner repo (Js.orElse (ref cc) "main"))] |})
    as [evs E].
  rewrite E. cbn [collected events]. eexists. rewrite <- !app_assoc. reflexivity.
Qed.

Lemma Collects_assembleCategories owner repo config cats :
  (forall c, c ∈ cats -> is_Some (lookupCategory c (skills config))) ->
  Collects (collectedAll r owner repo config cats)
    (assembleCategories r owner repo config cats).
Proof.
induction cats as [|c rest IH]; intros Hknown; [apply Collects_ret|].
cbn [assembleCategories collectedAll flat_map].
destruct (Hknown c) as [cc Hcc]; [left|]. rewrite (categoryConfigOf_own _ _ _ Hcc), Hcc.
apply Collects_bind; [apply Collects_category|].
apply IH. intros c' Hin. apply Hknown. right. exact Hin.
Qed.

Lemma assembleFromRemote_completes owner repo config cats :
  assemblerOwnerRepo (registry config) = Some (owner, repo) ->
  (forall c, c ∈ cats -> is_Some (lookupCategory c (skills config))) ->
  (assembleFromRemote r cats config).2 = Some (collectedAll r owner repo config cats).
Proof.
intros Hreg Hknown. unfold assembleFromRemote. rewrite Hreg.
destruct (Collects_assembleCategories owner repo config cats Hknown
            {| collected := []; events := [] |}) as [evs E].
rewrite E. reflexivity.
Qed.

Lemma skillOf_Some rawBaseUrl c allFiles s sk :
  skillOf r rawBaseUrl c allFiles s = Some sk <->
  (0 < length (fetchedFiles r rawBaseUrl c s allFiles))%nat
  /\ sk = {| category := c; skill := s; files := fetchedFiles r rawBaseUrl c s allFiles |}.
Proof.
unfold skillOf. destruct (0 <? length _)%nat eqn:E.
- apply Nat.ltb_lt in E. split; [intros [= <-]; auto|intros [_ ->]; reflexivity].
- apply Nat.ltb_ge in E. split; [discriminate|intros [H _]; lia].
Qed.

Lemma collectedAll_elem owner repo config cats sk :
  sk ∈ collectedAll r owner repo config cats <->
  exists c cc treeData,
    c ∈ cats /\ lookupCategory c (skills config) = Some cc
    /\ getTree r (treeUrlOf owner repo (Js.orElse (ref cc) "main")) = Ok treeData
    /\ skill sk ∈ survivingSkills c cc (default [] (tree treeData))
    /\ skillOf r (rawBaseUrlOf owner repo (Js.orElse (ref cc) "main")) c
         (default [] (tree treeData)) (skill sk) = Some sk.
Proof.
unfold collectedAll. rewrite list_elem_of_In, in_flat_map. split.
- intros (c & Hc & Hin). apply list_elem_of_In in Hc, Hin.
  destruct (lookupCategory c (skills config)) as [cc|] eqn:Hcc;
    [|apply elem_of_nil in Hin; contradiction].
  unfold collectedOf in Hin.
  destruct (getTree r _) as [|status|treeData] eqn:Htree;
    try (apply elem_of_nil in Hin; contradiction).
  apply list_elem_of_omap in Hin as (s & Hs & Hsk).
  assert (Hname : skill sk = s).
  { apply skillOf_Some in Hsk as [_ ->]. reflexivity. }
  subst s. exists c, cc, treeData. auto.
- intros (c & cc & treeData & Hc & Hcc & Htree & Hs & Hsk).
  exists c. split; [apply list_elem_of_In; exact Hc|].
  apply list_elem_of_In. rewrite Hcc. unfold collectedOf. rewrite Htree.
  apply list_elem_of_omap. exists (skill sk). auto.
Qed.

End FetchDrop.

(** C6, as the code has it.  In a run in which no file fetch rejects
    (each is answered, with a success status or not), for a skill that
    passed the filters of its category: the run returns normally; if at
    least one of the skill's eligible files was fetched with success, the
    skill is in the returned list with exactly the files fetched with
    success, in listing order; if none was, no entry of the returned list
    is for that skill, and the writer, which outputs files of returned
    skills only, writes nothing for it. *)
Theorem failed_fetches_are_dropped (r : Remote) (cats : list string)
    (config : SkillConfig) (owner repo c : string) (cc : CategoryConfig)
    (treeData : GitHubTreeResponse) (s : string) :
  (forall url, getRaw r url <> Rejected) ->
  assemblerOwnerRepo (registry config) = Some (owner, repo) ->
  (forall c', c' ∈ cats -> is_Some (lookupCategory c' (skills config))) ->
  c ∈ cats ->
  lookupCategory c (skills config) = Some cc ->
  getTree r (treeUrlOf owner repo (Js.orElse (ref cc) "main")) = Ok treeData ->
  s ∈ survivingSkills c cc (default [] (tree treeData)) ->
  exists sks,
    (assembleFromRemote r cats config).2 = Some sks
    /\ ((0 < length (fetchedFiles r (rawBaseUrlOf owner repo (Js.orElse (ref cc) "main"))
                       c s (default [] (tree treeData))))%nat ->
        {| category := c; skill := s;
           files := fetchedFiles r (rawBaseUrlOf owner repo (Js.orElse (ref cc) "main"))
                      c s (default [] (tree treeData)) |} ∈ sks)
    /\ (forall sk, sk ∈ sks -> category sk = c -> skill sk = s ->
          files sk = fetchedFiles r (rawBaseUrlOf owner repo (Js.orElse (ref cc) "main"))
                       c s (default [] (tree treeData))
          /\ files sk <> [])
    /\ (forall cwd file text,
          OutputFile file text ∈ writeToTargets cwd sks config ->
          exists sk, sk ∈ sks /\ writesFileOf sk file text).
Proof.
intros Hno Hreg Hknown Hc Hcc Htree Hs.
exists (collectedAll r owner repo config cats).
split; [apply assembleFromRemote_completes; assumption|]. split; [|split].
- intros Hgot. apply collectedAll_elem. exists c, cc, treeData. cbn [skill].
  repeat (split; [assumption|]). apply skillOf_Some. auto.
- intros sk Hin Hcat Hskill.
  apply collectedAll_elem in Hin as (c' & cc' & treeData' & _ & Hcc' & Htree' & _ & Hsk).
  apply skillOf_Some in Hsk as [Hlen Hsk].
  assert (c' = c) by (rewrite Hsk in Hcat; exact Hcat). subst c'.
  rewrite Hcc in Hcc'. injection Hcc' as <-.
  rewrite Htree in Htree'. injection Htree' as <-.
  rewrite Hskill in Hsk, Hlen. rewrite Hsk. cbn [files]. split; [reflexivity|].
  intros Hnil. rewrite Hnil in Hlen. cbn in Hlen. lia.
- intros cwd file text Hout. eapply writeToTargets_from_collected. exact Hout.
Qed.

(** C6, as the claim has it, fails when a fetch fails by rejecting: two of
    the three eligible files of the bloc skill can be fetched, the fetch
    of the third rejects, and the skill is not returned. *)
Lemma rejected_fetch_loses_the_skill :
  ~ (forall sks,
        (assembleFromRemote (demoRemote (guideFails Rejected)) ["flutter"]
           (demoConfig demoRegistry None (demoCategory None None) None)).2 = Some sks ->
        (0 < length (fetchedFiles (demoRemote (guideFails Rejected))
                       (rawBaseUrlOf "owner" "repo" "main") "flutter" "bloc" demoTree))%nat ->
        exists sk, sk ∈ sks /\ category sk = "flutter" /\ skill sk = "bloc").
Proof.
intros H. destruct (H [] ) as (sk & Hin & _).
- vm_compute. reflexivity.
- vm_compute. lia.
- apply elem_of_nil in Hin. exact Hin.
Qed.

Lemma failed_fetches_are_dropped_witness :
  (forall url, getRaw (demoRemote (guideFails (NotOk 404))) url <> Rejected)
  /\ exists sks,
       (assembleFromRemote (demoRemote (guideFails (NotOk 404))) ["flutter"]
          (demoConfig demoRegistry None (demoCategory None None) None)).2 = Some sks
       /\ {| category := "flutter"; skill := "bloc";
             files := [ {| name := "SKILL.md"; content := "text" |};
                        {| name := "scripts/run.sh"; content := "text" |} ] |} ∈ sks.
Proof.
assert (Hno : forall url, getRaw (demoRemote (guideFails (NotOk 404))) url <> Rejected).
{ intros url. cbn. unfold guideFails. destruct (String.eqb url guideUrl); discriminate. }
split; [exact Hno|].
assert (Hs : "bloc" ∈ survivingSkills "flutter" (demoCategory None None)
                        (default [] (tree {| tree := Some demoTree |}))).
{ assert (E : survivingSkills "flutter" (demoCategory None None)
                (default [] (tree {| tree := Some demoTree |})) = ["bloc"; "ui"])
    by (vm_compute; reflexivity).
  rewrite E. left. }
destruct (failed_fetches_are_dropped (demoRemote (guideFails (NotOk 404)))
            ["flutter"] (demoConfig demoRegistry None (demoCategory None None) None)
            "owner" "repo" "flutter" (demoCategory None None)
            {| tree := Some demoTree |} "bloc")
  as (sks & Hres & Hin & _ & _).
- exact Hno.
- vm_compute. reflexivity.
- intros c' Hc'. apply list_elem_of_singleton in Hc'. subst c'. eexists. reflexivity.
- left.
- reflexivity.
- reflexivity.
- exact Hs.
- exists sks. split; [exact Hres|]. apply Hin. vm_compute. lia.
Defined.

(** The example of the specification, run: one of three fetches is
    answered 404 and the skill is collected with the other two files; all
    three are answered 404 and the skill does not appear. *)
Example fetch_drop_tolerance :
  (assembleFromRemote (demoRemote (guideFails (NotOk 404))) ["flutter"]
     (demoConfig demoRegistry None (demoCategory (Some ["bloc"]) None) None)).2
  = Some [ {| category := "flutter"; skill := "bloc";
              files := [ {| name := "SKILL.md"; content := "text" |};
                         {| name := "scripts/run.sh"; content := "text" |} ] |} ]
  /\ (assembleFromRemote (demoRemote (fun _ => NotOk 404)) ["flutter"]
        (demoConfig demoRegistry None (demoCategory (Some ["bloc"]) None) None)).2
     = Some [].
Proof. split; vm_compute; reflexivity. Qed.

(** * Further properties *)

(** ** Target Writer: what it leaves alone and what it leaves behind *)

Section WriterMore.

Variable cwd : string.

Lemma knownAgent_false agentId : knownAgent agentId = false -> findAgent agentId = None.
Proof. unfold knownAgent. destruct (findAgent agentId); [discriminate|reflexivity]. Qed.

Lemma writeAgents_known overrides sks ids :
  flat_map (writeAgent cwd overrides sks) ids
  = flat_map (writeAgent cwd overrides sks) (List.filter knownAgent ids).
Proof.
induction ids as [|agentId rest IH]; [reflexivity|].
cbn [flat_map List.filter]. destruct (knownAgent agentId) eqn:E.
- cbn [flat_map]. rewrite IH. reflexivity.
- unfold writeAgent at 1. rewrite (knownAgent_false _ E). exact IH.
Qed.

(** X1: agent identifiers that are not in the table of supported agents
    are passed over: the writer does for a list of identifiers what it
    does for the known ones among them, in the same order. *)
Theorem unknown_agents_are_skipped (sks : list CollectedSkill) (config : SkillConfig)
    (ids : list string) :
  agents config = Some ids ->
  writeToTargets cwd sks config
  = writeToTargets cwd sks (withAgents (Some (List.filter knownAgent ids)) config).
Proof.
intros Hids. unfold writeToTargets. rewrite Hids. cbn [agents withAgents custom_overrides].
apply writeAgents_known.
Qed.

(** Where a file of the tree comes from after a list of events. *)
Lemma applyEvents_lookup evs fs key text :
  fileContents (applyEvents cwd fs evs) !! key = Some text ->
  fileContents fs !! key = Some text
  \/ exists file, OutputFile file text ∈ evs /\ NodePath.resolve cwd file = key.
Proof.
revert fs. induction evs as [|e evs IH]; intros fs H; [left; exact H|].
rewrite applyEvents_cons in H. apply IH in H as [H|(file & Hin & Hkey)].
- destruct e as [| | | | |file body]; try (left; exact H).
  cbn [applyEvent fileContents] in H. destruct (decide (NodePath.absolute (NodePath.resolveSegments cwd file) = key))
    as [Heq|Hne].
  + rewrite Heq, lookup_insert_eq in H. injection H as ->.
    right. exists file. split; [left|exact Heq].
  + rewrite lookup_insert_ne in H by exact Hne. left. exact H.
- right. exists file. split; [right; exact Hin|exact Hkey].
Qed.

Lemma applyEvents_grows evs fs :
  dom (fileContents fs) ⊆ dom (fileContents (applyEvents cwd fs evs))
  /\ directories fs ⊆ directories (applyEvents cwd fs evs).
Proof.
rewrite applyEvents_union. cbn [fileContents directories]. split.
- rewrite dom_union. set_solver.
- set_solver.
Qed.

(** X2: the writer is not destructive.  A file that is not the target of
    a collected file under a supported agent's directory has after the
    run the content it had before; no file and no directory of the tree
    is gone after the run. *)
Theorem writer_keeps_the_rest (sks : list CollectedSkill) (config : SkillConfig) (fs : FS) :
  (forall key,
      (forall d sk f, d ∈ SUPPORTED_AGENTS -> sk ∈ sks -> f ∈ files sk ->
                      NodePath.resolve cwd (targetOf (agent_path d) sk f) <> key) ->
      fileContents (applyEvents cwd fs (writeToTargets cwd sks config)) !! key
      = fileContents fs !! key)
  /\ dom (fileContents fs)
     ⊆ dom (fileContents (applyEvents cwd fs (writeToTargets cwd sks config)))
  /\ directories fs ⊆ directories (applyEvents cwd fs (writeToTargets cwd sks config)).
Proof.
split; [|apply applyEvents_grows].
intros key Hother. apply applyEvents_frame. intros file text Hin Hkey.
apply writeToTargets_from_collected in Hin as (sk & Hsk & d & f & Hd & Hf & -> & _).
exact (Hother d sk f Hd Hsk Hf Hkey).
Qed.

(** A collected file that no rule overrides is output, for every
    configured agent that is known. *)
Lemma writeToTargets_outputs_file sks config ids agentId d sk f :
  agents config = Some ids -> agentId ∈ ids -> findAgent agentId = Some d ->
  sk ∈ sks -> f ∈ files sk ->
  isOverridden (default [] (custom_overrides config))
    (targetRelativePath cwd (targetOf (agent_path d) sk f)) = false ->
  OutputFile (targetOf (agent_path d) sk f) (content f) ∈ writeToTargets cwd sks config.
Proof.
intros Hids Hid Hd Hsk Hf Hfree. unfold writeToTargets. rewrite Hids.
apply list_elem_of_In, in_flat_map. exists agentId.
split; [apply list_elem_of_In; exact Hid|].
unfold writeAgent. rewrite Hd.
assert (Hpath : Js.truthyStr (agent_path d) = true).
{ apply find_some in Hd as [Hd _]. unfold SUPPORTED_AGENTS in Hd.
  apply in_map_iff in Hd as (a & <- & _). destruct a; reflexivity. }
rewrite Hpath. right. apply in_or_app. left.
apply in_flat_map. exists sk. split; [apply list_elem_of_In; exact Hsk|].
unfold writeSkill. right. apply in_flat_map. exists f.
split; [apply list_elem_of_In; exact Hf|].
unfold writeFile. fold (targetOf (agent_path d) sk f). cbn [default] in Hfree.
rewrite Hfree. left. reflexivity.
Qed.

(** After a list of events a file that one of them outputs holds what
    one of them, for that same file, wrote. *)
Lemma applyEvents_last_write evs fs file body :
  OutputFile file body ∈ evs ->
  exists file' text,
    OutputFile file' text ∈ evs
    /\ NodePath.resolve cwd file' = NodePath.resolve cwd file
    /\ fileContents (applyEvents cwd fs evs) !! NodePath.resolve cwd file = Some text.
Proof.
revert fs. induction evs as [|e evs IH]; intros fs Hout;
  [apply elem_of_nil in Hout; contradiction|].
apply elem_of_cons in Hout as [<-|Hin].
- destruct (applyEvents_output cwd (OutputFile file body :: evs) fs file body)
    as [text Htext]; [left|].
  pose proof Htext as Hcase. rewrite applyEvents_cons in Hcase.
  apply applyEvents_lookup in Hcase as [Hhere|(file' & Hin' & Hkey)].
  + cbn [applyEvent fileContents] in Hhere. unfold NodePath.resolve in Hhere.
    rewrite lookup_insert_eq in Hhere. injection Hhere as <-.
    exists file, body. split; [left|]. split; [reflexivity|exact Htext].
  + exists file', text. split; [right; exact Hin'|]. split; [exact Hkey|exact Htext].
- destruct (IH (applyEvent cwd fs e) Hin) as (file' & text & Hin' & Hkey & Htext).
  exists file', text. split; [right; exact Hin'|]. split; [exact Hkey|].
  rewrite applyEvents_cons. exact Htext.
Qed.

(** X3: what is on disk after the run comes from before or from the
    collected skills.  A file of the tree holds either what it held
    before the run, or the content of a collected file whose target it is
    and which no override rule matches. *)
Theorem disk_content_is_old_or_collected (sks : list CollectedSkill)
    (config : SkillConfig) (fs : FS) (file text : string) :
  readFile cwd (applyEvents cwd fs (writeToTargets cwd sks config)) file = Some text ->
  readFile cwd fs file = Some text
  \/ exists sk target,
       sk ∈ sks /\ writesFileOf sk target text
       /\ NodePath.resolve cwd target = NodePath.resolve cwd file
       /\ isOverridden (default [] (custom_overrides config))
            (targetRelativePath cwd target) = false.
Proof.
intros Hread. unfold readFile in Hread.
apply applyEvents_lookup in Hread as [Hold|(target & Hin & Hkey)]; [left; exact Hold|].
right. pose proof (writeToTargets_outputs cwd _ _ _ _ Hin) as Hfree.
apply writeToTargets_from_collected in Hin as (sk & Hsk & Hw).
exists sk, target. auto.
Qed.

(** X4: for every configured agent that is known, a collected file that
    no override rule matches is output with its content, and is on disk
    after the run with the content of a collected file for that path
    (its own, unless a later collected file has the same target). *)
Theorem free_files_are_written (sks : list CollectedSkill) (config : SkillConfig)
    (fs : FS) (ids : list string) (agentId : string) (d : AgentDefinition)
    (sk : CollectedSkill) (f : SkillFile) :
  agents config = Some ids -> agentId ∈ ids -> findAgent agentId = Some d ->
  sk ∈ sks -> f ∈ files sk ->
  isOverridden (default [] (custom_overrides config))
    (targetRelativePath cwd (targetOf (agent_path d) sk f)) = false ->
  OutputFile (targetOf (agent_path d) sk f) (content f) ∈ writeToTargets cwd sks config
  /\ exists text sk' target,
       readFile cwd (applyEvents cwd fs (writeToTargets cwd sks config))
         (targetOf (agent_path d) sk f) = Some text
       /\ sk' ∈ sks /\ writesFileOf sk' target text
       /\ NodePath.resolve cwd target
          = NodePath.resolve cwd (targetOf (agent_path d) sk f).
Proof.
intros Hids Hid Hd Hsk Hf Hfree.
pose proof (writeToTargets_outputs_file sks config ids agentId d sk f
              Hids Hid Hd Hsk Hf Hfree) as Hout.
split; [exact Hout|].
destruct (applyEvents_last_write _ fs _ _ Hout) as (file & text & Hin & Hkey & Htext).
apply writeToTargets_from_collected in Hin as (sk' & Hsk' & Hw).
exists text, sk', file. auto.
Qed.

End WriterMore.

(** ** Skill Assembler: discovery and the returned list *)

Section AssemblerMore.

Variable r : Remote.

(** *** Discovered skill folders *)

Lemma hasChar_append c a b : hasChar c (a +:+ b) = hasChar c a || hasChar c b.
Proof.
induction a as [|d a IH]; [reflexivity|]. simpl. rewrite IH, orb_assoc. reflexivity.
Qed.

Lemma split_aux_parts sep cur s part :
  hasChar sep cur = false -> part ∈ Js.split_aux sep cur s -> hasChar sep part = false.
Proof.
revert cur. induction s as [|c s IH]; intros cur Hcur Hin; cbn [Js.split_aux] in Hin.
- apply list_elem_of_singleton in Hin. subst part. exact Hcur.
- destruct (Ascii.eqb c sep) eqn:E.
  + apply elem_of_cons in Hin as [->|Hin]; [exact Hcur|].
    apply (IH EmptyString); [reflexivity|exact Hin].
  + apply (IH (cur +:+ String c EmptyString)); [|exact Hin].
    rewrite hasChar_append, Hcur. cbn. rewrite E. reflexivity.
Qed.

Lemma split_parts sep s part : part ∈ Js.split sep s -> hasChar sep part = false.
Proof. apply split_aux_parts. reflexivity. Qed.

Lemma uniq_aux_elem seen xs x :
  x ∈ Js.uniq_aux seen xs <-> x ∈ xs /\ x ∉ seen.
Proof.
revert seen. induction xs as [|y rest IH]; intros seen; cbn [Js.uniq_aux].
- split; [intros H; apply elem_of_nil in H; contradiction|].
  intros [H _]. apply elem_of_nil in H. contradiction.
- destruct (Js.includes seen y) eqn:E.
  + apply includes_elem in E. rewrite IH. split.
    * intros [Hin Hnot]. split; [right; exact Hin|exact Hnot].
    * intros [Hin Hnot]. split; [|exact Hnot].
      apply elem_of_cons in Hin as [->|Hin]; [contradiction|exact Hin].
  + assert (Hy : y ∉ seen).
    { intros Hin. apply includes_elem in Hin. congruence. }
    rewrite elem_of_cons, IH. split.
    * intros [->|[Hin Hnot]]; [split; [left|exact Hy]|].
      split; [right; exact Hin|]. intros Hs. apply Hnot. right. exact Hs.
    * intros [Hin Hnot]. destruct (decide (x = y)) as [->|Hne]; [left; reflexivity|].
      right. apply elem_of_cons in Hin as [->|Hin]; [contradiction|].
      split; [exact Hin|]. intros Hs. apply elem_of_cons in Hs as [->|Hs]; contradiction.
Qed.

Lemma uniq_aux_NoDup seen xs : NoDup (Js.uniq_aux seen xs).
Proof.
revert seen. induction xs as [|y rest IH]; intros seen; cbn [Js.uniq_aux];
  [constructor|].
destruct (Js.includes seen y); [apply IH|].
constructor; [|apply IH].
intros Hin. apply uniq_aux_elem in Hin as [_ Hnot]. apply Hnot. left.
Qed.

(** X5: the skill folders discovered for a category are the distinct
    non-empty third path segments of the listing entries under
    [skills/{category}/]: each is listed once, none is empty, none
    contains a slash. *)
Theorem discovered_skill_folders (c : string) (allFiles : list GitHubTreeItem) :
  NoDup (skillFolders c allFiles)
  /\ (forall s,
        s ∈ skillFolders c allFiles <->
        s <> EmptyString
        /\ exists f, f ∈ allFiles
                     /\ Js.startsWith ("skills/" +:+ c +:+ "/") (path f) = true
                     /\ Js.split "/" (path f) !! 2%nat = Some s)
  /\ (forall s, s ∈ skillFolders c allFiles -> hasChar "/" s = false).
Proof.
assert (Hiff : forall s,
           s ∈ skillFolders c allFiles <->
           s <> EmptyString
           /\ exists f, f ∈ allFiles
                        /\ Js.startsWith ("skills/" +:+ c +:+ "/") (path f) = true
                        /\ Js.split "/" (path f) !! 2%nat = Some s).
{ intros s. unfold skillFolders, Js.uniq. rewrite uniq_aux_elem, list_elem_of_omap. split.
  - intros [(f & Hf & Hs) _]. apply list_elem_of_In, filter_In in Hf as [Hf Hpre].
    destruct (Js.split "/" (path f) !! 2%nat) as [part|] eqn:Hpart; [|discriminate].
    destruct (Js.truthyStr part) eqn:Ht; [|discriminate]. injection Hs as <-.
    split; [apply truthyStr_true; exact Ht|].
    exists f. split; [apply list_elem_of_In; exact Hf|]. auto.
  - intros (Hne & f & Hf & Hpre & Hpart). split; [|apply not_elem_of_nil].
    exists f. split.
    + apply list_elem_of_In, filter_In. split; [apply list_elem_of_In; exact Hf|exact Hpre].
    + rewrite Hpart. apply truthyStr_true in Hne. rewrite Hne. reflexivity. }
split; [apply uniq_aux_NoDup|]. split; [exact Hiff|].
intros s Hs. apply Hiff in Hs as (_ & f & _ & _ & Hpart).
apply (split_parts "/" (path f)). eapply list_elem_of_lookup_2. exact Hpart.
Qed.

(** *** The returned list, whatever the remote answers *)

Lemma Gathers_ret {A} (a : A) : Gathers [] (ret a).
Proof. intros st. exists [], (Some a). rewrite !app_nil_r. destruct st; reflexivity. Qed.

Lemma Gathers_of_Collects sks (m : M unit) : Collects sks m -> Gathers sks m.
Proof. intros H st. destruct (H st) as [evs E]. exists evs, (Some tt). exact E. Qed.

Lemma Gathers_then sks1 sks2 (m k : M unit) :
  Collects sks1 m -> Gathers sks2 k -> Gathers (sks1 ++ sks2) (m ;;; k).
Proof.
intros Hm Hk st. destruct (Hm st) as [evs1 E1]. unfold bind. rewrite E1.
destruct (Hk {| collected := collected st ++ sks1; events := events st ++ evs1 |})
  as (evs2 & res & E2).
rewrite E2. exists (evs1 ++ evs2), res. cbn [collected events]. rewrite !app_assoc.
reflexivity.
Qed.

Lemma Collects_of_Gathers sks (m : M unit) e :
  Gathers sks m -> Collects sks (tryCatch m (emit e)).
Proof.
intros H st. destruct (H st) as (evs & res & E). unfold tryCatch. rewrite E.
destruct res as [[]|].
- exists evs. reflexivity.
- exists (evs ++ [e]). unfold emit. cbn [collected events]. rewrite app_assoc. reflexivity.
Qed.

Lemma Gathers_assembleSkills rawBaseUrl c cc allFiles folders :
  Gathers
    (collectedUntil r rawBaseUrl c allFiles
       (List.filter (fun s => negb (skippedByInclude cc s) && negb (skippedByExclude cc s))
          folders))
    (assembleSkills r rawBaseUrl c cc allFiles folders).
Proof.
induction folders as [|s rest IH]; [apply Gathers_ret|].
cbn [assembleSkills List.filter].
destruct (skippedByInclude cc s); [exact IH|].
destruct (skippedByExclude cc s); [exact IH|].
cbn [negb andb collectedUntil]. intros st. unfold bind at 1.
rewrite fetchSkillFiles_fetchEach, fetchEach_spec.
fold (someFetchRejects r rawBaseUrl c s allFiles).
destruct (someFetchRejects r rawBaseUrl c s allFiles).
- eexists _, None. rewrite app_nil_r. reflexivity.
- cbn [app]. fold (fetchedFiles r rawBaseUrl c s allFiles).
  pose proof (Gathers_then _ _ _ _
                (Collects_collectSkill c s (fetchedFiles r rawBaseUrl c s allFiles)) IH) as H.
  destruct (H {| collected := collected st;
                 events := events st
                           ++ requestsOf r rawBaseUrl c s (List.filter (eligible c s) allFiles) |})
    as (evs & res & E).
  rewrite E. cbn [collected events].
  exists (requestsOf r rawBaseUrl c s (List.filter (eligible c s) allFiles) ++ evs), res.
  unfold skillOf. destruct (0 <? length _)%nat; rewrite <- ?app_assoc; reflexivity.
Qed.

Lemma Gathers_discoverCategory owner repo c cc :
  Gathers (contributionOf r owner repo c cc) (discoverCategory r owner repo c cc).
Proof.
intros st. unfold discoverCategory, contributionOf, bind, emit, await.
destruct (getTree r _) as [|status|treeData]; cbn [collected events].
- eexists _, None. rewrite app_nil_r, <- !app_assoc. reflexivity.
- eexists _, (Some tt). rewrite app_nil_r, <- !app_assoc. reflexivity.
- destruct (Gathers_assembleSkills
              (rawBaseUrlOf owner repo (Js.orElse (ref cc) "main")) c cc
              (default [] (tree treeData))
              (skillFolders c (default [] (tree treeData)))
              {| collected := collected st;
                 events := (events st
                            ++ [Log (MsgDiscovering c (Js.orElse (ref cc) "main"))])
                           ++ [Fetch (ForTree c (Js.orElse (ref cc) "main"))
                                 (treeUrlOf owner repo (Js.orElse (ref cc) "main"))] |})
    as (evs & res & E).
  rewrite E. cbn [collected events]. eexists _, res. rewrite <- !app_assoc. reflexivity.
Qed.

Lemma Collects_gathered owner repo config cats :
  (forall c, c ∈ cats -> is_Some (categoryConfigOf c (skills config))) ->
  Collects (gathered r owner repo config cats)
    (assembleCategories r owner repo config cats).
Proof.
induction cats as [|c rest IH]; intros Hknown; [apply Collects_ret|].
cbn [assembleCategories gathered flat_map].
destruct (Hknown c) as [cc Hcc]; [left|]. rewrite Hcc.
apply Collects_bind; [apply Collects_of_Gathers, Gathers_discoverCategory|].
apply IH. intros c' Hin. apply Hknown. right. exact Hin.
Qed.

Lemma gathered_own owner repo config cats :
  (forall c, c ∈ cats -> is_Some (lookupCategory c (skills config))) ->
  gathered r owner repo config cats = contributions r owner repo config cats.
Proof.
induction cats as [|c rest IH]; intros Hknown; [reflexivity|].
cbn [gathered contributions flat_map].
destruct (Hknown c) as [cc Hcc]; [left|].
rewrite (categoryConfigOf_own _ _ _ Hcc), Hcc. f_equal.
apply IH. intros c' Hin. apply Hknown. right. exact Hin.
Qed.

Lemma Collects_contributions owner repo config cats :
  (forall c, c ∈ cats -> is_Some (lookupCategory c (skills config))) ->
  Collects (contributions r owner repo config cats)
    (assembleCategories r owner repo config cats).
Proof.
intros Hknown. rewrite <- (gathered_own owner repo config cats Hknown).
apply Collects_gathered. intros c Hin. destruct (Hknown c Hin) as [cc Hcc].
exists cc. apply categoryConfigOf_own. exact Hcc.
Qed.

Lemma assembleFromRemote_gathered cats config owner repo :
  assemblerOwnerRepo (registry config) = Some (owner, repo) ->
  (forall c, c ∈ cats -> is_Some (categoryConfigOf c (skills config))) ->
  (assembleFromRemote r cats config).2 = Some (gathered r owner repo config cats).
Proof.
intros Hreg Hknown. unfold assembleFromRemote. rewrite Hreg.
destruct (Collects_gathered owner repo config cats Hknown
            {| collected := []; events := [] |}) as [evs E].
rewrite E. reflexivity.
Qed.

Lemma assembleFromRemote_contributions cats config owner repo :
  assemblerOwnerRepo (registry config) = Some (owner, repo) ->
  (forall c, c ∈ cats -> is_Some (lookupCategory c (skills config))) ->
  (assembleFromRemote r cats config).2 = Some (contributions r owner repo config cats).
Proof.
intros Hreg Hknown. unfold assembleFromRemote. rewrite Hreg.
destruct (Collects_contributions owner repo config cats Hknown
            {| collected := []; events := [] |}) as [evs E].
rewrite E. reflexivity.
Qed.

(** X6: what [assembleFromRemote] returns, whatever the remote answers.
    For categories of the configuration and a supported registry it
    returns normally, and the list is, category by category in the order
    given: nothing when the tree listing of the category does not
    succeed; otherwise the skills that pass the filters, in discovery
    order, up to the first one a file fetch of which rejects, each with
    the files fetched with success and those without any left out.  A
    category contributes the same whatever the other categories are. *)
Theorem assembled_list (cats : list string) (config : SkillConfig) (owner repo : string) :
  assemblerOwnerRepo (registry config) = Some (owner, repo) ->
  (forall c, c ∈ cats -> is_Some (lookupCategory c (skills config))) ->
  (assembleFromRemote r cats config).2 = Some (contributions r owner repo config cats).
Proof. apply assembleFromRemote_contributions. Qed.

(** *** Categories for which [config.skills] has nothing *)

Lemma lookupCategory_key k v (l : list (string * CategoryConfig)) :
  (k, v) ∈ l -> is_Some (lookupCategory k l).
Proof.
induction l as [|[k' v'] rest IH]; intros Hin; [apply elem_of_nil in Hin; contradiction|].
cbn [lookupCategory]. destruct (String.eqb k k') eqn:E; [eauto|].
apply elem_of_cons in Hin as [Heq|Hin]; [|apply IH; exact Hin].
injection Heq as -> _. rewrite String.eqb_refl in E. discriminate.
Qed.

Lemma lookupCategory_None k (l : list (string * CategoryConfig)) :
  lookupCategory k l = None <-> k ∉ map fst l.
Proof.
induction l as [|[k' v'] rest IH]; cbn [lookupCategory map fst].
- split; [intros _; apply not_elem_of_nil|reflexivity].
- destruct (String.eqb k k') eqn:E.
  + apply String.eqb_eq in E. subst k'. split; [discriminate|].
    intros H. exfalso. apply H. left.
  + apply String.eqb_neq in E. rewrite IH, not_elem_of_cons. tauto.
Qed.

(** [config.skills[category]] is defined for the own keys and for the
    inherited members, and for nothing else. *)
Lemma categoryConfigOf_defined k (l : list (string * CategoryConfig)) :
  is_Some (categoryConfigOf k l) <-> k ∈ map fst l \/ k ∈ objectPrototypeKeys.
Proof.
unfold categoryConfigOf.
destruct (lookupCategory k l) as [v|] eqn:E.
- split; [|eauto]. intros _. left.
  destruct (decide (k ∈ map fst l)) as [Hk|Hk]; [exact Hk|].
  apply lookupCategory_None in Hk. congruence.
- apply lookupCategory_None in E.
  destruct (Js.includes objectPrototypeKeys k) eqn:Hinc.
  + apply includes_elem in Hinc. split; [auto|eauto].
  + split; [intros [x Hx]; discriminate|].
    intros [Hk|Hk]; [contradiction|]. apply includes_elem in Hk. congruence.
Qed.

Lemma assembleCategories_throws owner repo config cats st :
  (exists c, c ∈ cats /\ categoryConfigOf c (skills config) = None) ->
  (assembleCategories r owner repo config cats st).2 = None.
Proof.
revert st. induction cats as [|c rest IH]; intros st (c' & Hin & Hnone);
  [apply elem_of_nil in Hin; contradiction|].
cbn [assembleCategories].
destruct (categoryConfigOf c (skills config)) as [cc|] eqn:Hcc; [|reflexivity].
apply elem_of_cons in Hin as [->|Hin]; [congruence|].
unfold bind.
destruct (Collects_of_Gathers _ _ (Log (MsgCategoryFailed c))
            (Gathers_discoverCategory owner repo c cc) st) as [evs E].
rewrite E. apply IH. exists c'. auto.
Qed.

(** X7: with a supported registry, [assembleFromRemote] returns normally
    exactly when [config.skills[category]] is defined for every category
    it is given: the category is a key of [config.skills], or the name of
    a member every object inherits ([toString], [constructor], ...), for
    which the listing is read at [main] without filters.  Any other
    category makes it throw (reading [ref] of [undefined]), whatever was
    collected before.  Nothing the remote answers makes it throw. *)
Theorem assemble_returns_iff_categories_known (cats : list string) (config : SkillConfig) :
  is_Some (assemblerOwnerRepo (registry config)) ->
  (is_Some (assembleFromRemote r cats config).2
   <-> forall c, c ∈ cats -> c ∈ map fst (skills config) \/ c ∈ objectPrototypeKeys).
Proof.
intros [[owner repo] Hreg]. split.
- intros Hsome c Hin. apply categoryConfigOf_defined.
  destruct (categoryConfigOf c (skills config)) as [cc|] eqn:Hcc; [eauto|].
  exfalso. unfold assembleFromRemote in Hsome. rewrite Hreg in Hsome.
  pose proof (assembleCategories_throws owner repo config cats
                {| collected := []; events := [] |}
                (ex_intro _ c (conj Hin Hcc))) as Hthrow.
  destruct (assembleCategories _ _ _ _ _ _) as [st [u|]]; [discriminate|].
  destruct Hsome as [x Hx]. discriminate.
- intros Hknown.
  rewrite (assembleFromRemote_gathered cats config owner repo Hreg); [eauto|].
  intros c Hin. apply categoryConfigOf_defined, Hknown, Hin.
Qed.

(** *** The shape of what is returned *)

Lemma skillFolders_shape c allFiles s :
  s ∈ skillFolders c allFiles -> s <> EmptyString /\ hasChar "/" s = false.
Proof.
unfold skillFolders, Js.uniq. rewrite uniq_aux_elem, list_elem_of_omap.
intros [(f & _ & Hs) _].
destruct (Js.split "/" (path f) !! 2%nat) as [part|] eqn:Hpart; [|discriminate].
destruct (Js.truthyStr part) eqn:Ht; [|discriminate]. injection Hs as <-.
split; [apply truthyStr_true; exact Ht|].
apply (split_parts "/" (path f)). eapply list_elem_of_lookup_2. exact Hpart.
Qed.

Lemma eligible_isSupported c s entry :
  eligible c s entry = true -> isSupported (eligibleName c s entry) = true.
Proof.
unfold eligible, isSupported, eligibleName. intros H.
apply andb_true_iff in H as [_ H]. exact H.
Qed.

Lemma collectedUntil_elem rawBaseUrl c allFiles survivors sk :
  sk ∈ collectedUntil r rawBaseUrl c allFiles survivors ->
  exists s, s ∈ survivors /\ skillOf r rawBaseUrl c allFiles s = Some sk.
Proof.
induction survivors as [|s rest IH]; cbn [collectedUntil]; intros Hin;
  [apply elem_of_nil in Hin; contradiction|].
destruct (someFetchRejects r rawBaseUrl c s allFiles);
  [apply elem_of_nil in Hin; contradiction|].
assert (Hrest : sk ∈ collectedUntil r rawBaseUrl c allFiles rest ->
          exists s', s' ∈ s :: rest /\ skillOf r rawBaseUrl c allFiles s' = Some sk).
{ intros H. destruct (IH H) as (s' & Hs' & Hsk). exists s'. split; [right|]; assumption. }
destruct (skillOf r rawBaseUrl c allFiles s) as [sk0|] eqn:Hs; [|exact (Hrest Hin)].
apply elem_of_cons in Hin as [->|Hin]; [|exact (Hrest Hin)].
exists s. split; [left|exact Hs].
Qed.

Lemma gathered_elem owner repo config cats sk :
  sk ∈ gathered r owner repo config cats ->
  exists c cc treeData s,
    c ∈ cats /\ categoryConfigOf c (skills config) = Some cc
    /\ getTree r (treeUrlOf owner repo (Js.orElse (ref cc) "main")) = Ok treeData
    /\ s ∈ survivingSkills c cc (default [] (tree treeData))
    /\ skillOf r (rawBaseUrlOf owner repo (Js.orElse (ref cc) "main")) c
         (default [] (tree treeData)) s = Some sk.
Proof.
unfold gathered. rewrite list_elem_of_In, in_flat_map.
intros (c & Hc & Hin). apply list_elem_of_In in Hc, Hin.
destruct (categoryConfigOf c (skills config)) as [cc|] eqn:Hcc;
  [|apply elem_of_nil in Hin; contradiction].
unfold contributionOf in Hin.
destruct (getTree r _) as [|status|treeData] eqn:Htree;
  try (apply elem_of_nil in Hin; contradiction).
apply collectedUntil_elem in Hin as (s & Hs & Hsk).
exists c, cc, treeData, s. auto.
Qed.

Lemma assemble_Some_defined cats config sks :
  is_Some (assemblerOwnerRepo (registry config)) ->
  (assembleFromRemote r cats config).2 = Some sks ->
  forall c, c ∈ cats -> is_Some (categoryConfigOf c (skills config)).
Proof.
intros [[owner repo] Hreg] Hres c Hin.
destruct (categoryConfigOf c (skills config)) as [cc|] eqn:Hcc; [eauto|].
exfalso. unfold assembleFromRemote in Hres. rewrite Hreg in Hres.
pose proof (assembleCategories_throws owner repo config cats
              {| collected := []; events := [] |}
              (ex_intro _ c (conj Hin Hcc))) as Hthrow.
destruct (assembleCategories _ _ _ _ _ _) as [st [u|]]; discriminate.
Qed.

(** X8: the shape of every skill [assembleFromRemote] returns, whatever
    the remote answers and whatever the categories asked for: its category
    is one of them, and one for which [config.skills[category]] is
    defined (a key of [config.skills], or the name of an inherited
    member); its name is a non-empty path segment without a slash; it has
    at least one file, and every file is the manifest [SKILL.md] or lies
    under [references/], [scripts/] or [assets/]. *)
Theorem returned_skills_are_well_formed (cats : list string) (config : SkillConfig)
    (sks : list CollectedSkill) (sk : CollectedSkill) :
  (assembleFromRemote r cats config).2 = Some sks ->
  sk ∈ sks ->
  category sk ∈ cats
  /\ (category sk ∈ map fst (skills config) \/ category sk ∈ objectPrototypeKeys)
  /\ skill sk <> EmptyString
  /\ hasChar "/" (skill sk) = false
  /\ files sk <> []
  /\ (forall f, f ∈ files sk -> isSupported (name f) = true).
Proof.
intros Hres Hin.
destruct (assemblerOwnerRepo (registry config)) as [[owner repo]|] eqn:Hreg.
- pose proof (assemble_Some_defined cats config sks (ex_intro _ _ Hreg) Hres) as Hknown.
  rewrite (assembleFromRemote_gathered cats config owner repo Hreg Hknown) in Hres.
  injection Hres as <-.
  apply gathered_elem in Hin as (c & cc & treeData & s & Hc & Hcc & _ & Hs & Hsk).
  apply skillOf_Some in Hsk as [Hlen ->]. cbn [category skill files].
  apply list_elem_of_In, filter_In in Hs as [Hs _]. apply list_elem_of_In in Hs.
  destruct (skillFolders_shape _ _ _ Hs) as [Hne Hslash].
  split; [exact Hc|]. split.
  { apply categoryConfigOf_defined. eauto. }
  split; [exact Hne|]. split; [exact Hslash|]. split.
  + intros Hnil. rewrite Hnil in Hlen. cbn in Hlen. lia.
  + intros f Hf. apply gotFrom_elem in Hf as (entry & Hentry & Hname & _).
    apply list_elem_of_In, filter_In in Hentry as [_ Hel].
    rewrite Hname. eapply eligible_isSupported. exact Hel.
- unfold assembleFromRemote in Hres. rewrite Hreg in Hres. injection Hres as <-.
  apply elem_of_nil in Hin. contradiction.
Qed.

End AssemblerMore.

(** ** The command: what a run always does *)

Section RunMore.

Lemma enabledCategories_known config c :
  c ∈ enabledCategories config -> is_Some (lookupCategory c (skills config)).
Proof.
unfold enabledCategories. intros Hin.
apply list_elem_of_fmap in Hin as ([k v] & -> & Hin).
apply list_elem_of_In, filter_In in Hin as [Hin _].
eapply lookupCategory_key. apply list_elem_of_In. exact Hin.
Qed.

Lemma assembleAndWrite_ends env config :
  exists evs, assembleAndWrite env config = evs ++ [Log MsgAllSynced].
Proof.
unfold assembleAndWrite.
destruct (assemblerOwnerRepo (registry config)) as [[owner repo]|] eqn:Hreg.
- pose proof (assembleFromRemote_contributions (remote env) (enabledCategories config)
                config owner repo Hreg (enabledCategories_known config)) as Hres.
  destruct (assembleFromRemote _ _ _) as [assembled res]. cbn [snd] in Hres. subst res.
  eexists. rewrite app_assoc. reflexivity.
- unfold assembleFromRemote. rewrite Hreg. eexists. rewrite app_assoc. reflexivity.
Qed.

(** X9: how a run ends.  With a [.skillsrc] that loads as a configuration
    of the shape of [SkillConfig] ([registry] a string, [skills] a mapping
    of category entries) a run always ends by reporting success ("All
    skills synced successfully"), whatever the registry is and whatever
    the remote answers: an unsupported registry, a listing that fails and
    a fetch that rejects are reported on the way and change nothing about
    the end (the file-system calls of the writer being taken to succeed).
    A [.skillsrc] that cannot be read or parsed, or that loads to
    something without a [registry] string or without [skills], ends the
    run with "Failed to sync skills"; a missing one with the hint to run
    [init]. *)
Theorem how_a_run_ends (env : Env) (skillsrc : Skillsrc) (p : Process) :
  exists evs,
    output (run env skillsrc p)
    = output p ++ evs
      ++ [Log match skillsrc with
              | Missing => MsgRunInitFirst
              | Loaded _ => MsgAllSynced
              | Unreadable | NotAConfig | NoSkills _ => MsgSyncFailed
              end].
Proof.
destruct skillsrc as [| | |registry|config]; cbn [run does output].
- exists [Log MsgSkillsrcNotFound]. reflexivity.
- exists []. reflexivity.
- exists (checkCLIUpdate (remote env) (packageJson env)). reflexivity.
- exists (checkCLIUpdate (remote env) (packageJson env)
          ++ checkForUpdatesNoSkills (remote env) registry
          ++ [Log (MsgSyncing registry)]).
  rewrite <- !app_assoc. reflexivity.
- destruct (checkForUpdates _ _ _) as [reconciled config'].
  destruct (assembleAndWrite_ends env config') as [evs Hevs].
  rewrite Hevs. cbn [does output].
  exists (checkCLIUpdate (remote env) (packageJson env) ++ reconciled
          ++ [Log (MsgSyncing (registry config'))] ++ evs).
  rewrite <- !app_assoc. reflexivity.
Qed.

End RunMore.

(** An empty [.skillsrc] loads to [undefined]: the CLI check has made its
    request when the run fails.  One with a registry but no [skills] gets
    as far as the metadata. *)
Example runs_on_incomplete_documents :
  output (syncAction (demoEnv (demoRemote (fun _ => Ok "text")) None) NotAConfig)
  = [ Fetch ForNpm "https://registry.npmjs.org/agent-skills-standard/latest";
      Log MsgSyncFailed ]
  /\ output (syncAction (demoEnv (demoRemote (fun _ => Ok "text")) None)
               (NoSkills demoRegistry))
     = [ Fetch ForNpm "https://registry.npmjs.org/agent-skills-standard/latest";
         Log MsgCheckingUpdates;
         Fetch ForRepo "https://api.github.com/repos/owner/repo";
         Fetch ForMetadata
           "https://raw.githubusercontent.com/owner/repo/main/skills/metadata.json";
         Log MsgCouldNotCheck;
         Log (MsgSyncing "https://github.com/owner/repo");
         Log MsgSyncFailed ].
Proof. split; vm_compute; reflexivity. Qed.

(** ** Version Reconciler: what it changes and what it never proposes *)

Section ReconcilerMore.

Lemma setRef_unpinned key newRef l :
  map unpinned (setRef key newRef l) = map unpinned l.
Proof.
induction l as [|[k v] rest IH]; [reflexivity|]. cbn [setRef].
destruct (String.eqb key k); cbn [map]; [reflexivity|]. rewrite IH. reflexivity.
Qed.

Lemma fold_setRef_unpinned updates l :
  map unpinned (fold_left (fun sk u => setRef (upd_category u) (to u) sk) updates l)
  = map unpinned l.
Proof.
revert l. induction updates as [|u rest IH]; intros l; [reflexivity|].
cbn [fold_left]. rewrite IH. apply setRef_unpinned.
Qed.


Lemma unpinned_enabled l1 l2 :
  map unpinned l1 = map unpinned l2 ->
  map fst (List.filter (fun entry : string * CategoryConfig => enabled entry.2) l1)
  = map fst (List.filter (fun entry : string * CategoryConfig => enabled entry.2) l2).
Proof.
revert l2. induction l1 as [|[k1 v1] rest1 IH]; intros [|[k2 v2] rest2] H;
  try discriminate; [reflexivity|].
cbn [map] in H. injection H as Hk He _ _ Hrest. cbn in Hk, He. subst k2.
cbn [List.filter snd]. rewrite He. destruct (enabled v2); cbn [map fst];
  rewrite (IH rest2 Hrest); reflexivity.
Qed.

(** What [checkForUpdates] returns is the configuration it was given, or
    that configuration with the candidates of some metadata applied. *)
Lemma checkForUpdates_result r answer config :
  (checkForUpdates r answer config).2 = config
  \/ exists remoteMeta,
       (checkForUpdates r answer config).2
       = applyUpdates (computeUpdates (skills config) remoteMeta) config.
Proof.
unfold checkForUpdates.
destruct (reconcilerOwnerRepo (registry config)) as [[owner repo]|]; [|left; reflexivity].
destruct (getRepo r _) as [|status|repoData]; try (left; reflexivity).
destruct (getMetadata r _) as [|status|remoteMeta]; try (left; reflexivity).
unfold proposeUpdates. destruct (0 <? length _)%nat; [|left; reflexivity].
destruct (answer _) as [[|]|]; try (left; reflexivity).
right. exists remoteMeta. reflexivity.
Qed.

(** X10: whatever the remote and the user answer, the reconciler changes
    refs only.  The configuration it returns has the registry, the
    agents and the overrides of the one it was given, the same categories
    in the same order with the same [enabled], [include] and [exclude];
    so the categories that are then synced are the same. *)
Theorem reconciler_changes_refs_only (r : Remote) (answer : list Update -> option bool)
    (config : SkillConfig) :
  registry (checkForUpdates r answer config).2 = registry config
  /\ agents (checkForUpdates r answer config).2 = agents config
  /\ custom_overrides (checkForUpdates r answer config).2 = custom_overrides config
  /\ map unpinned (skills (checkForUpdates r answer config).2)
     = map unpinned (skills config)
  /\ enabledCategories (checkForUpdates r answer config).2 = enabledCategories config.
Proof.
destruct (checkForUpdates_result r answer config) as [->|[remoteMeta ->]];
  [repeat split; reflexivity|].
assert (H : map unpinned (skills (applyUpdates (computeUpdates (skills config) remoteMeta)
                                    config))
            = map unpinned (skills config)) by apply fold_setRef_unpinned.
repeat split; try reflexivity; [exact H|].
unfold enabledCategories. apply unpinned_enabled. exact H.
Qed.

(** *** Accepted updates bring the configuration up to date *)


Lemma elem_key (k : string) (v : CategoryConfig) (l : list (string * CategoryConfig)) :
  (k, v) ∈ l -> k ∈ map fst l.
Proof. intros H. apply list_elem_of_fmap. exists (k, v). auto. Qed.



Lemma truthyStr_append a b : a <> EmptyString -> Js.truthyStr (a +:+ b) = true.
Proof. intros Ha. apply truthyStr_true. destruct a; [contradiction|discriminate]. Qed.


Lemma checkForUpdates_registry r answer config :
  registry (checkForUpdates r answer config).2 = registry config.
Proof.
destruct (checkForUpdates_result r answer config) as [->|[remoteMeta ->]]; reflexivity.
Qed.



(** X12: what is proposed.  Every candidate is for a category of the
    configuration that is enabled, goes to a non-empty tag and changes
    the ref ([from] differs from [to]); with distinct keys, a disabled
    category is never proposed and no category is proposed twice. *)
Theorem candidates_are_for_enabled_categories (entries : list (string * CategoryConfig))
    (remoteMeta : RemoteMetadata) :
  (forall u, u ∈ computeUpdates entries remoteMeta ->
             from u <> to u /\ to u <> EmptyString
             /\ exists cc, (upd_category u, cc) ∈ entries /\ enabled cc = true)
  /\ (NoDup (map fst entries) ->
      (forall cat cc u, (cat, cc) ∈ entries -> enabled cc = false ->
                        u ∈ computeUpdates entries remoteMeta -> upd_category u <> cat)
      /\ NoDup (map upd_category (computeUpdates entries remoteMeta))).
Proof.
split.
- intros u Hu.
  apply computeUpdates_elem in Hu as (cat & cc & v & q & Hin & Hen & _ & _ & Hq & Hne & ->).
  cbn. split; [exact Hne|]. split; [|eauto].
  intros Hnil. destruct q; [contradiction|discriminate].
- intros Hnd. split.
  + intros cat cc u Hin Hoff Hu.
    apply computeUpdates_elem in Hu as (c & k & v & q & Hk & Hen & _ & _ & _ & _ & ->).
    intros Hcat. cbn in Hcat. subst c.
    assert (k = cc); [|congruence].
    clear -Hnd Hin Hk. induction entries as [|[k0 v0] rest IH];
      [apply elem_of_nil in Hin; contradiction|].
    cbn [map fst] in Hnd. apply NoDup_cons in Hnd as [Hk0 Hnd].
    apply elem_of_cons in Hin as [Hin|Hin], Hk as [Hk|Hk].
    * congruence.
    * injection Hin as -> ->. exfalso. apply Hk0. eapply elem_key. exact Hk.
    * injection Hk as -> ->. exfalso. apply Hk0. eapply elem_key. exact Hin.
    * apply IH; assumption.
  + induction entries as [|[k0 v0] rest IH]; [constructor|].
    cbn [map fst] in Hnd. apply NoDup_cons in Hnd as [Hk0 Hnd].
    assert (Hrest : forall u, u ∈ computeUpdates rest remoteMeta -> upd_category u <> k0).
    { intros u Hu.
      apply computeUpdates_elem in Hu as (c & k & v & q & Hk & _ & _ & _ & _ & _ & ->).
      intros Hcat. cbn in Hcat. subst c. apply Hk0. eapply elem_key. exact Hk. }
    cbn [computeUpdates].
    destruct (negb (enabled v0)); [apply IH; exact Hnd|].
    destruct (remoteCategoryOf remoteMeta k0) as [[[v|] [q|]]|]; try (apply IH; exact Hnd).
    destruct (Js.truthyStr v && Js.truthyStr q); [|apply IH; exact Hnd].
    destruct (negb (String.eqb _ _)); [|apply IH; exact Hnd].
    cbn [map upd_category]. constructor; [|apply IH; exact Hnd].
    intros Hin. apply list_elem_of_fmap in Hin as (u & Hcat & Hu).
    apply (Hrest u Hu). symmetry. exact Hcat.
Qed.

End ReconcilerMore.

(** ** Registry locators: what a successful parse yields *)

Section LocatorsMore.

Lemma star_sound cls s k res :
  Regex.star cls s k = Some res ->
  exists word rest, s = word +:+ rest /\ allChars cls word = true /\ k rest = Some res.
Proof.
induction s as [|c s IH]; cbn [Regex.star]; intros H.
- exists EmptyString, EmptyString. auto.
- destruct (cls c) eqn:Hc.
  + destruct (Regex.star cls s k) as [res'|] eqn:Hstar.
    * injection H as <-. destruct (IH eq_refl) as (word & rest & -> & Hw & Hk).
      exists (String c word), rest. cbn. rewrite Hc, Hw. auto.
    * exists EmptyString, (String c s). auto.
  + exists EmptyString, (String c s). auto.
Qed.

Lemma length_append_string a b :
  String.length (a +:+ b) = (String.length a + String.length b)%nat.
Proof. induction a as [|c a IH]; [reflexivity|]. simpl. rewrite IH. reflexivity. Qed.

Lemma take_word word rest :
  Regex.take (String.length (word +:+ rest) - String.length rest) (word +:+ rest) = word.
Proof.
rewrite length_append_string.
replace (String.length word + String.length rest - String.length rest)%nat
  with (String.length word) by lia.
induction word as [|c word IH]; simpl.
- destruct rest; reflexivity.
- rewrite IH. reflexivity.
Qed.

(** A capturing group around a greedy class: the capture is a non-empty
    word of the class. *)
Lemma run_cap_plus n cls s caps k res :
  Regex.run (Regex.Cap n (Regex.Plus cls)) s caps k = Some res ->
  exists word rest,
    word <> EmptyString /\ allChars cls word = true
    /\ k rest ((n, word) :: caps) = Some res.
Proof.
cbn [Regex.run]. destruct s as [|d s]; [discriminate|].
destruct (cls d) eqn:Hd; [|discriminate].
intros H. apply star_sound in H as (word & rest & -> & Hw & Hk).
exists (String d word), rest. split; [discriminate|]. split.
- cbn. rewrite Hd, Hw. reflexivity.
- change (String d (word +:+ rest)) with (String d word +:+ rest) in Hk.
  rewrite take_word in Hk. exact Hk.
Qed.

Lemma run_lits_sound p s caps k res :
  Regex.run (Regex.lits p) s caps k = Some res -> exists rest, k rest caps = Some res.
Proof.
revert s. induction p as [|a p IH]; intros s H; cbn [Regex.lits Regex.run] in H.
- eauto.
- destruct s as [|d s]; [discriminate|].
  destruct (Ascii.eqb (Js.upcase a) (Js.upcase d)); [|discriminate].
  apply (IH s H).
Qed.

Lemma exec_sound re s caps :
  Regex.exec re s = Some caps ->
  exists t, Regex.run re t [] (fun _ found => Some found) = Some caps.
Proof.
induction s as [|c s IH]; cbn [Regex.exec].
- destruct (Regex.run re EmptyString [] _) eqn:E; [|discriminate].
  intros [= <-]. eauto.
- destruct (Regex.run re (String c s) [] _) eqn:E; [intros [= <-]; eauto|exact IH].
Qed.

Lemma notIn_hasChar c cs word :
  c ∈ cs -> allChars (Regex.notIn cs) word = true -> hasChar c word = false.
Proof.
intros Hc. induction word as [|d word IH]; [reflexivity|]. cbn.
intros H. apply andb_true_iff in H as [Hd Hw]. rewrite (IH Hw), orb_false_r.
unfold Regex.notIn in Hd. apply negb_true_iff in Hd.
destruct (Ascii.eqb d c) eqn:E; [|reflexivity].
apply Ascii.eqb_eq in E. subst d.
assert (existsb (Ascii.eqb c) cs = true); [|congruence].
apply existsb_exists. exists c. split; [apply list_elem_of_In; exact Hc|apply Ascii.eqb_refl].
Qed.

Lemma run_seq r1 r2 s caps k :
  Regex.run (Regex.Seq r1 r2) s caps k
  = Regex.run r1 s caps (fun rest caps' => Regex.run r2 rest caps' k).
Proof. reflexivity. Qed.

Lemma run_lit_sound c s caps k res :
  Regex.run (Regex.Lit c) s caps k = Some res -> exists rest, k rest caps = Some res.
Proof.
cbn [Regex.run]. destruct s as [|d s]; [discriminate|].
destruct (Ascii.eqb _ _); [eauto|discriminate].
Qed.

Lemma run_opt_lits_sound p s caps k res :
  Regex.run (Regex.Opt (Regex.lits p)) s caps k = Some res ->
  exists rest, k rest caps = Some res.
Proof.
cbn [Regex.run]. destruct (Regex.run (Regex.lits p) s caps k) as [res'|] eqn:E.
- intros [= <-]. eapply run_lits_sound. exact E.
- eauto.
Qed.

Lemma assembler_captures registry caps :
  Regex.exec assemblerPattern registry = Some caps ->
  exists owner repo,
    caps = [(2%nat, repo); (1%nat, owner)]
    /\ owner <> EmptyString /\ allChars (Regex.notIn ["/"%char]) owner = true
    /\ repo <> EmptyString /\ allChars (Regex.notIn ["/"%char]) repo = true.
Proof.
intros H. apply exec_sound in H as [t H]. unfold assemblerPattern in H.
rewrite run_seq in H. apply run_lits_sound in H as [s1 H]. cbv beta in H.
rewrite run_seq in H. apply run_cap_plus in H as (owner & s2 & Ho & Hoc & H).
cbv beta in H. rewrite run_seq in H. apply run_lit_sound in H as [s3 H]. cbv beta in H.
apply run_cap_plus in H as (repo & s4 & Hr & Hrc & H).
injection H as <-. exists owner, repo. auto.
Qed.

Lemma reconciler_captures registry caps :
  Regex.exec reconcilerPattern registry = Some caps ->
  exists owner repo,
    caps = [(2%nat, repo); (1%nat, owner)]
    /\ owner <> EmptyString /\ allChars (Regex.notIn ["/"%char]) owner = true
    /\ repo <> EmptyString /\ allChars (Regex.notIn ["/"%char; "."%char]) repo = true.
Proof.
intros H. apply exec_sound in H as [t H]. unfold reconcilerPattern in H.
rewrite run_seq in H. apply run_lits_sound in H as [s1 H]. cbv beta in H.
rewrite run_seq in H. apply run_cap_plus in H as (owner & s2 & Ho & Hoc & H).
cbv beta in H. rewrite run_seq in H. apply run_lit_sound in H as [s3 H]. cbv beta in H.
rewrite run_seq in H. apply run_cap_plus in H as (repo & s4 & Hr & Hrc & H).
cbv beta in H. apply run_opt_lits_sound in H as [s5 H].
injection H as <-. exists owner, repo. auto.
Qed.

(** X13: what a successful parse of the registry locator yields.  The
    locator contains [github.com/] (letters modulo case); the owner and
    the repository are non-empty and contain no slash; the repository the
    reconciler reads contains no dot either.  Nothing more is checked: a
    query, a fragment or [..] is taken over as it stands. *)
Theorem parsed_locator_is_well_formed (registry owner repo : string) :
  (assemblerOwnerRepo registry = Some (owner, repo) ->
   containsCI "github.com/" registry = true
   /\ owner <> EmptyString /\ hasChar "/" owner = false
   /\ repo <> EmptyString /\ hasChar "/" repo = false)
  /\ (reconcilerOwnerRepo registry = Some (owner, repo) ->
      containsCI "github.com/" registry = true
      /\ owner <> EmptyString /\ hasChar "/" owner = false
      /\ repo <> EmptyString /\ hasChar "/" repo = false /\ hasChar "." repo = false).
Proof.
split.
- intros H. split.
  { destruct (containsCI "github.com/" registry) eqn:E; [reflexivity|].
    rewrite (other_hosts_unsupported registry E) in H. discriminate. }
  unfold assemblerOwnerRepo in H.
  destruct (Regex.exec assemblerPattern registry) as [caps|] eqn:Hexec; [|discriminate].
  apply assembler_captures in Hexec as (o & rp & -> & Ho & Hoc & Hr & Hrc).
  cbn in H. injection H as <- <-.
  repeat split; try assumption; eapply notIn_hasChar; try eassumption; repeat constructor.
- intros H. split.
  { destruct (containsCI "github.com/" registry) eqn:E; [reflexivity|].
    unfold reconcilerOwnerRepo, reconcilerPattern in H.
    rewrite exec_lits_fails in H by exact E. discriminate. }
  unfold reconcilerOwnerRepo in H.
  destruct (Regex.exec reconcilerPattern registry) as [caps|] eqn:Hexec; [|discriminate].
  apply reconciler_captures in Hexec as (o & rp & -> & Ho & Hoc & Hr & Hrc).
  cbn [ownerRepo Regex.group Nat.eqb] in H.
  destruct (Js.truthyStr o && Js.truthyStr rp); [|discriminate]. injection H as <- <-.
  repeat split; try assumption; eapply notIn_hasChar; try eassumption; repeat constructor.
Qed.

End LocatorsMore.

(** A query and a fragment stay in the repository both stages read; [..]
    is an owner for both, and a repository for the assembler. *)
Example locator_is_taken_as_it_stands :
  assemblerOwnerRepo "https://github.com/owner/repo?tab=readme"
  = Some ("owner", "repo?tab=readme")
  /\ reconcilerOwnerRepo "https://github.com/owner/repo#readme"
     = Some ("owner", "repo#readme")
  /\ reconcilerOwnerRepo "https://github.com/../repo" = Some ("..", "repo")
  /\ assemblerOwnerRepo "https://github.com/owner/.." = Some ("owner", "..").
Proof. repeat split; vm_compute; reflexivity. Qed.

(** ** The initializer *)

Section InitMore.

(** *** Strings *)

Lemma startsWith_drop p s : Js.startsWith p s = true -> s = p +:+ Js.drop (String.length p) s.
Proof.
revert s. induction p as [|a p IH]; intros s H.
- destruct s; reflexivity.
- destruct s as [|b s]; [discriminate|]. cbn [Js.startsWith] in H.
  destruct (Ascii.eqb a b) eqn:E; [|discriminate].
  apply Ascii.eqb_eq in E. subst b. simpl. rewrite (IH _ H) at 1. reflexivity.
Qed.

Lemma split_aux_nonempty sep cur s : Js.split_aux sep cur s <> [].
Proof.
revert cur. induction s as [|c s IH]; intros cur; cbn [Js.split_aux]; [discriminate|].
destruct (Ascii.eqb c sep); [discriminate|apply IH].
Qed.

Lemma append_assoc (a b c : string) : (a +:+ b) +:+ c = a +:+ (b +:+ c).
Proof.
induction a as [|x a IH]; [reflexivity|].
change (String x ((a +:+ b) +:+ c) = String x (a +:+ (b +:+ c))). rewrite IH. reflexivity.
Qed.

Lemma append_empty (a : string) : a +:+ EmptyString = a.
Proof.
induction a as [|x a IH]; [reflexivity|].
change (String x (a +:+ EmptyString) = String x a). rewrite IH. reflexivity.
Qed.

Lemma join_split_aux sep cur s :
  Js.join (String sep EmptyString) (Js.split_aux sep cur s) = cur +:+ s.
Proof.
revert cur. induction s as [|c s IH]; intros cur; cbn [Js.split_aux].
- cbn [Js.join]. rewrite append_empty. reflexivity.
- destruct (Ascii.eqb c sep) eqn:E.
  + apply Ascii.eqb_eq in E. subst c.
    pose proof (split_aux_nonempty sep EmptyString s) as Hne.
    specialize (IH EmptyString).
    destruct (Js.split_aux sep EmptyString s) as [|q r]; [contradiction|].
    cbn [Js.join]. cbn [Js.join] in IH. rewrite IH. reflexivity.
  + rewrite IH. rewrite append_assoc. reflexivity.
Qed.

Lemma topLevelCategories_elem allFiles c :
  c ∈ topLevelCategories allFiles ->
  exists item, item ∈ allFiles /\ path item = "skills/" +:+ c /\ type item = "tree"
               /\ hasChar "/" c = false.
Proof.
unfold topLevelCategories, Js.uniq. intros H.
apply uniq_aux_elem in H as [H _].
apply list_elem_of_omap in H as (item & Hin & Hsome).
exists item. split; [exact Hin|].
destruct (Js.startsWith "skills/" (path item)) eqn:Hpre; [|discriminate].
destruct (String.eqb (type item) "tree") eqn:Hty; [|discriminate].
cbn [andb] in Hsome. apply String.eqb_eq in Hty.
apply startsWith_drop in Hpre. rewrite Hpre in Hsome.
change (Js.split "/" ("skills/" +:+ ?rest))
  with ("skills" :: Js.split "/" rest) in Hsome.
pose proof (join_split_aux "/" EmptyString (Js.drop (String.length "skills/") (path item)))
  as Hjoin.
pose proof (split_parts "/" (Js.drop (String.length "skills/") (path item))) as Hparts.
unfold Js.split in Hsome, Hparts.
destruct (Js.split_aux "/" EmptyString (Js.drop (String.length "skills/") (path item)))
  as [|q [|q' r]]; [discriminate| |discriminate].
injection Hsome as ->. cbn [Js.join] in Hjoin.
split; [|split; [exact Hty|]].
- rewrite Hpre at 1. rewrite Hjoin. reflexivity.
- apply Hparts. left.
Qed.

Lemma askRegistry_categories env :
  supportedCategoriesOf env = defaultCategories
  \/ exists treeData, treeReply env = Body treeData
       /\ supportedCategoriesOf env = topLevelCategories (default [] (tree treeData))
       /\ topLevelCategories (default [] (tree treeData)) <> [].
Proof.
unfold supportedCategoriesOf, askRegistry.
destruct (treeReply env) as [| | |treeData], (metadataReply env); cbn; auto.
all: unfold categoriesOfListing;
  destruct (topLevelCategories (default [] (tree treeData))) as [|c l] eqn:E; cbn; auto.
all: right; exists treeData; rewrite E; split; [reflexivity|split; [reflexivity|discriminate]].
Qed.

(** X17: the categories the initializer takes as supported are never
    empty and never repeat; each one is a default ([flutter], [dart]) or
    the name of a top-level folder [skills/<name>] of the listing the
    registry answered with. *)
Theorem supported_categories (env : InitEnv) :
  supportedCategoriesOf env <> []
  /\ NoDup (supportedCategoriesOf env)
  /\ forall c, c ∈ supportedCategoriesOf env ->
       c ∈ defaultCategories
       \/ exists treeData item,
            treeReply env = Body treeData /\ item ∈ default [] (tree treeData)
            /\ path item = "skills/" +:+ c /\ type item = "tree"
            /\ hasChar "/" c = false.
Proof.
destruct (askRegistry_categories env) as [E | (treeData & Hreply & E & Hne)]; rewrite E.
- split; [discriminate|]. split; [|intros c Hc; left; exact Hc].
  unfold defaultCategories. apply NoDup_cons. split; [|apply NoDup_singleton].
  intros H. apply list_elem_of_singleton in H. discriminate.
- split; [exact Hne|]. split; [apply uniq_aux_NoDup|].
  intros c Hc. right. apply topLevelCategories_elem in Hc as (item & Hin & Hp & Hty & Hc).
  exists treeData, item. auto.
Qed.

Lemma writtenConfigs_initRun env :
  writtenConfigs (initRun env)
  = if present env (configPathOf env) && negb (overwrite env) then []
    else [initialConfig env (registryMetadata env)].
Proof.
unfold initRun, registryMetadata, configPathOf, loadPackageDeps, askRegistry.
destruct (present env (NodePath.join [init_cwd env; ".skillsrc"])),
  (overwrite env), (present env (NodePath.join [init_cwd env; "package.json"])),
  (packageDeps env), (treeReply env), (metadataReply env),
  (Js.includes _ (chosenFramework env)); reflexivity.
Qed.


Lemma initialSkills_keys metadata framework :
  map fst (initialSkills metadata framework)
  = List.filter (Js.includes (neededSkills framework)) (Js.uniq allKnownCategories).
Proof.
unfold initialSkills.
induction (Js.uniq allKnownCategories) as [|k l IH]; [reflexivity|].
cbn [omap list_omap List.filter].
destruct (Js.includes (neededSkills framework) k); cbn [fmap list_fmap map fst];
  rewrite <- IH; reflexivity.
Qed.

(** X15: the categories the initializer enables for a framework of the
    table: the framework itself, its languages, and [react] in addition
    for Next.js and React Native; nothing else.  No category is entered
    twice, every entry is enabled and carries no filter. *)
Theorem init_enables_framework_and_languages (metadata : RemoteMetadata) (f : Framework) :
  let entries := initialSkills metadata (frameworkValue f) in
  NoDup (map fst entries)
  /\ (forall entry, entry ∈ entries ->
        enabled entry.2 = true /\ exclude entry.2 = None /\ include entry.2 = None)
  /\ (forall k, k ∈ map fst entries <->
        k = frameworkValue f \/ k ∈ languages (getFrameworkDefinition f)
        \/ ((f = NextJS \/ f = ReactNative) /\ k = frameworkValue React)).
Proof.
cbn zeta. split; [|split].
- rewrite initialSkills_keys. apply NoDup_ListNoDup, List.NoDup_filter, NoDup_ListNoDup.
  apply uniq_aux_NoDup.
- intros entry Hin. unfold initialSkills in Hin.
  apply list_elem_of_omap in Hin as (k & _ & Hsome).
  destruct (Js.includes _ k); [|discriminate]. injection Hsome as <-. auto.
- intros k. rewrite initialSkills_keys.
  destruct f; vm_compute List.filter; cbn [languages getFrameworkDefinition frameworkValue];
    rewrite ?elem_of_cons, ?elem_of_nil; split; intros H;
    repeat match goal with
    | H : _ \/ _ |- _ => destruct H
    | H : _ /\ _ |- _ => destruct H
    | H : False |- _ => destruct H
    end; subst; try discriminate; auto 10.
Qed.

Lemma computeUpdates_pinned metadata (needed : string -> bool) l :
  computeUpdates
    (omap (fun skillName =>
             if needed skillName then
               Some (skillName,
                     {| enabled := true; ref := pinnedRef metadata skillName;
                        exclude := None; include := None |})
             else None) l)
    metadata = [].
Proof.
induction l as [|k l IH]; [reflexivity|].
cbn [omap list_omap]. destruct (needed k); [|exact IH].
cbn [computeUpdates enabled negb ref]. rewrite IH. unfold pinnedRef.
destruct (remoteCategoryOf metadata k) as [[[v|] [p|]]|]; try reflexivity.
destruct (Js.truthyStr v) eqn:Hv, (Js.truthyStr p) eqn:Hp; try reflexivity.
cbn [andb Js.orElse].
apply truthyStr_true in Hp. rewrite (truthyStr_append p v Hp).
rewrite String.eqb_refl. reflexivity.
Qed.

(** X16: a configuration fresh from the initializer is up to date: against
    the metadata it was pinned from, the reconciler of [sync] finds no
    update to propose.  It carries the registry and the agents the user
    answered, the agents as a list (also when none was selected), and an
    empty list of overrides. *)
Theorem written_config_is_up_to_date (env : InitEnv) (config : SkillConfig) :
  config ∈ writtenConfigs (initRun env) ->
  computeUpdates (skills config) (registryMetadata env) = []
  /\ registry config = chosenRegistry env
  /\ agents config = Some (chosenAgents env)
  /\ custom_overrides config = Some [].
Proof.
rewrite writtenConfigs_initRun.
destruct (present env (configPathOf env) && negb (overwrite env)); intros Hin.
- apply elem_of_nil in Hin. contradiction.
- apply list_elem_of_singleton in Hin. subst config.
  split; [apply computeUpdates_pinned|]. auto.
Qed.

Lemma flagOf_framework env deps (f : Framework) :
  flagOf (framework_id (getFrameworkDefinition f)) (detectionResults env deps)
  = frameworkDetected env deps (getFrameworkDefinition f).
Proof. destruct f; reflexivity. Qed.

Lemma flagOf_agent env (a : Agent) :
  flagOf (agent_id (getAgentDefinition a)) (agentDetection env)
  = detectedByFiles env (detectionFiles (getAgentDefinition a)).
Proof. destruct a; reflexivity. Qed.

Lemma find_ext {A} (p q : A -> bool) l :
  (forall x, x ∈ l -> p x = q x) -> find p l = find q l.
Proof.
induction l as [|x l IH]; intros H; [reflexivity|]. cbn [find].
rewrite (H x) by left. rewrite IH; [reflexivity|]. intros y Hy. apply H. right. exact Hy.
Qed.

(** X18: the framework the prompt starts on is the first framework of the
    table that was detected, [flutter] when none was; it is always one of
    the values the prompt offers. *)
Theorem default_framework_is_first_detected (env : InitEnv) (deps cats : list string) :
  defaultFrameworkOf (detectionResults env deps)
  = match find (frameworkDetected env deps) SUPPORTED_FRAMEWORKS with
    | Some f => framework_id f
    | None => "flutter"
    end
  /\ defaultFrameworkOf (detectionResults env deps) ∈ map snd (frameworkChoices cats).
Proof.
assert (E : defaultFrameworkOf (detectionResults env deps)
            = match find (frameworkDetected env deps) SUPPORTED_FRAMEWORKS with
              | Some f => framework_id f
              | None => "flutter"
              end).
{ unfold defaultFrameworkOf.
  rewrite (find_ext _ (frameworkDetected env deps)).
  - destruct (find _ _) as [f|] eqn:Hf; [|reflexivity].
    apply find_some in Hf as [Hin _]. apply in_map_iff in Hin as (x & <- & _).
    destruct x; reflexivity.
  - intros f Hin. apply list_elem_of_fmap in Hin as (x & -> & _).
    apply (flagOf_framework env deps x). }
split; [exact E|]. rewrite E.
unfold frameworkChoices. rewrite map_map. cbn [snd].
destruct (find _ _) as [f|] eqn:Hf.
- apply find_some in Hf as [Hin _]. apply list_elem_of_In, in_map. exact Hin.
- apply (list_elem_of_fmap_2 framework_id SUPPORTED_FRAMEWORKS (getFrameworkDefinition Flutter)).
  left.
Qed.

(** X19: the agents the prompt starts with.  An agent of the table is
    pre-selected when one of its detection files exists, or when no agent
    at all was detected; so there is always a pre-selected agent. *)
Theorem agent_preselection (env : InitEnv) :
  (exists a, a ∈ SUPPORTED_AGENTS /\ shouldCheck env (agent_id a) = true)
  /\ forall a, a ∈ SUPPORTED_AGENTS ->
       shouldCheck env (agent_id a)
       = if existsb (fun d => detectedByFiles env (detectionFiles d)) SUPPORTED_AGENTS
         then detectedByFiles env (detectionFiles a) else true.
Proof.
assert (Hany : existsb snd (agentDetection env)
               = existsb (fun d => detectedByFiles env (detectionFiles d)) SUPPORTED_AGENTS).
{ unfold agentDetection. induction SUPPORTED_AGENTS as [|d l IH]; [reflexivity|].
  cbn [map existsb snd]. rewrite IH. reflexivity. }
assert (Hall : forall a, a ∈ SUPPORTED_AGENTS ->
          shouldCheck env (agent_id a)
          = if existsb (fun d => detectedByFiles env (detectionFiles d)) SUPPORTED_AGENTS
            then detectedByFiles env (detectionFiles a) else true).
{ intros a Hin. unfold shouldCheck. rewrite Hany.
  apply list_elem_of_fmap in Hin as (x & -> & _).
  destruct (existsb _ SUPPORTED_AGENTS); [|reflexivity].
  apply (flagOf_agent env x). }
split; [|exact Hall].
destruct (existsb (fun d => detectedByFiles env (detectionFiles d)) SUPPORTED_AGENTS) eqn:E.
- pose proof E as E'. apply existsb_exists in E' as (a & Hin & Ha). exists a.
  apply list_elem_of_In in Hin. split; [exact Hin|].
  rewrite (Hall a Hin), ?E. exact Ha.
- exists (getAgentDefinition Cursor). assert (Hin : getAgentDefinition Cursor ∈ SUPPORTED_AGENTS) by left.
  split; [exact Hin|]. rewrite (Hall _ Hin), ?E. reflexivity.
Qed.

End InitMore.

(** ** Override rules *)

Section OverridesMore.

Lemma replaceBackslashes_append a b :
  Js.replaceBackslashes (a +:+ b) = Js.replaceBackslashes a +:+ Js.replaceBackslashes b.
Proof.
induction a as [|c a IH]; [reflexivity|].
change (Js.replaceBackslashes (String c (a +:+ b))
        = String (if Ascii.eqb c "\" then "/"%char else c)
            (Js.replaceBackslashes a +:+ Js.replaceBackslashes b)).
cbn [Js.replaceBackslashes]. rewrite IH. reflexivity.
Qed.

Lemma stripTrailingSlash_append s : Js.stripTrailingSlash (s +:+ "/") = s.
Proof.
induction s as [|c s IH]; [reflexivity|].
change (Js.stripTrailingSlash (String c (s +:+ "/")) = String c s).
destruct s as [|d s]; [reflexivity|].
change (String c (Js.stripTrailingSlash (String d s +:+ "/")) = String c (String d s)).
rewrite IH. reflexivity.
Qed.

Lemma stripTrailingSlash_id s :
  NodePath.endsWithSlash s = false -> Js.stripTrailingSlash s = s.
Proof.
induction s as [|c s IH]; [reflexivity|]. destruct s as [|d s].
- cbn. intros ->. reflexivity.
- intros H. change (String c (Js.stripTrailingSlash (String d s)) = String c (String d s)).
  rewrite IH; [reflexivity|exact H].
Qed.

Lemma startsWith_refl s : Js.startsWith s s = true.
Proof. induction s as [|c s IH]; [reflexivity|]. cbn. rewrite Ascii.eqb_refl. exact IH. Qed.

Lemma startsWith_longer s t : t <> EmptyString -> Js.startsWith (s +:+ t) s = false.
Proof.
intros Ht. induction s as [|c s IH].
- destruct t; [contradiction|reflexivity].
- change (Js.startsWith (String c (s +:+ t)) (String c s) = false).
  cbn [Js.startsWith]. rewrite Ascii.eqb_refl. exact IH.
Qed.

(** X20: an override rule that names a directory protects the same paths
    with and without a trailing slash, the path equal to the rule itself
    apart: that one is matched by the rule without the slash only. *)
Theorem directory_rule_with_or_without_slash (relativePath o : string)
    (Hdir : NodePath.endsWithSlash (Js.replaceBackslashes o) = false) :
  overrideMatches relativePath (o +:+ "/")
  = overrideMatches relativePath o
    && negb (String.eqb relativePath (Js.replaceBackslashes o)).
Proof.
unfold overrideMatches. cbn zeta.
rewrite replaceBackslashes_append.
change (Js.replaceBackslashes "/") with "/".
rewrite stripTrailingSlash_append, (stripTrailingSlash_id _ Hdir).
destruct (String.eqb relativePath (Js.replaceBackslashes o +:+ "/")) eqn:E1.
- apply String.eqb_eq in E1. subst relativePath. rewrite startsWith_refl.
  rewrite !orb_true_r. cbn [orb andb]. symmetry. apply negb_true_iff.
  apply String.eqb_neq. intros H.
  pose proof (startsWith_refl (Js.replaceBackslashes o +:+ "/")) as Hrefl.
  rewrite H in Hrefl at 2. rewrite startsWith_longer in Hrefl by discriminate.
  discriminate.
- cbn [orb]. destruct (String.eqb relativePath (Js.replaceBackslashes o)) eqn:E2.
  + apply String.eqb_eq in E2. subst relativePath.
    rewrite startsWith_longer by discriminate. reflexivity.
  + cbn [orb negb]. rewrite andb_true_r. reflexivity.
Qed.

End OverridesMore.

(** ** Skill Assembler: every category has its turn *)

Section DiscoveryMore.

Variable r : Remote.

Lemma discoverCategory_requests owner repo c cc st :
  exists evs col,
    tryCatch (discoverCategory r owner repo c cc) (emit (Log (MsgCategoryFailed c))) st
    = ({| collected := col; events := events st ++ evs |}, Some tt)
    /\ Fetch (ForTree c (Js.orElse (ref cc) "main"))
         (treeUrlOf owner repo (Js.orElse (ref cc) "main")) ∈ evs.
Proof.
unfold tryCatch, discoverCategory, bind, emit, await.
destruct (getTree r _) as [|status|treeData]; cbn [collected events].
- eexists _, _. rewrite <- !app_assoc. split; [reflexivity|]. cbn. right. left.
- eexists _, _. rewrite <- !app_assoc. split; [reflexivity|]. cbn. right. left.
- destruct (Gathers_assembleSkills r
              (rawBaseUrlOf owner repo (Js.orElse (ref cc) "main")) c cc
              (default [] (tree treeData))
              (skillFolders c (default [] (tree treeData)))
              {| collected := collected st;
                 events := (events st
                            ++ [Log (MsgDiscovering c (Js.orElse (ref cc) "main"))])
                           ++ [Fetch (ForTree c (Js.orElse (ref cc) "main"))
                                 (treeUrlOf owner repo (Js.orElse (ref cc) "main"))] |})
    as (evs & res & E).
  rewrite E. cbn [collected events]. destruct res as [[]|]; cbn [collected events].
  + eexists _, _. rewrite <- !app_assoc. split; [reflexivity|]. cbn. right. left.
  + eexists _, _. rewrite <- !app_assoc. split; [reflexivity|]. cbn. right. left.
Qed.

Lemma assembleCategories_requests owner repo config cats c cc :
  (forall c', c' ∈ cats -> is_Some (lookupCategory c' (skills config))) ->
  c ∈ cats -> lookupCategory c (skills config) = Some cc ->
  forall st, exists evs col,
    assembleCategories r owner repo config cats st
    = ({| collected := col; events := events st ++ evs |}, Some tt)
    /\ Fetch (ForTree c (Js.orElse (ref cc) "main"))
         (treeUrlOf owner repo (Js.orElse (ref cc) "main")) ∈ evs.
Proof.
induction cats as [|c0 rest IH]; intros Hknown Hin Hcc st;
  [apply elem_of_nil in Hin; contradiction|].
assert (Hrest : forall c', c' ∈ rest -> is_Some (lookupCategory c' (skills config)))
  by (intros c' Hc'; apply Hknown; right; exact Hc').
cbn [assembleCategories].
destruct (Hknown c0) as [cc0 Hcc0]; [left|].
rewrite (categoryConfigOf_own _ _ _ Hcc0). unfold bind.
destruct (decide (c = c0)) as [->|Hne].
- assert (cc0 = cc) by congruence. subst cc0.
  destruct (discoverCategory_requests owner repo c0 cc st) as (evs1 & col1 & E1 & Hreq).
  rewrite E1.
  destruct (Collects_contributions r owner repo config rest Hrest
              {| collected := col1; events := events st ++ evs1 |}) as [evs2 E2].
  rewrite E2. cbn [collected events]. rewrite <- app_assoc.
  eexists _, _. split; [reflexivity|]. apply elem_of_app. left. exact Hreq.
- apply elem_of_cons in Hin as [->|Hin]; [contradiction|].
  destruct (discoverCategory_requests owner repo c0 cc0 st) as (evs1 & col1 & E1 & _).
  rewrite E1.
  destruct (IH Hrest Hin Hcc {| collected := col1; events := events st ++ evs1 |})
    as (evs2 & col2 & E2 & Hreq).
  rewrite E2. cbn [collected events]. rewrite <- app_assoc.
  eexists _, _. split; [reflexivity|]. apply elem_of_app. right. exact Hreq.
Qed.

Lemma assembleFromRemote_requests cats config owner repo c cc :
  assemblerOwnerRepo (registry config) = Some (owner, repo) ->
  (forall c', c' ∈ cats -> is_Some (lookupCategory c' (skills config))) ->
  c ∈ cats -> lookupCategory c (skills config) = Some cc ->
  Fetch (ForTree c (Js.orElse (ref cc) "main"))
    (treeUrlOf owner repo (Js.orElse (ref cc) "main"))
  ∈ (assembleFromRemote r cats config).1.
Proof.
intros Hreg Hknown Hin Hcc. unfold assembleFromRemote. rewrite Hreg.
destruct (assembleCategories_requests owner repo config cats c cc Hknown Hin Hcc
            {| collected := []; events := [] |}) as (evs & col & E & Hreq).
rewrite E. exact Hreq.
Qed.

(** X21: with a supported registry, the listing of every category asked
    for is requested, at the ref its entry pins or at [main], whatever the
    remote answers: a category that cannot be fetched, or that fails half
    way, does not keep the loop from the categories after it. *)
Theorem every_category_is_discovered (cats : list string) (config : SkillConfig)
    (owner repo c : string) (cc : CategoryConfig) :
  assemblerOwnerRepo (registry config) = Some (owner, repo) ->
  (forall c', c' ∈ cats -> is_Some (lookupCategory c' (skills config))) ->
  c ∈ cats -> lookupCategory c (skills config) = Some cc ->
  Fetch (ForTree c (Js.orElse (ref cc) "main"))
    (treeUrlOf owner repo (Js.orElse (ref cc) "main"))
  ∈ (assembleFromRemote r cats config).1.
Proof. apply assembleFromRemote_requests. Qed.

End DiscoveryMore.

(** ** The command: from the reconciler to the assembler *)

Section ComposeMore.





End ComposeMore.

(** ** The command: what it requests *)

Section RequestsMore.

Variable r : Remote.

Lemma Only_ret {A} Q (a : A) : Only Q (ret a).
Proof. intros st. exists []. rewrite app_nil_r. split; [reflexivity|constructor]. Qed.

Lemma Only_throw {A} Q : Only Q (@throw A).
Proof. intros st. exists []. rewrite app_nil_r. split; [reflexivity|constructor]. Qed.

Lemma Only_bind {A B} Q (m : M A) (f : A -> M B) :
  Only Q m -> (forall a, Only Q (f a)) -> Only Q (bind m f).
Proof.
intros Hm Hf st. unfold bind. destruct (Hm st) as (evs1 & E1 & H1).
destruct (m st) as [st1 [a|]]; cbn [fst] in E1.
- destruct (Hf a st1) as (evs2 & E2 & H2). exists (evs1 ++ evs2).
  rewrite E2, E1, app_assoc. split; [reflexivity|]. apply Forall_app. auto.
- exists evs1. auto.
Qed.

Lemma Only_tryCatch {A} Q (m handler : M A) :
  Only Q m -> Only Q handler -> Only Q (tryCatch m handler).
Proof.
intros Hm Hh st. unfold tryCatch. destruct (Hm st) as (evs1 & E1 & H1).
destruct (m st) as [st1 [a|]]; cbn [fst] in E1.
- exists evs1. auto.
- destruct (Hh st1) as (evs2 & E2 & H2). exists (evs1 ++ evs2).
  rewrite E2, E1, app_assoc. split; [reflexivity|]. apply Forall_app. auto.
Qed.

Lemma Only_emit (Q : Event -> Prop) e : Q e -> Only Q (emit e).
Proof. intros H st. exists [e]. split; [reflexivity|]. repeat constructor. exact H. Qed.

Lemma Only_push Q sk : Only Q (push sk).
Proof. intros st. exists []. rewrite app_nil_r. split; [reflexivity|constructor]. Qed.

Lemma Only_await {A} (Q : Event -> Prop) why url (outcome : Fetched A) :
  Q (Fetch why url) -> Only Q (await why url outcome).
Proof. intros H st. exists [Fetch why url]. split; [reflexivity|]. repeat constructor. exact H. Qed.

Lemma Only_fetchSkillFiles owner repo ref c s items skillFiles :
  Only (assemblerRequest owner repo)
    (fetchSkillFiles r (rawBaseUrlOf owner repo ref) c s items skillFiles).
Proof.
revert skillFiles. induction items as [|fileItem rest IH]; intros skillFiles;
  [apply Only_ret|].
cbn [fetchSkillFiles].
destruct (isSupported _ && String.eqb _ _); [|apply IH].
apply Only_bind; [apply Only_await; exists ref; reflexivity|].
intros [| |content]; apply IH.
Qed.

Lemma Only_collectSkill owner repo c s skillFiles :
  Only (assemblerRequest owner repo) (collectSkill c s skillFiles).
Proof.
unfold collectSkill. destruct (0 <? length skillFiles)%nat; [|apply Only_ret].
apply Only_bind; [apply Only_push|]. intros _. apply Only_emit. exact I.
Qed.

Lemma Only_assembleSkills owner repo ref c cc allFiles folders :
  Only (assemblerRequest owner repo)
    (assembleSkills r (rawBaseUrlOf owner repo ref) c cc allFiles folders).
Proof.
induction folders as [|s rest IH]; [apply Only_ret|].
cbn [assembleSkills].
destruct (skippedByInclude cc s); [exact IH|].
destruct (skippedByExclude cc s); [exact IH|].
apply Only_bind; [apply Only_fetchSkillFiles|]. intros skillFiles.
apply Only_bind; [apply Only_collectSkill|]. intros _. exact IH.
Qed.

Lemma Only_discoverCategory owner repo c cc :
  Only (assemblerRequest owner repo) (discoverCategory r owner repo c cc).
Proof.
unfold discoverCategory.
apply Only_bind; [apply Only_emit; exact I|]. intros _.
apply Only_bind; [apply Only_await; reflexivity|].
intros [|status|treeData];
  [apply Only_throw|apply Only_emit; exact I|apply Only_assembleSkills].
Qed.

Lemma Only_assembleCategories owner repo config cats :
  Only (assemblerRequest owner repo) (assembleCategories r owner repo config cats).
Proof.
induction cats as [|c rest IH]; [apply Only_ret|].
cbn [assembleCategories].
destruct (categoryConfigOf c (skills config)) as [cc|]; [|apply Only_throw].
apply Only_bind; [|intros _; exact IH].
apply Only_tryCatch; [apply Only_discoverCategory|apply Only_emit; exact I].
Qed.

Lemma assembleFromRemote_requestFor cats config why url :
  Fetch why url ∈ (assembleFromRemote r cats config).1 ->
  requestFor (registry config) why url.
Proof.
unfold assembleFromRemote.
destruct (assemblerOwnerRepo (registry config)) as [[owner repo]|] eqn:Hreg.
- destruct (Only_assembleCategories owner repo config cats
              {| collected := []; events := [] |}) as (evs & E & Hall).
  destruct (assembleCategories _ _ _ _ _ _) as [st res]. cbn [fst events app] in E.
  intros Hin.
  assert (Hin' : Fetch why url ∈ evs) by (destruct res; rewrite <- E; exact Hin).
  rewrite Forall_forall in Hall. specialize (Hall _ Hin').
  destruct why as [| | |c ref|c s rel]; cbn in Hall; try contradiction.
  + exists owner, repo. auto.
  + destruct Hall as [ref ->]. exists owner, repo, ref. auto.
- intros Hin. apply list_elem_of_singleton in Hin. discriminate.
Qed.

End RequestsMore.

Section RunRequests.

Lemma writeToTargets_no_fetch cwd sks config why url :
  Fetch why url ∉ writeToTargets cwd sks config.
Proof.
unfold writeToTargets. intros Hin.
apply list_elem_of_In, in_flat_map in Hin as (agentId & _ & Hin).
unfold writeAgent in Hin. destruct (findAgent agentId) as [d|]; [|destruct Hin].
destruct (Js.truthyStr _); [|destruct Hin].
destruct Hin as [Hin|Hin]; [discriminate|].
apply in_app_or in Hin as [Hin|[Hin|[]]]; [|discriminate].
apply in_flat_map in Hin as (sk & _ & [Hin|Hin]); [discriminate|].
apply in_flat_map in Hin as (f & _ & Hin). unfold writeFile in Hin.
destruct (isOverridden _ _); destruct Hin as [Hin|[]]; discriminate.
Qed.

Lemma checkCLIUpdate_requestFor remote pj registry why url :
  Fetch why url ∈ checkCLIUpdate remote pj -> requestFor registry why url.
Proof.
unfold checkCLIUpdate. destruct pj as [[currentVersion|]|]; intros Hin.
- apply elem_of_cons in Hin as [Hin|Hin]; [injection Hin as -> ->; reflexivity|].
  exfalso. destruct (getNpm remote npmUrl) as [|status|remoteData].
  + apply list_elem_of_singleton in Hin. discriminate.
  + apply elem_of_nil in Hin. exact Hin.
  + destruct (negb _); [|apply elem_of_nil in Hin; exact Hin].
    apply elem_of_cons in Hin as [Hin|Hin]; [discriminate|].
    apply list_elem_of_singleton in Hin. discriminate.
- apply list_elem_of_singleton in Hin. discriminate.
- apply elem_of_nil in Hin. contradiction.
Qed.

Lemma proposeUpdates_no_fetch answer config updates why url :
  Fetch why url ∉ (proposeUpdates answer config updates).1.
Proof.
unfold proposeUpdates. intros Hin.
assert (Hshown : Fetch why url
                 ∉ Log (MsgUpdatesAvailable (length updates))
                   :: map (fun u => Log (MsgUpdateLine u)) updates ++ [Prompt updates]).
{ intros H. apply elem_of_cons in H as [H|H]; [discriminate|].
  apply elem_of_app in H as [H|H].
  - apply list_elem_of_fmap in H as (u & H & _). discriminate.
  - apply list_elem_of_singleton in H. discriminate. }
destruct (0 <? length updates)%nat.
- destruct (answer updates) as [[]|]; cbn [fst] in Hin.
  + apply elem_of_app in Hin as [Hin|Hin]; [exact (Hshown Hin)|].
    apply elem_of_cons in Hin as [Hin|Hin]; [discriminate|].
    apply list_elem_of_singleton in Hin. discriminate.
  + exact (Hshown Hin).
  + apply elem_of_app in Hin as [Hin|Hin]; [exact (Hshown Hin)|].
    apply list_elem_of_singleton in Hin. discriminate.
- apply list_elem_of_singleton in Hin. discriminate.
Qed.

Lemma checkForUpdates_requestFor remote answer config why url :
  Fetch why url ∈ (checkForUpdates remote answer config).1 ->
  requestFor (registry config) why url.
Proof.
unfold checkForUpdates.
destruct (reconcilerOwnerRepo (registry config)) as [[owner repo]|] eqn:Hreg;
  [|intros Hin; apply elem_of_nil in Hin; contradiction].
assert (Hrepo : forall evs,
          Fetch why url
          ∈ [Log MsgCheckingUpdates; Fetch ForRepo (repoUrlOf owner repo)] ++ evs ->
          Fetch why url ∉ evs -> requestFor (registry config) why url).
{ intros evs Hin Hnot. apply elem_of_app in Hin as [Hin|Hin]; [|contradiction].
  apply elem_of_cons in Hin as [Hin|Hin]; [discriminate|].
  apply list_elem_of_singleton in Hin. injection Hin as -> ->.
  exists owner, repo. auto. }
assert (Hlog : Fetch why url ∉ [Log MsgCouldNotCheck]).
{ intros H. apply list_elem_of_singleton in H. discriminate. }
destruct (getRepo remote (repoUrlOf owner repo)) as [|status|repoData]; cbn [fst].
- intros Hin. apply (Hrepo _ Hin Hlog).
- intros Hin. apply (Hrepo []); [rewrite app_nil_r; exact Hin|apply not_elem_of_nil].
- cbn zeta.
  assert (Hmeta : forall evs,
            Fetch why url
            ∈ ([Log MsgCheckingUpdates; Fetch ForRepo (repoUrlOf owner repo)]
               ++ [Fetch ForMetadata
                     (metaUrlOf owner repo (Js.orElse (default_branch repoData) "main"))])
              ++ evs ->
            Fetch why url ∉ evs -> requestFor (registry config) why url).
  { intros evs Hin Hnot. apply elem_of_app in Hin as [Hin|Hin]; [|contradiction].
    apply elem_of_app in Hin as [Hin|Hin].
    - apply (Hrepo []); [rewrite app_nil_r; exact Hin|apply not_elem_of_nil].
    - apply list_elem_of_singleton in Hin. injection Hin as -> ->.
      exists owner, repo, (Js.orElse (default_branch repoData) "main"). auto. }
  destruct (getMetadata remote _) as [|status|remoteMeta]; cbn [fst].
  + intros Hin. apply (Hmeta _ Hin Hlog).
  + intros Hin. apply (Hmeta []); [rewrite app_nil_r; exact Hin|apply not_elem_of_nil].
  + pose proof (proposeUpdates_no_fetch answer config
                  (computeUpdates (skills config) remoteMeta) why url) as Hno.
    destruct (proposeUpdates _ _ _) as [evs config']. cbn [fst] in *.
    intros Hin. apply (Hmeta _ Hin Hno).
Qed.

Lemma startsWith_append p s : Js.startsWith p (p +:+ s) = true.
Proof.
induction p as [|c p IH]; [reflexivity|].
change (Js.startsWith (String c p) (String c (p +:+ s)) = true).
cbn [Js.startsWith]. rewrite Ascii.eqb_refl. exact IH.
Qed.

Lemma requestFor_knownHost registry why url :
  requestFor registry why url -> knownHost url = true.
Proof.
unfold knownHost.
destruct why as [| | |c ref|c s rel]; cbn [requestFor].
- intros ->. reflexivity.
- intros (owner & repo & _ & ->). unfold repoUrlOf.
  rewrite (startsWith_append "https://api.github.com/repos/"), orb_true_r. reflexivity.
- intros (owner & repo & branch & _ & ->). unfold metaUrlOf.
  rewrite (startsWith_append "https://raw.githubusercontent.com/"). apply orb_true_r.
- intros (owner & repo & _ & ->). unfold treeUrlOf.
  rewrite (startsWith_append "https://api.github.com/repos/"), orb_true_r. reflexivity.
- intros (owner & repo & ref & _ & ->). unfold fileUrlOf, rawBaseUrlOf.
  rewrite !append_assoc.
  rewrite (startsWith_append "https://raw.githubusercontent.com/"). apply orb_true_r.
Qed.

Lemma checkForUpdatesNoSkills_requestFor remote registry why url :
  Fetch why url ∈ checkForUpdatesNoSkills remote registry ->
  requestFor registry why url /\ (why = ForRepo \/ why = ForMetadata).
Proof.
unfold checkForUpdatesNoSkills.
destruct (reconcilerOwnerRepo registry) as [[owner repo]|] eqn:Hreg;
  [|intros Hin; apply elem_of_nil in Hin; contradiction].
assert (Hrepo : Fetch why url = Fetch ForRepo (repoUrlOf owner repo) ->
                requestFor registry why url /\ (why = ForRepo \/ why = ForMetadata)).
{ intros Heq. injection Heq as -> ->. split; [exists owner, repo|]; auto. }
assert (Hmeta : forall branch,
          Fetch why url = Fetch ForMetadata (metaUrlOf owner repo branch) ->
          requestFor registry why url /\ (why = ForRepo \/ why = ForMetadata)).
{ intros branch Heq. injection Heq as -> ->. split; [exists owner, repo, branch|]; auto. }
destruct (getRepo remote (repoUrlOf owner repo)) as [|status|repoData];
  [| |cbn zeta; destruct (getMetadata remote _) as [|status|remoteMeta]];
  cbn [app]; intros Hin;
  repeat (apply elem_of_cons in Hin as [Hin|Hin]; [try discriminate; eauto|]);
  apply elem_of_nil in Hin; contradiction.
Qed.

(** X23: what a run requests.  Every request a run adds to what the
    process had done has the URL its purpose calls for: the npm entry of
    the tool; the repository and the metadata for the owner and the
    repository the reconciler reads from the registry locator; a listing
    or a skill file for the pair the assembler reads from it.  So every
    request goes to the npm registry, to GitHub's API or to GitHub's raw
    content.  What is requested follows what [.skillsrc] is: nothing when
    it is missing or cannot be read or parsed; the npm entry alone when
    the document has no [registry] string (an empty file, for one); the
    npm entry, the repository and the metadata when it has no [skills];
    listings and skill files only for a loaded configuration. *)
Theorem run_requests (env : Env) (skillsrc : Skillsrc) (p : Process)
    (why : Purpose) (url : string) :
  Fetch why url ∈ output (run env skillsrc p) ->
  Fetch why url ∈ output p
  \/ (runRequest skillsrc why url /\ knownHost url = true).
Proof.
intros Hin.
assert (Hnpm : Fetch why url
               ∈ checkCLIUpdate (remote env) (packageJson env) ->
               why = ForNpm /\ url = npmUrl).
{ intros H. pose proof (checkCLIUpdate_requestFor _ _ EmptyString _ _ H) as Hreq.
  unfold checkCLIUpdate in H. destruct (packageJson env) as [[currentVersion|]|].
  - apply elem_of_cons in H as [H|H]; [injection H as -> ->; auto|].
    exfalso. destruct (getNpm (remote env) npmUrl) as [|status|remoteData].
    + apply list_elem_of_singleton in H. discriminate.
    + apply elem_of_nil in H. exact H.
    + destruct (negb _); [|apply elem_of_nil in H; exact H].
      apply elem_of_cons in H as [H|H]; [discriminate|].
      apply list_elem_of_singleton in H. discriminate.
  - apply list_elem_of_singleton in H. discriminate.
  - apply elem_of_nil in H. contradiction. }
assert (H : Fetch why url ∈ output p \/ runRequest skillsrc why url).
{ destruct skillsrc as [| | |registry|config]; cbn [run does output runRequest] in *.
  - apply elem_of_app in Hin as [Hin|Hin]; [left; exact Hin|].
    apply elem_of_cons in Hin as [Hin|Hin]; [discriminate|].
    apply list_elem_of_singleton in Hin. discriminate.
  - apply elem_of_app in Hin as [Hin|Hin]; [left; exact Hin|].
    apply list_elem_of_singleton in Hin. discriminate.
  - apply elem_of_app in Hin as [Hin|Hin]; [left; exact Hin|].
    apply elem_of_app in Hin as [Hin|Hin]; [right; apply Hnpm; exact Hin|].
    apply list_elem_of_singleton in Hin. discriminate.
  - apply elem_of_app in Hin as [Hin|Hin]; [left; exact Hin|]. right.
    apply elem_of_app in Hin as [Hin|Hin].
    { destruct (Hnpm Hin) as [-> ->]. split; [reflexivity|auto]. }
    apply elem_of_app in Hin as [Hin|Hin].
    { apply checkForUpdatesNoSkills_requestFor in Hin as [Hreq Hwhy]. tauto. }
    apply elem_of_cons in Hin as [Hin|Hin]; [discriminate|].
    apply list_elem_of_singleton in Hin. discriminate.
  - pose proof (checkForUpdates_requestFor (remote env) (answer env) config why url)
      as Hrec.
    pose proof (checkForUpdates_registry (remote env) (answer env) config) as Hreg.
    destruct (checkForUpdates (remote env) (answer env) config) as [reconciled config'].
    cbn [fst snd] in Hrec, Hreg. cbn [does output] in Hin.
    apply elem_of_app in Hin as [Hin|Hin]; [left; exact Hin|].
    right.
    apply elem_of_app in Hin as [Hin|Hin];
      [eapply checkCLIUpdate_requestFor; exact Hin|].
    apply elem_of_app in Hin as [Hin|Hin]; [apply Hrec; exact Hin|].
    apply elem_of_cons in Hin as [Hin|Hin]; [discriminate|].
    rewrite <- Hreg. unfold assembleAndWrite in Hin.
    pose proof (assembleFromRemote_requestFor (remote env) (enabledCategories config')
                  config' why url) as Hasm.
    destruct (assembleFromRemote _ _ _) as [assembled [collectedSkills|]];
      cbn [fst] in Hasm.
    + apply elem_of_app in Hin as [Hin|Hin]; [apply Hasm; exact Hin|].
      apply elem_of_app in Hin as [Hin|Hin].
      * exfalso. exact (writeToTargets_no_fetch _ _ _ _ _ Hin).
      * apply list_elem_of_singleton in Hin. discriminate.
    + apply elem_of_app in Hin as [Hin|Hin]; [apply Hasm; exact Hin|].
      apply list_elem_of_singleton in Hin. discriminate. }
destruct H as [H|H]; [left; exact H|]. right. split; [exact H|].
destruct skillsrc as [| | |registry|config]; cbn [runRequest] in H.
- contradiction.
- contradiction.
- destruct H as [_ ->]. reflexivity.
- destruct H as [H _]. eapply requestFor_knownHost. exact H.
- eapply requestFor_knownHost. exact H.
Qed.

End RunRequests.

(** ** Skill Assembler: the files of a skill *)

Section FilesOfASkill.


Variable r : Remote.

(** *** Every file request is for an eligible entry *)







(** *** Without a rejection every eligible entry is requested *)

Hypothesis no_reject : forall url, getRaw r url <> Rejected.





End FilesOfASkill.




(** ** The further properties on the fixtures *)

(** X1 on the bloc skill, with an agent the table does not know. *)
Lemma unknown_agents_are_skipped_witness :
  agents (demoConfig demoRegistry (Some ["cursor"; "vim"]) (demoCategory None None) None)
  = Some ["cursor"; "vim"]
  /\ writeToTargets "/home/dev/app" [demoSkill]
       (demoConfig demoRegistry (Some ["cursor"; "vim"]) (demoCategory None None) None)
     = writeToTargets "/home/dev/app" [demoSkill]
         (demoConfig demoRegistry (Some ["cursor"]) (demoCategory None None) None).
Proof.
split; [reflexivity|].
exact (unknown_agents_are_skipped "/home/dev/app" [demoSkill]
         (demoConfig demoRegistry (Some ["cursor"; "vim"]) (demoCategory None None) None)
         ["cursor"; "vim"] eq_refl).
Defined.

(** X3 on the manifest of the bloc skill, the references kept by an override. *)
Lemma disk_content_is_old_or_collected_witness :
  readFile "/home/dev/app"
    (applyEvents "/home/dev/app" demoLocalFS
       (writeToTargets "/home/dev/app" [demoSkill]
          (demoConfig demoRegistry (Some ["cursor"]) (demoCategory None None)
             (Some [demoOverride]))))
    ".cursor/skills/flutter/bloc/SKILL.md" = Some "remote manifest"
  /\ (readFile "/home/dev/app" demoLocalFS ".cursor/skills/flutter/bloc/SKILL.md"
      = Some "remote manifest"
      \/ exists sk target,
           sk ∈ [demoSkill] /\ writesFileOf sk target "remote manifest"
           /\ NodePath.resolve "/home/dev/app" target
              = NodePath.resolve "/home/dev/app" ".cursor/skills/flutter/bloc/SKILL.md"
           /\ isOverridden (default [] (Some [demoOverride]))
                (targetRelativePath "/home/dev/app" target) = false).
Proof.
assert (H : readFile "/home/dev/app"
              (applyEvents "/home/dev/app" demoLocalFS
                 (writeToTargets "/home/dev/app" [demoSkill]
                    (demoConfig demoRegistry (Some ["cursor"]) (demoCategory None None)
                       (Some [demoOverride]))))
              ".cursor/skills/flutter/bloc/SKILL.md" = Some "remote manifest")
  by (vm_compute; reflexivity).
split; [exact H|].
exact (disk_content_is_old_or_collected "/home/dev/app" [demoSkill]
         (demoConfig demoRegistry (Some ["cursor"]) (demoCategory None None)
            (Some [demoOverride]))
         demoLocalFS ".cursor/skills/flutter/bloc/SKILL.md" "remote manifest" H).
Defined.

(** X4 on the guide of the bloc skill, for the Cursor agent. *)
Lemma free_files_are_written_witness :
  OutputFile (targetOf ".cursor/skills" demoSkill demoGuide) "remote guide"
    ∈ writeToTargets "/home/dev/app" [demoSkill]
        (demoConfig demoRegistry (Some ["cursor"]) (demoCategory None None) None)
  /\ exists text sk' target,
       readFile "/home/dev/app"
         (applyEvents "/home/dev/app" demoLocalFS
            (writeToTargets "/home/dev/app" [demoSkill]
               (demoConfig demoRegistry (Some ["cursor"]) (demoCategory None None) None)))
         (targetOf ".cursor/skills" demoSkill demoGuide) = Some text
       /\ sk' ∈ [demoSkill] /\ writesFileOf sk' target text
       /\ NodePath.resolve "/home/dev/app" target
          = NodePath.resolve "/home/dev/app" (targetOf ".cursor/skills" demoSkill demoGuide).
Proof.
apply (free_files_are_written "/home/dev/app" [demoSkill]
         (demoConfig demoRegistry (Some ["cursor"]) (demoCategory None None) None)
         demoLocalFS ["cursor"] "cursor" (getAgentDefinition Cursor) demoSkill demoGuide).
- reflexivity.
- left.
- reflexivity.
- left.
- right. left.
- reflexivity.
Defined.

(** X6 on a remote that rejects the request for the guide. *)
Lemma assembled_list_witness :
  assemblerOwnerRepo
    (registry (demoConfig demoRegistry None (demoCategory None None) None))
  = Some ("owner", "repo")
  /\ (assembleFromRemote (demoRemote (guideFails Rejected)) ["flutter"]
        (demoConfig demoRegistry None (demoCategory None None) None)).2
     = Some (contributions (demoRemote (guideFails Rejected)) "owner" "repo"
               (demoConfig demoRegistry None (demoCategory None None) None) ["flutter"]).
Proof.
assert (H : assemblerOwnerRepo
              (registry (demoConfig demoRegistry None (demoCategory None None) None))
            = Some ("owner", "repo")) by (vm_compute; reflexivity).
split; [exact H|].
apply (assembled_list (demoRemote (guideFails Rejected)) ["flutter"]
         (demoConfig demoRegistry None (demoCategory None None) None) "owner" "repo" H).
intros c Hc. apply list_elem_of_singleton in Hc. subst c. eexists. reflexivity.
Defined.

(** X7 on a key of the configuration and an inherited member. *)
Lemma assemble_returns_iff_categories_known_witness :
  is_Some (assemblerOwnerRepo
             (registry (demoConfig demoRegistry None (demoCategory None None) None)))
  /\ (is_Some (assembleFromRemote (demoRemote (fun _ => Ok "text")) ["flutter"; "toString"]
                 (demoConfig demoRegistry None (demoCategory None None) None)).2
      <-> forall c, c ∈ ["flutter"; "toString"] ->
            c ∈ map fst (skills (demoConfig demoRegistry None (demoCategory None None) None))
            \/ c ∈ objectPrototypeKeys).
Proof.
assert (H : is_Some (assemblerOwnerRepo
              (registry (demoConfig demoRegistry None (demoCategory None None) None))))
  by (exists ("owner", "repo"); vm_compute; reflexivity).
split; [exact H|].
exact (assemble_returns_iff_categories_known (demoRemote (fun _ => Ok "text"))
         ["flutter"; "toString"]
         (demoConfig demoRegistry None (demoCategory None None) None) H).
Defined.

(** A category that [config.skills] inherits is listed at [main] and
    nothing throws; one it does not have makes the assembler throw. *)
Example inherited_category :
  assembleFromRemote (demoRemote (fun _ => Ok "text")) ["toString"]
    (demoConfig demoRegistry None (demoCategory None None) None)
  = ([ Log (MsgDiscovering "toString" "main");
       Fetch (ForTree "toString" "main")
         "https://api.github.com/repos/owner/repo/git/trees/main?recursive=1" ],
     Some [])
  /\ assembleFromRemote (demoRemote (fun _ => Ok "text")) ["react"]
       (demoConfig demoRegistry None (demoCategory None None) None)
     = ([], None).
Proof. split; vm_compute; reflexivity. Qed.

(** X8 on the ui skill of the demo registry. *)
Lemma returned_skills_are_well_formed_witness :
  exists sks sk,
    (assembleFromRemote (demoRemote (fun _ => Ok "text")) ["flutter"]
       (demoConfig demoRegistry None (demoCategory None None) None)).2 = Some sks
    /\ sk ∈ sks
    /\ category sk ∈ ["flutter"]
    /\ (category sk
        ∈ map fst (skills (demoConfig demoRegistry None (demoCategory None None) None))
        \/ category sk ∈ objectPrototypeKeys)
    /\ skill sk <> EmptyString
    /\ hasChar "/" (skill sk) = false
    /\ files sk <> []
    /\ (forall f, f ∈ files sk -> isSupported (name f) = true).
Proof.
exists [ {| category := "flutter"; skill := "bloc";
            files := [ {| name := "SKILL.md"; content := "text" |};
                       {| name := "references/guide.md"; content := "text" |};
                       {| name := "scripts/run.sh"; content := "text" |} ] |};
         {| category := "flutter"; skill := "ui";
            files := [ {| name := "SKILL.md"; content := "text" |} ] |} ],
       {| category := "flutter"; skill := "ui";
          files := [ {| name := "SKILL.md"; content := "text" |} ] |}.
assert (H : (assembleFromRemote (demoRemote (fun _ => Ok "text")) ["flutter"]
               (demoConfig demoRegistry None (demoCategory None None) None)).2
            = Some [ {| category := "flutter"; skill := "bloc";
                        files := [ {| name := "SKILL.md"; content := "text" |};
                                   {| name := "references/guide.md"; content := "text" |};
                                   {| name := "scripts/run.sh"; content := "text" |} ] |};
                     {| category := "flutter"; skill := "ui";
                        files := [ {| name := "SKILL.md"; content := "text" |} ] |} ])
  by (vm_compute; reflexivity).
split; [exact H|].
assert (Hin : {| category := "flutter"; skill := "ui";
                 files := [ {| name := "SKILL.md"; content := "text" |} ] |}
              ∈ [ {| category := "flutter"; skill := "bloc";
                     files := [ {| name := "SKILL.md"; content := "text" |};
                                {| name := "references/guide.md"; content := "text" |};
                                {| name := "scripts/run.sh"; content := "text" |} ] |};
                  {| category := "flutter"; skill := "ui";
                     files := [ {| name := "SKILL.md"; content := "text" |} ] |} ])
  by (right; left).
split; [exact Hin|].
exact (returned_skills_are_well_formed (demoRemote (fun _ => Ok "text")) ["flutter"]
         (demoConfig demoRegistry None (demoCategory None None) None) _ _ H Hin).
Defined.


(** X16 on a Flutter project without a configuration. *)
Lemma written_config_is_up_to_date_witness :
  initialConfig demoInitEnv (demoMetadata "v") ∈ writtenConfigs (initRun demoInitEnv)
  /\ computeUpdates (skills (initialConfig demoInitEnv (demoMetadata "v")))
       (registryMetadata demoInitEnv) = [].
Proof.
assert (H : initialConfig demoInitEnv (demoMetadata "v")
            ∈ writtenConfigs (initRun demoInitEnv)) by left.
split; [exact H|].
exact (proj1 (written_config_is_up_to_date demoInitEnv _ H)).
Defined.

(** X20 on a rule written with backslashes. *)
Lemma directory_rule_with_or_without_slash_witness :
  NodePath.endsWithSlash (Js.replaceBackslashes ".cursor\skills\flutter") = false
  /\ overrideMatches ".cursor/skills/flutter/bloc/SKILL.md" (".cursor\skills\flutter" +:+ "/")
     = overrideMatches ".cursor/skills/flutter/bloc/SKILL.md" ".cursor\skills\flutter"
       && negb (String.eqb ".cursor/skills/flutter/bloc/SKILL.md"
                  (Js.replaceBackslashes ".cursor\skills\flutter")).
Proof.
split; [reflexivity|].
exact (directory_rule_with_or_without_slash ".cursor/skills/flutter/bloc/SKILL.md"
         ".cursor\skills\flutter" eq_refl).
Defined.

(** X21 on a pinned category. *)
Lemma every_category_is_discovered_witness :
  assemblerOwnerRepo
    (registry (demoConfig demoRegistry None (demoPinned "v1.0.0") None))
  = Some ("owner", "repo")
  /\ Fetch (ForTree "flutter" "v1.0.0")
       "https://api.github.com/repos/owner/repo/git/trees/v1.0.0?recursive=1"
     ∈ (assembleFromRemote (demoRemote (guideFails Rejected)) ["flutter"]
          (demoConfig demoRegistry None (demoPinned "v1.0.0") None)).1.
Proof.
assert (H : assemblerOwnerRepo
              (registry (demoConfig demoRegistry None (demoPinned "v1.0.0") None))
            = Some ("owner", "repo")) by (vm_compute; reflexivity).
split; [exact H|].
apply (every_category_is_discovered (demoRemote (guideFails Rejected)) ["flutter"]
         (demoConfig demoRegistry None (demoPinned "v1.0.0") None)
         "owner" "repo" "flutter" (demoPinned "v1.0.0") H).
- intros c Hc. apply list_elem_of_singleton in Hc. subst c. eexists. reflexivity.
- left.
- reflexivity.
Defined.


(** X23 on the request for the manifest of the bloc skill. *)
Lemma run_requests_witness :
  Fetch (ForFile "flutter" "bloc" "SKILL.md")
    "https://raw.githubusercontent.com/owner/repo/main/skills/flutter/bloc/SKILL.md"
  ∈ output (run (demoEnv (demoRemote (fun _ => Ok "text")) None)
              (Loaded (demoConfig demoRegistry (Some ["cursor"]) (demoCategory None None)
                         None))
              {| exitCode := 0; output := [] |})
  /\ requestFor demoRegistry (ForFile "flutter" "bloc" "SKILL.md")
       "https://raw.githubusercontent.com/owner/repo/main/skills/flutter/bloc/SKILL.md".
Proof.
assert (H : Fetch (ForFile "flutter" "bloc" "SKILL.md")
              "https://raw.githubusercontent.com/owner/repo/main/skills/flutter/bloc/SKILL.md"
            ∈ output (run (demoEnv (demoRemote (fun _ => Ok "text")) None)
                        (Loaded (demoConfig demoRegistry (Some ["cursor"])
                                   (demoCategory None None) None))
                        {| exitCode := 0; output := [] |}))
  by (apply (list_elem_of_lookup_2 _ 8%nat); vm_compute; reflexivity).
split; [exact H|].
destruct (run_requests _ _ _ _ _ H) as [Hold|[Hreq _]].
- apply elem_of_nil in Hold. contradiction.
- exact Hreq.
Defined.
